(** * A shallow embedding of the WebSocket session gateway

    The development follows the TypeScript sources module by module:
    [utils/cookie.ts], [services/dynamoDbClient.ts],
    [services/connectionService.ts], [services/messageService.ts],
    [plugins/auth.ts], [middleware/webSocketAuth.ts],
    [plugins/webSocketPlugin.ts] and [utils/errorHandler.ts].

    Asynchronous functions become computations in a state-and-exception
    monad over a [World]: the two DynamoDB tables, the module-level JWKS
    cache of [plugins/auth.ts], the cached API Gateway client of
    [services/messageService.ts], and a log of the outbound calls made so
    far.  Everything outside the repository (the clock, uuid generation,
    DynamoDB, the API Gateway management API, the Cognito JWKS endpoint and
    the jsonwebtoken / jwk-to-pem libraries) is an oracle of the
    environment [Env]; an oracle that can answer differently from one call
    to the next is indexed by the number of oracle calls made so far. *)

From Stdlib Require Import ZArith Lia Ascii String.
From stdpp Require Import base strings gmap list numbers.

(** ** JavaScript string primitives *)

Module JsString.

(** [s.includes(sub)] *)
Fixpoint includes (sub s : string) : bool :=
  String.prefix sub s ||
  match s with
  | EmptyString => false
  | String _ s' => includes sub s'
  end.

(** [s.split(sep)] for a non-empty separator: scan left to right, cut at
    each occurrence of [sep] and resume after it ([skip] counts the
    characters of the separator still to be passed over). *)
Fixpoint split_go (sep : string) (skip : nat) (s : string) : list string :=
  match s with
  | EmptyString => [EmptyString]
  | String c s' =>
      match skip with
      | S n => split_go sep n s'
      | O =>
          if String.prefix sep s
          then EmptyString :: split_go sep (String.length sep - 1) s'
          else match split_go sep 0 s' with
               | h :: t => String c h :: t
               | [] => [String c EmptyString]
               end
      end
  end.

Definition split (sep s : string) : list string := split_go sep 0 s.

(** [arr.join(sep)] *)
Definition join (sep : string) (arr : list string) : string :=
  String.concat sep arr.

(** Truthiness of a possibly undefined string: [undefined] and the empty
    string are falsy. *)
Definition truthy (v : option string) : option string :=
  match v with
  | Some EmptyString => None
  | _ => v
  end.

(** [a || b] on possibly undefined strings *)
Definition or_else (a b : option string) : option string :=
  match truthy a with
  | Some v => Some v
  | None => b
  end.

End JsString.

(** ** utils/cookie.ts *)

Module Cookie.
Import JsString.

(** [Object.fromEntries]: a later entry overwrites an earlier one with
    the same key. *)
Definition fromEntries (entries : list (string * string)) : gmap string string :=
  fold_left (fun m e => <[e.1 := e.2]> m) entries ∅.

(** The arrow function mapped over the pairs:
    [const [key, ...valueArr] = c.split("="); value = valueArr.join("=")] *)
Definition parsePair (c : string) : string * string :=
  match split "=" c with
  | key :: valueArr => (key, join "=" valueArr)
  | [] => (EmptyString, EmptyString)
  end.

Definition parseCookies (cookieHeader : option string) : gmap string string :=
  match cookieHeader with
  | None => ∅
  | Some EmptyString => ∅
  | Some h => fromEntries (map parsePair (split "; " h))
  end.

(** [cookies[cookieName]] on the parsed object, as far as its own
    properties go, which are the cookies of the header.  What the
    prototype adds under a name that is no cookie is in
    [PlainObject.getCookie]. *)
Definition getCookie (cookieHeader : option string) (cookieName : string)
  : option string :=
  parseCookies cookieHeader !! cookieName.

(** The parsing rule in the words of the specification: a pair is cut at
    its first ["="]; what precedes is the name, everything after it is
    the value. *)
Fixpoint before_first (d : ascii) (s : string) : string :=
  match s with
  | EmptyString => EmptyString
  | String a s' =>
      if Ascii.eqb a d then EmptyString else String a (before_first d s')
  end.

Fixpoint after_first (d : ascii) (s : string) : string :=
  match s with
  | EmptyString => EmptyString
  | String a s' => if Ascii.eqb a d then s' else after_first d s'
  end.

Definition spec_pair_on_first_eq (c : string) : string * string :=
  (before_first "=" c, after_first "=" c).

(** A cookie header as a client writes it. *)
Definition renderPair (p : string * string) : string := p.1 +:+ "=" +:+ p.2.

Definition renderCookies (ps : list (string * string)) : string :=
  join "; " (map renderPair ps).

(** Names hold no ["="], and neither names nor values hold the pair
    separator ["; "]; values may hold ["="]. *)
Definition cookie_ok (p : string * string) : Prop :=
  includes "=" p.1 = false ∧ includes "; " p.1 = false ∧
  includes "; " p.2 = false.

End Cookie.

(** ** The runtime: values, tables, oracles and the monad *)

Module Runtime.

(** A thrown JavaScript value, reduced to the properties the sources read:
    [name], [message], [code] and the SDK's [$metadata.httpStatusCode]. *)
Record JsError := {
  err_name : string;
  err_message : string;
  err_code : option string;
  err_httpStatusCode : option Z;
}.

(** [new Error(message)] *)
Definition newError (message : string) : JsError :=
  {| err_name := "Error"; err_message := message;
     err_code := None; err_httpStatusCode := None |}.

(** The [TypeError] of Node 18 (the runtime set in template.yaml) for
    reading [property] of [undefined]. *)
Definition cannotRead (property : string) : JsError :=
  {| err_name := "TypeError";
     err_message :=
       "Cannot read properties of undefined (reading '" +:+ property +:+ "')";
     err_code := None; err_httpStatusCode := None |}.

Inductive result (A : Type) : Type :=
| Ok (a : A)
| Throw (e : JsError).
Arguments Ok {A} a.
Arguments Throw {A} e.

(** A row of the connections table, as [addConnection] builds it. *)
Record Connection := {
  connectionId : string;
  timestamp : Z;
  ttl : Z;
  userData : gmap string string;
}.

(** [interface Message] of services/messageService.ts *)
Record Message := {
  id : string;
  msg_connectionId : string;
  content : string;
  msg_timestamp : Z;
  msg_ttl : Z;
  sessionId : string;
  metadata : option (gmap string string);
}.

(** The object [sendToClient] serialises in [persistAndSendMessage]. *)
Record Payload := {
  messageId : string;
  pl_content : string;
  pl_timestamp : Z;
  pl_metadata : option (gmap string string);
}.

Record Jwk := {
  jwk_kid : string;
  jwk_material : string;
}.

Record JwtHeader := {
  header_kid : option string;
}.

Record JwtPayload := {
  sub : option string;
  iss : string;
  exp : Z;
}.

(** The options object handed to [jwt.verify]. *)
Record VerifyOptions := {
  opt_issuer : string;
  opt_algorithms : list string;
}.

(** config/index.ts, the entries the modelled code reads. *)
Record Config := {
  region : string;
  userPoolId : string;
  cookieName : string;
  jwksCacheTTL : Z;
}.

Inductive Table := ConnectionsTable | MessagesTable.

(** Outbound calls, logged newest first. *)
Inductive IOEvent :=
| DynamoPut (table : Table) (key : string)
| DynamoDelete (table : Table) (key : string)
| DynamoQuery (table : Table) (indexName : string) (key : string)
| HttpGetJwks
| PostToConnection (target : string) (data : Payload).

(** The environment.  [dynamo_send], [apigw_send] and [axios_get] answer
    [None] / [Ok] when the call succeeds and otherwise give the value
    thrown; [dynamo_slot] is the place the store gives a new row of the
    messages table in its own internal order, which no caller controls.
    [jwt_decode] is [jwt.decode(token, { complete: true })]: it returns
    [null] or the decoded token, or throws (jws parses the payload of a
    token of type JWT outside any [try]). *)
Record Env := {
  config : Config;
  date_now : nat → Z;
  uuidv4 : nat → string;
  dynamo_send : nat → option JsError;
  dynamo_slot : nat → nat;
  apigw_send : nat → option JsError;
  axios_get : nat → result (option (list Jwk));
  jwt_decode : string → result (option JwtHeader);
  jwkToPem : Jwk → result string;
  jwt_verify : string → string → VerifyOptions → Z → result JwtPayload;
}.

Record World := {
  connections : gmap string Connection;
  messages : list Message;
  jwksCache : option (list Jwk);
  jwksLastFetch : Z;
  apiGateway : option string;
  tick : nat;
  trace : list IOEvent;
}.

(** The state of a freshly started process in front of empty tables. *)
Definition initial : World :=
  {| connections := ∅; messages := []; jwksCache := None; jwksLastFetch := 0;
     apiGateway := None; tick := 0; trace := [] |}.

Definition set_connections (f : gmap string Connection → gmap string Connection)
  (w : World) : World :=
  {| connections := f (connections w); messages := messages w;
     jwksCache := jwksCache w; jwksLastFetch := jwksLastFetch w;
     apiGateway := apiGateway w; tick := tick w; trace := trace w |}.

Definition set_messages (f : list Message → list Message) (w : World) : World :=
  {| connections := connections w; messages := f (messages w);
     jwksCache := jwksCache w; jwksLastFetch := jwksLastFetch w;
     apiGateway := apiGateway w; tick := tick w; trace := trace w |}.

Definition set_jwks (cache : option (list Jwk)) (fetched : Z) (w : World) : World :=
  {| connections := connections w; messages := messages w;
     jwksCache := cache; jwksLastFetch := fetched;
     apiGateway := apiGateway w; tick := tick w; trace := trace w |}.

Definition set_apiGateway (client : option string) (w : World) : World :=
  {| connections := connections w; messages := messages w;
     jwksCache := jwksCache w; jwksLastFetch := jwksLastFetch w;
     apiGateway := client; tick := tick w; trace := trace w |}.

(** One more oracle call has been made. *)
Definition bump (w : World) : World :=
  {| connections := connections w; messages := messages w;
     jwksCache := jwksCache w; jwksLastFetch := jwksLastFetch w;
     apiGateway := apiGateway w; tick := S (tick w); trace := trace w |}.

Definition record_io (e : IOEvent) (w : World) : World :=
  {| connections := connections w; messages := messages w;
     jwksCache := jwksCache w; jwksLastFetch := jwksLastFetch w;
     apiGateway := apiGateway w; tick := tick w; trace := e :: trace w |}.

(** Computations: a result or a thrown value, and the world afterwards
    (effects made before a throw stay). *)
Definition M (A : Type) : Type := World → result A * World.

#[global] Instance M_ret : MRet M := λ A a w, (Ok a, w).

#[global] Instance M_bind : MBind M := λ A B f m w,
  match m w with
  | (Ok a, w') => f a w'
  | (Throw e, w') => (Throw e, w')
  end.

Definition throw {A : Type} (e : JsError) : M A := λ w, (Throw e, w).

(** [try { body } catch (error) { handler }] *)
Definition try_catch {A : Type} (body : M A) (handler : JsError → M A) : M A :=
  λ w,
    match body w with
    | (Ok a, w') => (Ok a, w')
    | (Throw e, w') => handler e w'
    end.

Definition get_world : M World := λ w, (Ok w, w).

Definition modify (f : World → World) : M unit := λ w, (Ok tt, f w).

(** [Date.now()] *)
Definition dateNow (env : Env) : M Z :=
  λ w, (Ok (date_now env (tick w)), bump w).

(** [uuidv4()] *)
Definition uuid (env : Env) : M string :=
  λ w, (Ok (uuidv4 env (tick w)), bump w).

End Runtime.

(** ** services/dynamoDbClient.ts

    The store itself is outside the repository.  A put replaces the row
    with the same primary key, a delete of an absent key is not an error,
    and a query on an index returns the rows of one partition: in the order
    of the index's sort key when it has one ([ScanIndexForward] picks the
    direction), and otherwise in the order in which the store keeps them. *)

Module DynamoDbClient.
Import Runtime.

(** The call is issued (and logged); the oracle says whether it fails. *)
Definition send (env : Env) (call : IOEvent) (effect : World → World) : M unit :=
  λ w,
    let w' := record_io call (bump w) in
    match dynamo_send env (tick w) with
    | Some e => (Throw e, w')
    | None => (Ok tt, effect w')
    end.

(** [putItem(TABLE_NAME, connection)]: the connections table has the hash
    key [connectionId]. *)
Definition putItem_connection (env : Env) (item : Connection) : M unit :=
  send env (DynamoPut ConnectionsTable (connectionId item))
    (set_connections (λ t, <[connectionId item := item]> t)).

(** [deleteItem(TABLE_NAME, { connectionId })] *)
Definition deleteItem_connection (env : Env) (key : string) : M unit :=
  send env (DynamoDelete ConnectionsTable key)
    (set_connections (λ t, delete key t)).

(** The row replaces the one with the same [id], at the place the store
    chooses. *)
Definition file_row (slot : nat) (item : Message) (rows : list Message)
  : list Message :=
  let others := filter (λ r, id r ≠ id item) rows in
  take slot others ++ item :: drop slot others.

(** [putItem(messagesTable, message)]: the messages table has the hash key
    [id]. *)
Definition putItem_message (env : Env) (item : Message) : M unit :=
  λ w,
    send env (DynamoPut MessagesTable (id item))
      (set_messages (file_row (dynamo_slot env (tick w)) item)) w.

(** The key schema of an index over the messages table. *)
Record IndexSchema := {
  idx_name : string;
  idx_hash : Message → string;
  idx_range : option (Message → Z);
}.

(** [sessionId-index] as template.yaml declares it: its KeySchema has the
    single entry [sessionId] with KeyType HASH, and no RANGE key. *)
Definition sessionId_index : IndexSchema :=
  {| idx_name := "sessionId-index"; idx_hash := sessionId; idx_range := None |}.

Fixpoint insert_by (key : Message → Z) (m : Message) (sorted : list Message)
  : list Message :=
  match sorted with
  | [] => [m]
  | x :: rest =>
      if (key m <? key x)%Z then m :: x :: rest
      else x :: insert_by key m rest
  end.

Definition sort_by (key : Message → Z) (rows : list Message) : list Message :=
  foldr (insert_by key) [] rows.

Definition index_partition (idx : IndexSchema) (value : string)
  (scanIndexForward : bool) (rows : list Message) : list Message :=
  let part := filter (λ r, idx_hash idx r = value) rows in
  match idx_range idx with
  | Some key =>
      if scanIndexForward then sort_by key part else reverse (sort_by key part)
  | None => part
  end.

(** [query(messagesTable, "<hash> = :v", { ":v": value },
           { IndexName, Limit, ScanIndexForward })].  One page of the
    query, taken from an index that is read in full and holds the rows as
    they were written: what a page leaves out, rows not yet visible in
    the index, and empty strings stored as NULL are not modelled. *)
Definition query (env : Env) (idx : IndexSchema) (value : string)
  (limit : nat) (scanIndexForward : bool) : M (list Message) :=
  λ w,
    let w' := record_io (DynamoQuery MessagesTable (idx_name idx) value) (bump w) in
    match dynamo_send env (tick w) with
    | Some e => (Throw e, w')
    | None =>
        (Ok (take limit (index_partition idx value scanIndexForward (messages w))), w')
    end.

End DynamoDbClient.

(** ** services/connectionService.ts *)

Module ConnectionService.
Import Runtime.

Definition addConnection (env : Env) (connectionId : string)
  (userData : gmap string string) : M unit :=
  timestamp ← dateNow env;
  let ttl := (timestamp `div` 1000 + 60 * 60 * 2)%Z in
  let connection :=
    {| connectionId := connectionId; timestamp := timestamp; ttl := ttl;
       userData := userData |} in
  try_catch (DynamoDbClient.putItem_connection env connection)
    (λ _, throw (newError "Failed to add connection")).

Definition removeConnection (env : Env) (connectionId : string) : M unit :=
  try_catch (DynamoDbClient.deleteItem_connection env connectionId)
    (λ _, throw (newError "Failed to remove connection")).

End ConnectionService.

(** ** services/messageService.ts *)

Module MessageService.
Import Runtime.

Definition MESSAGE_TTL_SECONDS : Z := 60 * 60 * 24 * 30.

(** An API Gateway event, reduced to what the handlers read:
    [requestContext.{connectionId, routeKey, domainName, stage}] and
    [headers]. *)
Record Event := {
  ev_connectionId : string;
  ev_routeKey : string;
  ev_domainName : string;
  ev_stage : string;
  ev_headers : gmap string string;
}.

(** The management client is created on first use and then reused. *)
Definition getApiGateway (event : Event) : M string :=
  w ← get_world;
  match apiGateway w with
  | Some client => mret client
  | None =>
      let endpoint :=
        "https://" +:+ ev_domainName event +:+ "/" +:+ ev_stage event in
      modify (set_apiGateway (Some endpoint));; mret endpoint
  end.

(** [apiGatewayInstance.send(new PostToConnectionCommand(...))] *)
Definition postToConnection (env : Env) (target : string) (data : Payload)
  : M unit :=
  λ w,
    let w' := record_io (PostToConnection target data) (bump w) in
    match apigw_send env (tick w) with
    | Some e => (Throw e, w')
    | None => (Ok tt, w')
    end.

Definition saveMessage (env : Env) (connectionId content sessionId : string)
  (metadata : option (gmap string string)) : M Message :=
  ms ← dateNow env;
  let now := (ms `div` 1000)%Z in
  fresh ← uuid env;
  stamp ← dateNow env;
  let message :=
    {| id := fresh; msg_connectionId := connectionId; content := content;
       msg_timestamp := stamp; msg_ttl := (now + MESSAGE_TTL_SECONDS)%Z;
       sessionId := sessionId; metadata := metadata |} in
  DynamoDbClient.putItem_message env message;;
  mret message.

Definition getSessionMessages (env : Env) (sessionId : string) (limit : nat)
  : M (list Message) :=
  DynamoDbClient.query env DynamoDbClient.sessionId_index sessionId limit true.

(** [error.name === "GoneException" || error.$metadata?.httpStatusCode === 410] *)
Definition is_gone (error : JsError) : bool :=
  String.eqb (err_name error) "GoneException" ||
  match err_httpStatusCode error with
  | Some code => (code =? 410)%Z
  | None => false
  end.

Definition sendToClient (env : Env) (event : Event) (connectionId : string)
  (payload : Payload) : M bool :=
  try_catch
    (getApiGateway event;;
     postToConnection env connectionId payload;;
     mret true)
    (λ error,
       (if is_gone error
        then ConnectionService.removeConnection env connectionId
        else mret tt);;
       mret false).

Definition persistAndSendMessage (env : Env) (event : Event)
  (connectionId content sessionId : string)
  (metadata : option (gmap string string)) : M (option Message) :=
  try_catch
    (message ← saveMessage env connectionId content sessionId metadata;
     success ← sendToClient env event connectionId
       {| messageId := id message; pl_content := content;
          pl_timestamp := msg_timestamp message; pl_metadata := metadata |};
     mret (if (success : bool) then Some message else None))
    (λ _, mret None).

End MessageService.

(** ** plugins/auth.ts *)

Module Auth.
Import Runtime.

(** [axios.get(JWK_URL)], then [response.data.keys] *)
Definition axiosGet (env : Env) : M (option (list Jwk)) :=
  λ w,
    let w' := record_io HttpGetJwks (bump w) in
    match axios_get env (tick w) with
    | Ok keys => (Ok keys, w')
    | Throw e => (Throw e, w')
    end.

(** [!jwksCache || now - jwksLastFetch > CACHE_TTL] *)
Definition must_fetch (env : Env) (now : Z) (w : World) : bool :=
  match jwksCache w with
  | None => true
  | Some _ => (now - jwksLastFetch w >? jwksCacheTTL (config env))%Z
  end.

Definition getJwks (env : Env) : M (option (list Jwk)) :=
  now ← dateNow env;
  w ← get_world;
  (if must_fetch env now w
   then try_catch
          (keys ← axiosGet env; modify (set_jwks keys now))
          (λ _, throw (newError "Failed to retrieve JWKs"))
   else mret tt);;
  w' ← get_world;
  mret (jwksCache w').

Definition issuer (cfg : Config) : string :=
  "https://cognito-idp." +:+ region cfg +:+ ".amazonaws.com/" +:+ userPoolId cfg.

Definition verifyOptions (cfg : Config) : VerifyOptions :=
  {| opt_issuer := issuer cfg; opt_algorithms := ["RS256"] |}.

(** [jwt.verify(token, pem, options)]; the library reads the clock. *)
Definition verify (env : Env) (token pem : string) : M JwtPayload :=
  λ w,
    (jwt_verify env token pem (verifyOptions (config env)) (date_now env (tick w)), w).

Definition lift {A : Type} (r : result A) : M A := λ w, (r, w).

(** [jwks.find] when [response.data.keys] was [undefined] *)
Definition notAnArray : JsError := cannotRead "find".

Definition validateToken (env : Env) (token : string) : M JwtPayload :=
  match jwt_decode env token with
  | Throw e => throw e
  | Ok None => throw (newError "Invalid token format")
  | Ok (Some decodedToken) =>
      match JsString.truthy (header_kid decodedToken) with
      | None => throw (newError "Invalid token format")
      | Some kid =>
          jwks ← getJwks env;
          match jwks with
          | None => throw notAnArray
          | Some keys =>
              match List.find (λ k, String.eqb (jwk_kid k) kid) keys with
              | None => throw (newError "Invalid token signature: Key ID not found")
              | Some key =>
                  pem ← lift (jwkToPem env key);
                  try_catch (verify env token pem)
                    (λ _, throw (newError "Invalid token"))
              end
          end
      end
  end.

Definition authenticateFromCookie (env : Env) (cookieValue : string)
  : M (option JwtPayload) :=
  match cookieValue with
  | EmptyString => mret None
  | _ =>
      try_catch (verified ← validateToken env cookieValue; mret (Some verified))
        (λ _, mret None)
  end.

End Auth.

(** ** Handler responses *)

Module Http.
Import Runtime.

(** A response body: plain text, or [JSON.stringify] of an object given by
    its fields. *)
Inductive Body :=
| BodyText (text : string)
| BodyJson (fields : list (string * string)).

Record Response := {
  statusCode : Z;
  body : option Body;
  user : option JwtPayload;
  requestId : option string;
}.

Definition reply (status : Z) (b : Body) : Response :=
  {| statusCode := status; body := Some b; user := None; requestId := None |}.


End Http.

(** ** middleware/webSocketAuth.ts *)

Module WebSocketAuth.
Import Runtime MessageService Http.

(** [event.headers["x-request-id"] || uuidv4()] *)
Definition resolveRequestId (env : Env) (event : Event) : M string :=
  match JsString.truthy (ev_headers event !! "x-request-id") with
  | Some given => mret given
  | None => uuid env
  end.

(** [event.headers.Cookie || event.headers.cookie] *)
Definition cookieHeaderOf (event : Event) : option string :=
  JsString.or_else (ev_headers event !! "Cookie") (ev_headers event !! "cookie").

(** [{ requestId, userId: user.sub }]; the document client drops an
    undefined [userId] ([removeUndefinedValues]). *)
Definition authenticatedUserData (requestId : string) (u : JwtPayload)
  : gmap string string :=
  match sub u with
  | Some s => <["userId" := s]> {["requestId" := requestId]}
  | None => {["requestId" := requestId]}
  end.

Definition bodyMessage (message : string) : Body :=
  BodyJson [("message", message)].

Definition webSocketAuthMiddleware (env : Env) (event : Event) : M Response :=
  let connectionId := ev_connectionId event in
  try_catch
    (requestId ← resolveRequestId env event;
     match JsString.truthy (cookieHeaderOf event) with
     | None =>
         ConnectionService.removeConnection env connectionId;;
         mret (reply 401 (bodyMessage "Missing authentication token"))
     | Some cookieHeader =>
         match JsString.truthy
                 (Cookie.getCookie (Some cookieHeader) (cookieName (config env))) with
         | None =>
             ConnectionService.removeConnection env connectionId;;
             mret (reply 401 (bodyMessage "Missing authentication token"))
         | Some token =>
             verified ← Auth.authenticateFromCookie env token;
             match verified with
             | None =>
                 ConnectionService.removeConnection env connectionId;;
                 mret (reply 401 (bodyMessage "Invalid authentication token"))
             | Some u =>
                 ConnectionService.addConnection env connectionId
                   (authenticatedUserData requestId u);;
                 mret {| statusCode := 200; body := None; user := Some u;
                         requestId := Some requestId |}
             end
         end
     end)
    (λ _,
       ConnectionService.removeConnection env connectionId;;
       mret (reply 500 (bodyMessage "Authentication failed"))).

End WebSocketAuth.

(** ** plugins/webSocketPlugin.ts *)

Module WebSocketPlugin.
Import Runtime MessageService Http.

Definition handleConnect (env : Env) (event : Event) : M Response :=
  let connectionId := ev_connectionId event in
  requestId ← WebSocketAuth.resolveRequestId env event;
  try_catch
    (ConnectionService.addConnection env connectionId {["requestId" := requestId]};;
     mret (reply 200 (BodyText "Connected")))
    (λ _, mret (reply 500 (BodyText "Connection failed"))).

Definition handleDisconnect (env : Env) (event : Event) : M Response :=
  let connectionId := ev_connectionId event in
  try_catch
    (ConnectionService.removeConnection env connectionId;;
     mret (reply 200 (BodyText "Disconnected")))
    (λ _, mret (reply 500 (BodyText "Disconnection failed"))).

End WebSocketPlugin.

(** ** utils/errorHandler.ts *)

Module ErrorHandler.
Import Runtime.

Inductive ErrorClass := IsAppError | IsAuthError | IsConnectionError | IsRateLimitError.

Record AppError := {
  app_class : ErrorClass;
  app_message : string;
  app_statusCode : Z;
  app_errorCode : string;
  app_socketId : option string;
}.

(** [new AuthError(message, errorCode, socketId)] *)
Definition AuthError (message errorCode : string) (socketId : option string)
  : AppError :=
  {| app_class := IsAuthError; app_message := message; app_statusCode := 401;
     app_errorCode := errorCode; app_socketId := socketId |}.

(** [new RateLimitError(message, socketId)] *)
Definition RateLimitError (message : string) (socketId : option string)
  : AppError :=
  {| app_class := IsRateLimitError; app_message := message; app_statusCode := 429;
     app_errorCode := "RATE_LIMIT_EXCEEDED"; app_socketId := socketId |}.

Definition handleAuthError (error : JsError) (socketId : option string)
  : AppError :=
  let errorMessage :=
    default "Authentication failed" (JsString.truthy (Some (err_message error))) in
  let errorCode := default "AUTH_ERROR" (JsString.truthy (err_code error)) in
  if JsString.includes "token expired" errorMessage then
    AuthError "Your session has expired. Please reconnect." "TOKEN_EXPIRED" socketId
  else if JsString.includes "invalid token" errorMessage then
    AuthError "Invalid authentication token." "INVALID_TOKEN" socketId
  else if JsString.includes "unauthorized" errorMessage then
    AuthError "Unauthorized access." "UNAUTHORIZED" socketId
  else if JsString.includes "rate limit" errorMessage then
    RateLimitError "Too many authentication attempts. Please try again later." socketId
  else AuthError errorMessage errorCode socketId.

End ErrorHandler.

(** ** Observations on a run *)

Module Observe.
Import Runtime.

Definition is_removal (connectionId : string) (e : IOEvent) : bool :=
  match e with
  | DynamoDelete ConnectionsTable key => String.eqb key connectionId
  | _ => false
  end.

(** How many deletes of [connectionId] have been sent to the connections
    table so far. *)
Definition removals (connectionId : string) (w : World) : nat :=
  length (List.filter (is_removal connectionId) (trace w)).

Definition is_fetch (e : IOEvent) : bool :=
  match e with
  | HttpGetJwks => true
  | _ => false
  end.

(** The world after the delete of [connectionId] has been sent and has
    succeeded. *)
Definition pruned (connectionId : string) (w : World) : World :=
  set_connections (λ t, delete connectionId t)
    (record_io (DynamoDelete ConnectionsTable connectionId) (bump w)).

(** How many requests have been sent to the JWKS endpoint so far. *)
Definition fetches (w : World) : nat :=
  length (List.filter is_fetch (trace w)).

(** What [persistAndSendMessage] hands back for a saved message, given how
    the delivery went. *)
Definition handed_back (saved : Message) (delivery : result bool) : option Message :=
  match delivery with
  | Ok true => Some saved
  | _ => None
  end.

(** The payload [persistAndSendMessage] sends for a saved message. *)
Definition payload_of (saved : Message) (content : string)
  (metadata : option (gmap string string)) : Payload :=
  {| messageId := id saved; pl_content := content;
     pl_timestamp := msg_timestamp saved; pl_metadata := metadata |}.



(** Every command sent to DynamoDB succeeds. *)
Definition store_available (env : Env) : Prop :=
  ∀ t, dynamo_send env t = None.

(** The key id [validateToken] reads off a token, when there is one. *)
Definition decoded_kid (env : Env) (token : string) : option string :=
  match jwt_decode env token with
  | Ok (Some decodedToken) => JsString.truthy (header_kid decodedToken)
  | _ => None
  end.

Definition find_key (kid : string) (keys : list Jwk) : option Jwk :=
  List.find (λ k, String.eqb (jwk_kid k) kid) keys.

Definition KeyIdNotFound : JsError :=
  newError "Invalid token signature: Key ID not found".

(** What jsonwebtoken throws for a token past its [exp]. *)
Definition TokenExpiredError : JsError :=
  {| err_name := "TokenExpiredError"; err_message := "jwt expired";
     err_code := None; err_httpStatusCode := None |}.


(** The three ways in which the middleware finds no valid credential: no
    cookie header, no auth cookie in it, or a token for which
    [authenticateFromCookie] answers [null]. *)
Definition credential_rejected (env : Env) (event : MessageService.Event)
  (w : World) : Prop :=
  match JsString.truthy (WebSocketAuth.cookieHeaderOf event) with
  | None => True
  | Some cookieHeader =>
      match JsString.truthy
              (Cookie.getCookie (Some cookieHeader) (cookieName (config env))) with
      | None => True
      | Some token =>
          (Auth.authenticateFromCookie env token
             (WebSocketAuth.resolveRequestId env event w).2).1 = Ok None
      end
  end.


Fixpoint ascending_by (key : Message → Z) (rows : list Message) : bool :=
  match rows with
  | a :: (b :: _) as rest => (key a <=? key b)%Z && ascending_by key rest
  | _ => true
  end.

(** Ascending creation time. *)
Definition oldest_first (rows : list Message) : bool :=
  ascending_by msg_timestamp rows.

(** The row [addConnection] writes when the clock reads [now]. *)
Definition row_at (now : Z) (connectionId : string)
  (userData : gmap string string) : Connection :=
  {| connectionId := connectionId; timestamp := now;
     ttl := (now `div` 1000 + 60 * 60 * 2)%Z; userData := userData |}.

End Observe.

(** ** Concrete environments, events and tokens *)

Module Scenario.
Import Runtime MessageService.

Definition cfg : Config :=
  {| region := "us-east-1"; userPoolId := "us-east-1_pool";
     cookieName := "authToken"; jwksCacheTTL := 86400000 |}.

Definition key1 : Jwk := {| jwk_kid := "k1"; jwk_material := "AQAB" |}.

Definition alice : JwtPayload :=
  {| sub := Some "u1"; iss := Auth.issuer cfg; exp := 2000 |}.

(** The payload of a token for the same user that expired one second
    after the epoch. *)
Definition alice_lapsed : JwtPayload :=
  {| sub := Some "u1"; iss := Auth.issuer cfg; exp := 1 |}.

Definition failure (name message : string) (status : option Z) : JsError :=
  {| err_name := name; err_message := message; err_code := None;
     err_httpStatusCode := status |}.

Definition badSignature : JsError := failure "JsonWebTokenError" "invalid signature" None.
Definition goneError : JsError := failure "GoneException" "Gone" (Some 410%Z).
Definition throttled : JsError := failure "LimitExceededException" "Too many requests" (Some 429%Z).
Definition storeDown : JsError := failure "ServiceUnavailable" "Service unavailable" (Some 503%Z).
Definition networkDown : JsError := failure "AxiosError" "connect ETIMEDOUT" None.

Definition badPayload : JsError :=
  failure "SyntaxError" "Unexpected token o in JSON at position 1" None.

(** A stand-in for jsonwebtoken that knows five tokens: four name key
    [k1] or [k9], and the payload of the fifth is not JSON. *)
Definition decode (token : string) : result (option JwtHeader) :=
  if String.eqb token "valid.jwt" then Ok (Some {| header_kid := Some "k1" |})
  else if String.eqb token "expired.jwt" then Ok (Some {| header_kid := Some "k1" |})
  else if String.eqb token "forged.jwt" then Ok (Some {| header_kid := Some "k1" |})
  else if String.eqb token "stranger.jwt" then Ok (Some {| header_kid := Some "k9" |})
  else if String.eqb token "garbled.jwt" then Throw badPayload
  else Ok None.

(** [expired.jwt] verifies against [k1] until the second its payload
    names as [exp], and is reported as expired from then on. *)
Definition verifyToken (token pem : string) (_ : VerifyOptions) (now : Z)
  : result JwtPayload :=
  if String.eqb pem "pem-k1" then
    if String.eqb token "valid.jwt" then Ok alice
    else if String.eqb token "expired.jwt" then
      if (now `div` 1000 <? exp alice_lapsed)%Z then Ok alice_lapsed
      else Throw Observe.TokenExpiredError
    else Throw badSignature
  else Throw badSignature.

Definition unary (n : nat) : string :=
  String.string_of_list_ascii (replicate n "i"%char).

(** Everything outside the repository answers, and the store keeps the
    messages in the order in which they arrive. *)
Definition env_ok : Env :=
  {| config := cfg;
     date_now := λ t, (1000 + Z.of_nat t)%Z;
     uuidv4 := λ t, "uuid-" +:+ unary t;
     dynamo_send := λ _, None;
     dynamo_slot := λ t, t;
     apigw_send := λ _, None;
     axios_get := λ _, Ok (Some [key1]);
     jwt_decode := decode;
     jwkToPem := λ k, Ok ("pem-" +:+ jwk_kid k);
     jwt_verify := verifyToken |}.

Definition with_dynamo (answer : nat → option JsError) (env : Env) : Env :=
  {| config := config env; date_now := date_now env; uuidv4 := uuidv4 env;
     dynamo_send := answer; dynamo_slot := dynamo_slot env;
     apigw_send := apigw_send env; axios_get := axios_get env;
     jwt_decode := jwt_decode env; jwkToPem := jwkToPem env;
     jwt_verify := jwt_verify env |}.

Definition with_apigw (answer : nat → option JsError) (env : Env) : Env :=
  {| config := config env; date_now := date_now env; uuidv4 := uuidv4 env;
     dynamo_send := dynamo_send env; dynamo_slot := dynamo_slot env;
     apigw_send := answer; axios_get := axios_get env;
     jwt_decode := jwt_decode env; jwkToPem := jwkToPem env;
     jwt_verify := jwt_verify env |}.

Definition with_axios (answer : nat → result (option (list Jwk))) (env : Env) : Env :=
  {| config := config env; date_now := date_now env; uuidv4 := uuidv4 env;
     dynamo_send := dynamo_send env; dynamo_slot := dynamo_slot env;
     apigw_send := apigw_send env; axios_get := answer;
     jwt_decode := jwt_decode env; jwkToPem := jwkToPem env;
     jwt_verify := jwt_verify env |}.

Definition with_slot (place : nat → nat) (env : Env) : Env :=
  {| config := config env; date_now := date_now env; uuidv4 := uuidv4 env;
     dynamo_send := dynamo_send env; dynamo_slot := place;
     apigw_send := apigw_send env; axios_get := axios_get env;
     jwt_decode := jwt_decode env; jwkToPem := jwkToPem env;
     jwt_verify := jwt_verify env |}.

(** The store files each new message ahead of the ones it holds. *)
Definition env_newest_first : Env := with_slot (λ _, 0) env_ok.

(** The peer of every connection has gone away. *)
Definition env_gone : Env := with_apigw (λ _, Some goneError) env_ok.

(** The management API throttles the call. *)
Definition env_throttled : Env := with_apigw (λ _, Some throttled) env_ok.

(** The store is lost after the first three oracle calls of the process. *)
Definition env_store_lost : Env :=
  with_dynamo (λ t, if (t <=? 2)%nat then None else Some storeDown) env_ok.

(** The JWKS endpoint cannot be reached. *)
Definition env_jwks_down : Env := with_axios (λ _, Throw networkDown) env_ok.

Definition event_with (headers : gmap string string) : Event :=
  {| ev_connectionId := "c1"; ev_routeKey := "$connect";
     ev_domainName := "abc.execute-api.us-east-1.amazonaws.com";
     ev_stage := "dev"; ev_headers := headers |}.

Definition bare_event : Event := event_with ∅.

Definition event_carrying (token : string) : Event :=
  event_with {["Cookie" := "theme=dark; authToken=" +:+ token]}.

(** The messages table after two messages have been saved, one after the
    other, in session [s1]. *)
Definition two_saved : World :=
  (saveMessage env_newest_first "c1" "second" "s1" None
     (saveMessage env_newest_first "c1" "first" "s1" None initial).2).2.

Definition ping : Payload :=
  {| messageId := "m1"; pl_content := "ping"; pl_timestamp := 1000;
     pl_metadata := None |}.

(** A process whose key cache was filled at time 1000 with [key1]. *)
Definition warm : World := set_jwks (Some [key1]) 1000 initial.

Definition row_c1 : Connection :=
  {| connectionId := "c1"; timestamp := 1000; ttl := 7201;
     userData := {["requestId" := "r1"]} |}.

(** Connection [c1] is in the connections table. *)
Definition registered : World := set_connections (λ _, {["c1" := row_c1]}) initial.

(** What [saveMessage] builds in [registered] under [env_ok] and its
    variants for the content [hello] in session [s1]. *)
Definition hello_saved : Message :=
  {| id := "uuid-i"; msg_connectionId := "c1"; content := "hello";
     msg_timestamp := 1002; msg_ttl := 2592001; sessionId := "s1";
     metadata := None |}.

End Scenario.

(** ** Properties the specification states and the code does not have *)

Module Stated.
Import Runtime MessageService Http Observe.

(** Whenever the message is saved, [persistAndSendMessage] returns it. *)
Definition saved_message_is_returned (env : Env) (event : Event)
  (connectionId content sessionId : string)
  (metadata : option (gmap string string)) (w : World) : Prop :=
  ∀ saved,
    (saveMessage env connectionId content sessionId metadata w).1 = Ok saved →
    (persistAndSendMessage env event connectionId content sessionId metadata w).1
      = Ok (Some saved).

(** Two deliveries in a row to a connection that is gone: both return
    [false], the first removes the row, the second sends no further
    delete. *)
Definition gone_is_pruned_once (env : Env) (event : Event)
  (connectionId : string) (payload : Payload) (w : World) : Prop :=
  (∀ t, ∃ e, apigw_send env t = Some e ∧ is_gone e = true) →
  let first := sendToClient env event connectionId payload w in
  let second := sendToClient env event connectionId payload first.2 in
  first.1 = Ok false ∧ connections first.2 !! connectionId = None ∧
  second.1 = Ok false ∧
  removals connectionId second.2 = removals connectionId first.2.

(** A token whose key id is not in the cached key set makes
    [validateToken] fetch the key set once more before it fails. *)
Definition unknown_kid_refetches_once (env : Env) (token : string) (w : World)
  : Prop :=
  ∀ kid keys,
    decoded_kid env token = Some kid →
    jwksCache w = Some keys →
    find_key kid keys = None →
    (Auth.validateToken env token w).1 = Throw KeyIdNotFound ∧
    fetches (Auth.validateToken env token w).2 = S (fetches w).



(** After a connect attempt without a valid credential the connection has
    no row. *)
Definition rejected_connection_has_no_row (env : Env) (event : Event)
  (w : World) : Prop :=
  credential_rejected env event w →
  connections (WebSocketAuth.webSocketAuthMiddleware env event w).2
    !! ev_connectionId event = None.

End Stated.

(** ** utils/cookie.ts, reading a property of the parsed object *)

Module PlainObject.

(** The names every object inherits from [Object.prototype] in Node 18. *)
Definition inherited : list string :=
  ["constructor"; "__defineGetter__"; "__defineSetter__"; "hasOwnProperty";
   "__lookupGetter__"; "__lookupSetter__"; "isPrototypeOf";
   "propertyIsEnumerable"; "toString"; "valueOf"; "__proto__";
   "toLocaleString"].

(** What [o[name]] gives on an object whose own properties are strings:
    the own property, else what the prototype has under that name (a
    function, or the prototype itself for [__proto__]), else
    [undefined]. *)
Inductive Property :=
| Own (value : string)
| Inherited
| Undefined.

Definition get (o : gmap string string) (name : string) : Property :=
  match o !! name with
  | Some value => Own value
  | None => if bool_decide (name ∈ inherited) then Inherited else Undefined
  end.

(** [getCookie], with all that [cookies[cookieName]] can find.  The
    object comes from [Object.fromEntries] or is [{}]: every cookie is an
    own property of it. *)
Definition getCookie (cookieHeader : option string) (cookieName : string)
  : Property :=
  get (Cookie.parseCookies cookieHeader) cookieName.

End PlainObject.

(** ** services/connectionService.ts, the listing operations *)

Module RegistryScan.
Import Runtime.

(** [dynamoDbClient.scan(TABLE_NAME, { FilterExpression?, Limit })].  The
    store reads at most [Limit] rows, in its own order, and returns the
    ones among them that pass the filter; the scan is one more command sent
    to the store.  This is one page of a scan, taken from a table that is
    read in full: what a page leaves out, and rows not yet visible to an
    eventually consistent read, are not modelled, so that only what holds
    of every page is stated of it. *)
Definition scan (env : Env) (keep : Connection → bool) (limit : nat)
  : M (list Connection) :=
  λ w,
    match dynamo_send env (tick w) with
    | Some e => (Throw e, bump w)
    | None =>
        (Ok (List.filter keep (take limit (map_to_list (connections w)).*2)),
         bump w)
    end.

Definition getConnections (env : Env) (limit : nat) : M (list Connection) :=
  try_catch (scan env (λ _, true) limit)
    (λ _, throw (newError "Failed to fetch connections")).

(** [FilterExpression: "userData.#key = :value"] *)
Definition matches (key value : string) (row : Connection) : bool :=
  bool_decide (userData row !! key = Some value).

Definition findConnectionsByUserData (env : Env) (key value : string)
  (limit : nat) : M (list Connection) :=
  try_catch (scan env (matches key value) limit)
    (λ _, throw (newError "Failed to find connections")).

End RegistryScan.

(** ** What an operation on one connection leaves alone *)

Module Frame.
Import Runtime.

(** From [w] to [w'] no row of another connection has changed, and the
    messages table is the same. *)
Definition same_elsewhere (connectionId : string) (w w' : World) : Prop :=
  (∀ other, other ≠ connectionId →
     connections w' !! other = connections w !! other)
  ∧ messages w' = messages w.

End Frame.

(** ** plugins/webSocketPlugin.ts, the message handler *)

Module MessageHandler.
Import Runtime MessageService Http.

(** [JSON.parse] and [JSON.stringify], as far as the handler uses them:
    whether a body parses, and the text of an object given by its fields. *)
Record JsonLib := {
  json_parse : string → option JsError;
  json_stringify : list (string * string) → string;
}.

(** The event of a message route: the request context, the body, and
    [headers], which may be missing ([event.headers] is then
    [undefined]). *)
Record MessageEvent := {
  me_connectionId : string;
  me_routeKey : string;
  me_domainName : string;
  me_stage : string;
  me_headers : option (gmap string string);
  me_body : string;
}.

(** The event as the code past the first line sees it, its headers
    having been found. *)
Definition event_with_headers (headers : gmap string string) (event : MessageEvent)
  : Event :=
  {| ev_connectionId := me_connectionId event; ev_routeKey := me_routeKey event;
     ev_domainName := me_domainName event; ev_stage := me_stage event;
     ev_headers := headers |}.

(** [event.headers["x-request-id"]] is read before the [try]. *)
Definition handleMessage (env : Env) (json : JsonLib) (event : MessageEvent)
  : M Response :=
  let connectionId := me_connectionId event in
  match me_headers event with
  | None => throw (cannotRead "x-request-id")
  | Some headers =>
      requestId ← WebSocketAuth.resolveRequestId env (event_with_headers headers event);
      try_catch
        (match json_parse json (me_body event) with
         | Some e => throw e
         | None =>
             (if String.eqb (me_routeKey event) "customEvent"
              then
                sessionId ← uuid env;
                let response :=
                  json_stringify json
                    [("message", "Hello from WebSocket!");
                     ("requestId", requestId)] in
                persistAndSendMessage env (event_with_headers headers event)
                  connectionId response sessionId None;;
                mret tt
              else mret tt);;
             mret (reply 200 (BodyText "Message received"))
         end)
        (λ _, mret (reply 500 (BodyText "Message handling failed")))
  end.

End MessageHandler.

(** ** middleware/socketAuth.ts *)

Module SocketAuth.
Import Runtime.

(** A Socket.IO socket: its id, the handshake headers, and the two
    properties the middleware attaches. *)
Record Socket := {
  socket_id : string;
  handshake_headers : gmap string string;
  socket_requestId : option string;
  socket_user : option JwtPayload;
}.

Definition set_requestId (requestId : string) (s : Socket) : Socket :=
  {| socket_id := socket_id s; handshake_headers := handshake_headers s;
     socket_requestId := Some requestId; socket_user := socket_user s |}.

Definition set_user (u : JwtPayload) (s : Socket) : Socket :=
  {| socket_id := socket_id s; handshake_headers := handshake_headers s;
     socket_requestId := socket_requestId s; socket_user := Some u |}.

(** [socket.handshake.headers["x-request-id"] || uuidv4()] *)
Definition socketRequestId (env : Env) (socket : Socket) : M string :=
  match JsString.truthy (handshake_headers socket !! "x-request-id") with
  | Some given => mret given
  | None => uuid env
  end.

(** The middleware ends by calling [next]: with no argument, or with an
    [Error].  The result is the socket as the middleware leaves it and the
    argument of [next]. *)
Definition socketAuthMiddleware (env : Env) (socket : Socket)
  : M (Socket * option JsError) :=
  requestId ← socketRequestId env socket;
  let socket := set_requestId requestId socket in
  try_catch
    (match JsString.truthy (handshake_headers socket !! "cookie") with
     | None => mret (socket, Some (newError "Missing authentication token"))
     | Some cookieHeader =>
         match JsString.truthy
                 (Cookie.getCookie (Some cookieHeader) (cookieName (config env))) with
         | None => mret (socket, Some (newError "Missing authentication token"))
         | Some token =>
             verified ← Auth.authenticateFromCookie env token;
             match verified with
             | None => mret (socket, Some (newError "Invalid authentication token"))
             | Some u => mret (set_user u socket, None)
             end
         end
     end)
    (λ _, mret (socket, Some (newError "Authentication failed"))).

End SocketAuth.

(** ** utils/errorHandler.ts, the remaining handlers *)

Module SocketErrors.
Import Runtime ErrorHandler.

(** [new AppError(message, statusCode, errorCode, socketId)] *)
Definition mkAppError (message : string) (statusCode : Z) (errorCode : string)
  (socketId : option string) : AppError :=
  {| app_class := IsAppError; app_message := message;
     app_statusCode := statusCode; app_errorCode := errorCode;
     app_socketId := socketId |}.

(** [new ConnectionError(message, errorCode, socketId)] *)
Definition ConnectionError (message errorCode : string)
  (socketId : option string) : AppError :=
  {| app_class := IsConnectionError; app_message := message;
     app_statusCode := 503; app_errorCode := errorCode;
     app_socketId := socketId |}.

(** [error.name || error.code || fallback] *)
Definition name_or_code (fallback : string) (error : JsError) : string :=
  default fallback
    (JsString.or_else (Some (err_name error)) (JsString.truthy (err_code error))).

Definition handleDynamoDBError (error : JsError) (socketId : option string)
  : AppError :=
  let errorName := name_or_code "UnknownDynamoDBError" error in
  if String.eqb errorName "ConditionalCheckFailedException" then
    mkAppError "The condition for the operation was not met." 400
      "CONDITION_FAILED" socketId
  else if String.eqb errorName "ProvisionedThroughputExceededException" then
    RateLimitError "Database capacity exceeded. Please try again later." socketId
  else if String.eqb errorName "ResourceNotFoundException" then
    mkAppError "The requested resource was not found." 404
      "RESOURCE_NOT_FOUND" socketId
  else if String.eqb errorName "TransactionCanceledException" then
    mkAppError "The transaction was canceled." 409 "TRANSACTION_CANCELED" socketId
  else if String.eqb errorName "ItemCollectionSizeLimitExceededException" then
    mkAppError "Item collection size limit exceeded." 413
      "COLLECTION_SIZE_LIMIT" socketId
  else if String.eqb errorName "ValidationException" then
    mkAppError
      (default "Invalid data provided." (JsString.truthy (Some (err_message error))))
      400 "VALIDATION_ERROR" socketId
  else if String.eqb errorName "InternalServerError" then
    mkAppError "DynamoDB service encountered an internal error." 500
      "DYNAMODB_INTERNAL_ERROR" socketId
  else mkAppError "A database error occurred." 500 "DYNAMODB_ERROR" socketId.

Definition handleLambdaError (error : JsError) (socketId : option string)
  : AppError :=
  let errorType := name_or_code "UnknownLambdaError" error in
  if String.eqb errorType "ServiceException" then
    mkAppError "AWS Lambda service error." 500 "LAMBDA_SERVICE_ERROR" socketId
  else if String.eqb errorType "ResourceNotFoundException" then
    mkAppError "The requested Lambda resource was not found." 404
      "LAMBDA_NOT_FOUND" socketId
  else if String.eqb errorType "TooManyRequestsException" then
    RateLimitError "Too many Lambda invocations. Please try again later." socketId
  else if String.eqb errorType "InvalidParameterValueException" then
    mkAppError "Invalid parameter value in Lambda request." 400
      "LAMBDA_INVALID_PARAMETER" socketId
  else if String.eqb errorType "RequestEntityTooLargeException" then
    mkAppError "Lambda request payload too large." 413 "PAYLOAD_TOO_LARGE" socketId
  else if String.eqb errorType "TimeoutException" then
    mkAppError "Lambda function execution timed out." 504 "LAMBDA_TIMEOUT" socketId
  else mkAppError "An AWS Lambda error occurred." 500 "LAMBDA_ERROR" socketId.

(** The same error with another [message]. *)
Definition with_message (message : string) (error : JsError) : JsError :=
  {| err_name := err_name error; err_message := message;
     err_code := err_code error;
     err_httpStatusCode := err_httpStatusCode error |}.

(** What a handler throws: an instance of [AppError], or anything else. *)
Inductive Thrown :=
| ThrownApp (a : AppError)
| ThrownOther (e : JsError).

(** [c.toLowerCase()] on an ASCII letter; other characters are left as
    they are. *)
Definition lower_ascii (c : ascii) : ascii :=
  let n := nat_of_ascii c in
  if (65 <=? n)%nat && (n <=? 90)%nat then ascii_of_nat (n + 32) else c.

(** [s.toLowerCase()] for a string of ASCII characters *)
Fixpoint toLowerCase (s : string) : string :=
  match s with
  | EmptyString => EmptyString
  | String c s' => String (lower_ascii c) (toLowerCase s')
  end.

(** The object [sendSocketError] emits on the socket. *)
Record Emission := {
  em_event : string;
  em_error : string;
  em_errorCode : string;
  em_status : Z;
  em_socketId : string;
  em_timestamp : string;
}.

(** The [AppError] that [sendSocketError] settles on, before it fills in a
    missing socket id. *)
Definition as_app_error (socketId : string) (error : Thrown) : AppError :=
  match error with
  | ThrownApp a => a
  | ThrownOther e =>
      let lowered := toLowerCase (err_message e) in
      if JsString.includes "unauthorized" lowered || JsString.includes "token" lowered
      then AuthError
             (default "Authentication required"
                (JsString.truthy (Some (err_message e))))
             "AUTH_REQUIRED" (Some socketId)
      else if JsString.includes "auth" lowered
      then handleAuthError e (Some socketId)
      else mkAppError
             (default "An unexpected error occurred"
                (JsString.truthy (Some (err_message e))))
             500 "INTERNAL_SERVER_ERROR" (Some socketId)
  end.

(** [sendSocketError(socket, error, eventName)]; [stamp] is what
    [new Date().toISOString()] gives. *)
Definition sendSocketError (stamp socketId : string) (error : Thrown)
  (eventName : string) : Emission :=
  let appError := as_app_error socketId error in
  {| em_event := eventName;
     em_error := app_message appError;
     em_errorCode := app_errorCode appError;
     em_status := app_statusCode appError;
     em_socketId := default socketId (JsString.truthy (app_socketId appError));
     em_timestamp := stamp |}.

(** An argument of a Socket.IO event: data, or an acknowledgement
    function (named by a number). *)
Inductive Arg :=
| Data (d : string)
| Fn (callback : nat).

(** A call of an acknowledgement function: [callback(null, result)] or
    [callback({ error, errorCode, status })]. *)
Inductive Ack :=
| AckResult (callback : nat) (result : string)
| AckError (callback : nat) (error errorCode : string) (status : Z).

(** What a wrapped handler leaves behind: its return value ([undefined]
    after an error), what was emitted on the socket, and the
    acknowledgement calls made. *)
Record Outcome := {
  returned : option string;
  emitted : list Emission;
  acked : list Ack;
}.

(** [args.pop()] when the last argument is a function *)
Definition pop_callback (args : list Arg) : option nat * list Arg :=
  match reverse args with
  | Fn c :: front => (Some c, reverse front)
  | _ => (None, args)
  end.

Definition withErrorHandling (stamp : string)
  (handler : string → list Arg → string + Thrown)
  (socketId : string) (args : list Arg) : Outcome :=
  let '(callback, args) := pop_callback args in
  match handler socketId args with
  | inl result =>
      {| returned := Some result; emitted := [];
         acked := match callback with
                  | Some c => [AckResult c result]
                  | None => []
                  end |}
  | inr error =>
      let emission := sendSocketError stamp socketId error "error" in
      let appError :=
        match error with
        | ThrownApp a => a
        | ThrownOther e =>
            mkAppError
              (default "An unexpected error occurred"
                 (JsString.truthy (Some (err_message e))))
              500 "INTERNAL_SERVER_ERROR" (Some socketId)
        end in
      {| returned := None; emitted := [emission];
         acked := match pop_callback args with
                  | (Some c, _) =>
                      [AckError c (app_message appError) (app_errorCode appError)
                         (app_statusCode appError)]
                  | (None, _) => []
                  end |}
  end.

End SocketErrors.

(** ** lambda.ts *)

Module Lambda.
Import Runtime Http.

(** [event.headers]: absent, [null], or an object. *)
Inductive HeadersField :=
| HeadersUndefined
| HeadersNull
| HeadersObject (h : gmap string string).

(** An invocation event: [requestContext?.routeKey],
    [requestContext?.connectionId] and [headers]. *)
Record LambdaEvent := {
  le_routeKey : option string;
  le_connectionId : option string;
  le_headers : HeadersField;
}.

Definition with_headers (h : gmap string string) (event : LambdaEvent)
  : LambdaEvent :=
  {| le_routeKey := le_routeKey event; le_connectionId := le_connectionId event;
     le_headers := HeadersObject h |}.

(** [JSON.stringify({ error: message })] *)
Definition bodyError (message : string) : Body := BodyJson [("error", message)].

(** The result of an invocation and the events handed to the Fastify proxy
    on the way; [httpProxy] is [awsLambdaFastify(app)]. *)
Definition handleWebSocketEvent (httpProxy : LambdaEvent → result Response)
  (event : LambdaEvent) (routeKey : string)
  : result Response * list LambdaEvent :=
  if String.eqb routeKey "$connect" then
    (Ok (reply 200 (BodyText "Connected")), [])
  else if String.eqb routeKey "$disconnect" then
    (Ok (reply 200 (BodyText "Disconnected")), [])
  else
    match httpProxy event with
    | Ok response => (Ok response, [event])
    | Throw _ => (Ok (reply 500 (bodyError "Internal server error")), [event])
    end.

Definition handler (httpProxy : LambdaEvent → result Response)
  (event : LambdaEvent) (awsRequestId : string)
  : result Response * list LambdaEvent :=
  match JsString.truthy (le_routeKey event) with
  | Some routeKey => handleWebSocketEvent httpProxy event routeKey
  | None =>
      match le_headers event with
      | HeadersUndefined =>
          (Ok (reply 400 (bodyError "Unsupported event type")), [])
      | field =>
          let headers :=
            match field with
            | HeadersObject h => h
            | _ => ∅
            end in
          let headers :=
            match JsString.truthy (headers !! "x-request-id") with
            | Some _ => headers
            | None => <["x-request-id" := awsRequestId]> headers
            end in
          let proxied := with_headers headers event in
          (httpProxy proxied, [proxied])
      end
  end.

End Lambda.

(** ** More concrete inputs *)

Module Examples.
Import Runtime MessageService.

(** Every command sent to the store fails. *)
Definition env_store_down : Env :=
  Scenario.with_dynamo (λ _, Some Scenario.storeDown) Scenario.env_ok.

(** The store refuses the fourth oracle call of the process and answers
    all the others. *)
Definition env_put_refused : Env :=
  Scenario.with_dynamo
    (λ t, if (t =? 3)%nat then Some Scenario.storeDown else None)
    Scenario.env_ok.

Definition lobby : gmap string string := {["room" := "lobby"]}.

(** A JSON library that parses the body [{}] and nothing else. *)
Definition json : MessageHandler.JsonLib :=
  {| MessageHandler.json_parse :=
       λ body,
         if String.eqb body "{}" then None
         else Some (Scenario.failure "SyntaxError" "Unexpected token" None);
     MessageHandler.json_stringify :=
       λ fields,
         String.concat "," (List.map (λ f, f.1 +:+ ":" +:+ f.2) fields) |}.

(** A message on the default route whose event has headers, and the same
    event as API Gateway builds it, without them. *)
Definition message_event : MessageHandler.MessageEvent :=
  {| MessageHandler.me_connectionId := "c1";
     MessageHandler.me_routeKey := "$default";
     MessageHandler.me_domainName := "abc.execute-api.us-east-1.amazonaws.com";
     MessageHandler.me_stage := "dev";
     MessageHandler.me_headers := Some ∅;
     MessageHandler.me_body := "{}" |}.

Definition message_event_bare : MessageHandler.MessageEvent :=
  {| MessageHandler.me_connectionId := "c1";
     MessageHandler.me_routeKey := "$default";
     MessageHandler.me_domainName := "abc.execute-api.us-east-1.amazonaws.com";
     MessageHandler.me_stage := "dev";
     MessageHandler.me_headers := None;
     MessageHandler.me_body := "{}" |}.

Definition default_event : Event :=
  {| ev_connectionId := "c1"; ev_routeKey := "$default";
     ev_domainName := "abc.execute-api.us-east-1.amazonaws.com";
     ev_stage := "dev"; ev_headers := ∅ |}.

(** The headers of a handshake carrying a valid token. *)
Definition handshake : gmap string string :=
  {["cookie" := "authToken=valid.jwt"]}.

Definition socket_with (headers : gmap string string) : SocketAuth.Socket :=
  {| SocketAuth.socket_id := "s1"; SocketAuth.handshake_headers := headers;
     SocketAuth.socket_requestId := None; SocketAuth.socket_user := None |}.

Definition rows_of {A} (r : result (list A)) : list A :=
  match r with
  | Ok rows => rows
  | Throw _ => []
  end.

Definition answer_of (r : result Http.Response) : Http.Response :=
  match r with
  | Ok answer => answer
  | Throw _ => Http.reply 0 (Http.BodyText "")
  end.

(** A handler that echoes its one argument and throws on anything else. *)
Definition echo (_ : string) (args : list SocketErrors.Arg)
  : string + SocketErrors.Thrown :=
  match args with
  | [SocketErrors.Data d] => inl d
  | _ => inr (SocketErrors.ThrownOther (Scenario.failure "Error" "boom" None))
  end.

Definition sessionLapsed : JsError :=
  Scenario.failure "Error" "Token expired" None.

(** An application that answers every event with 200. *)
Definition proxy (_ : Lambda.LambdaEvent) : result Http.Response :=
  Ok (Http.reply 200 (Http.BodyText "ok")).

Definition connect_event : Lambda.LambdaEvent :=
  {| Lambda.le_routeKey := Some "$connect"; Lambda.le_connectionId := Some "c1";
     Lambda.le_headers := Lambda.HeadersUndefined |}.

Definition http_event : Lambda.LambdaEvent :=
  {| Lambda.le_routeKey := None; Lambda.le_connectionId := None;
     Lambda.le_headers := Lambda.HeadersNull |}.

End Examples.

(** * Properties *)

(** Unfold the monad. *)
Ltac run :=
  unfold Runtime.try_catch, Runtime.throw, Runtime.get_world, Runtime.modify,
    mbind, Runtime.M_bind, mret, Runtime.M_ret in *;
  cbn [fst snd] in *.

(** ** Cookie parsing *)

Section CookieFacts.
Import JsString Cookie.

Lemma split_go_nonempty sep k s : split_go sep k s ≠ [].
Proof.
  revert k; induction s as [|a s IH]; intros k; cbn [split_go]; [done|].
  destruct k; [|apply IH].
  destruct (String.prefix sep (String a s)); [done|].
  destruct (split_go sep 0 s); done.
Qed.

Lemma split_eq_step a s :
  split "=" (String a s) =
  if Ascii.eqb a "=" then EmptyString :: split "=" s
  else match split "=" s with h :: t => String a h :: t | [] => [String a EmptyString] end.
Proof.
  unfold split; cbn [split_go String.prefix String.length].
  destruct (Ascii.ascii_dec "=" a) as [<-|Hne].
  - by destruct s.
  - destruct (Ascii.eqb_spec a "=") as [->|_]; [by destruct Hne|reflexivity].
Qed.

Lemma join_cons a h t :
  join "=" (String a h :: t) = String a (join "=" (h :: t)).
Proof. destruct t; reflexivity. Qed.

Lemma join_split_eq s : join "=" (split "=" s) = s.
Proof.
  induction s as [|a s IH]; [reflexivity|].
  rewrite split_eq_step.
  destruct (Ascii.eqb_spec a "=") as [->|Hne].
  - pose proof (split_go_nonempty "=" 0 s) as Hn. fold (split "=" s) in Hn.
    destruct (split "=" s) as [|h t] eqn:E; [done|].
    change (join "=" ("" :: h :: t)) with (String "=" (join "=" (h :: t))).
    by rewrite IH.
  - destruct (split "=" s) as [|h t] eqn:E.
    + by destruct (split_go_nonempty "=" 0 s).
    + rewrite join_cons. by rewrite IH.
Qed.

Lemma parsePair_first_eq c : parsePair c = spec_pair_on_first_eq c.
Proof.
  unfold parsePair, spec_pair_on_first_eq.
  induction c as [|a c IH]; [reflexivity|].
  rewrite split_eq_step. simpl.
  destruct (Ascii.eqb_spec a "=") as [->|Hne].
  - by rewrite join_split_eq.
  - destruct (split "=" c) as [|h t] eqn:E.
    + by destruct (split_go_nonempty "=" 0 c).
    + by inversion IH.
Qed.

Lemma prefix_sep_cons a b s :
  String.prefix "; " (String a (String b s)) = String.prefix "; " (String a (String b EmptyString)).
Proof.
  cbn [String.prefix].
  destruct (Ascii.ascii_dec ";" a); [|done].
  destruct (Ascii.ascii_dec " " b); [|done]. by destruct s.
Qed.

Lemma split_sep_step a s :
  String.prefix "; " (String a s) = false →
  split "; " (String a s) =
  match split "; " s with h :: t => String a h :: t | [] => [String a EmptyString] end.
Proof. unfold split. cbn [split_go]. by intros ->. Qed.

Lemma split_sep_here s : split "; " ("; " +:+ s) = EmptyString :: split "; " s.
Proof.
  unfold split. change ("; " +:+ s) with (String ";" (String " " s)).
  cbn [split_go]. by replace (String.prefix "; " (String ";" (String " " s))) with true by by destruct s.
Qed.

Lemma includes_cons sub a s :
  includes sub (String a s) = false →
  String.prefix sub (String a s) = false ∧ includes sub s = false.
Proof. cbn [includes]. by intros [??]%orb_false_elim. Qed.

Lemma split_sep_app s1 rest :
  includes "; " s1 = false →
  split "; " (s1 +:+ "; " +:+ rest) = s1 :: split "; " rest.
Proof.
  induction s1 as [|a s1 IH]; intros Hs; [apply split_sep_here|].
  apply includes_cons in Hs as [Hp Hi].
  change (String a s1 +:+ "; " +:+ rest) with (String a (s1 +:+ "; " +:+ rest)).
  rewrite split_sep_step.
  - by rewrite IH.
  - destruct s1 as [|b s1]; [by cbn; destruct (Ascii.ascii_dec ";" a)|].
    change (String b s1 +:+ "; " +:+ rest) with (String b (s1 +:+ "; " +:+ rest)).
    rewrite prefix_sep_cons. by rewrite prefix_sep_cons in Hp.
Qed.

Lemma split_sep_none s : includes "; " s = false → split "; " s = [s].
Proof.
  induction s as [|a s IH]; intros Hs; [reflexivity|].
  apply includes_cons in Hs as [Hp Hi].
  rewrite split_sep_step by done. by rewrite IH.
Qed.

Lemma includes_renderPair p : cookie_ok p → includes "; " (renderPair p) = false.
Proof.
  destruct p as [k v]. unfold cookie_ok, renderPair. cbn [fst snd].
  intros (_ & Hk & Hv). induction k as [|a k IH].
  - change ("" +:+ "=" +:+ v) with (String "=" v). cbn [includes].
    by rewrite Hv.
  - apply includes_cons in Hk as [Hp Hi].
    change (String a k +:+ "=" +:+ v) with (String a (k +:+ "=" +:+ v)).
    cbn [includes]. rewrite IH by done. rewrite orb_false_r.
    destruct k as [|b k]; [by cbn; destruct (Ascii.ascii_dec ";" a)|].
    change (String b k +:+ "=" +:+ v) with (String b (k +:+ "=" +:+ v)).
    rewrite prefix_sep_cons. by rewrite prefix_sep_cons in Hp.
Qed.

Lemma split_renderCookies p ps :
  Forall cookie_ok (p :: ps) →
  split "; " (renderCookies (p :: ps)) = map renderPair (p :: ps).
Proof.
  revert p. induction ps as [|q ps IH]; intros p Hok.
  - apply split_sep_none, includes_renderPair. by inversion Hok.
  - inversion Hok as [|?? Hp Hrest]; subst.
    change (renderCookies (p :: q :: ps)) with (renderPair p +:+ "; " +:+ renderCookies (q :: ps)).
    rewrite split_sep_app by by apply includes_renderPair.
    by rewrite IH.
Qed.

Lemma before_first_render k v :
  includes "=" k = false → before_first "=" (k +:+ "=" +:+ v) = k.
Proof.
  induction k as [|a k IH]; intros Hk; [reflexivity|].
  apply includes_cons in Hk as [Hp Hi].
  change (String a k +:+ "=" +:+ v) with (String a (k +:+ "=" +:+ v)).
  cbn [before_first]. destruct (Ascii.eqb_spec a "=") as [->|_].
  - by destruct k.
  - by rewrite IH.
Qed.

Lemma after_first_render k v :
  includes "=" k = false → after_first "=" (k +:+ "=" +:+ v) = v.
Proof.
  induction k as [|a k IH]; intros Hk; [reflexivity|].
  apply includes_cons in Hk as [Hp Hi].
  change (String a k +:+ "=" +:+ v) with (String a (k +:+ "=" +:+ v)).
  cbn [after_first]. destruct (Ascii.eqb_spec a "=") as [->|_].
  - by destruct k.
  - by rewrite IH.
Qed.

Lemma parsePair_render p : cookie_ok p → parsePair (renderPair p) = p.
Proof.
  destruct p as [k v]. intros (Hk & _). cbn [fst] in Hk.
  rewrite parsePair_first_eq. unfold spec_pair_on_first_eq, renderPair. cbn [fst snd].
  by rewrite before_first_render, after_first_render.
Qed.

Lemma renderCookies_nonempty p ps : renderCookies (p :: ps) ≠ EmptyString.
Proof.
  unfold renderCookies. cbn [map join].
  destruct p as [k v]. unfold renderPair. cbn [fst snd].
  destruct (map _ ps); destruct k; done.
Qed.

Lemma parseCookies_render ps :
  Forall cookie_ok ps → parseCookies (Some (renderCookies ps)) = fromEntries ps.
Proof.
  destruct ps as [|p ps]; [reflexivity|]. intros Hok.
  unfold parseCookies.
  destruct (renderCookies (p :: ps)) eqn:E; [by destruct (renderCookies_nonempty p ps)|].
  rewrite <- E, split_renderCookies by done.
  f_equal. clear E. induction Hok as [|q qs Hq _ IH]; [done|].
  cbn [map]. by rewrite parsePair_render, IH.
Qed.

Lemma fold_insert_notin (l : list (string * string)) (m : gmap string string) k :
  k ∉ l.*1 → fold_left (fun (m : gmap string string) e => <[e.1 := e.2]> m) l m !! k = m !! k.
Proof.
  revert m. induction l as [|[k' v'] l IH]; intros m Hk; [done|].
  cbn [fold_left]. apply not_elem_of_cons in Hk as [Hne Hk].
  rewrite IH by done. cbn in *. by rewrite lookup_insert_ne.
Qed.

Lemma fromEntries_last before k v after :
  k ∉ after.*1 → fromEntries (before ++ (k, v) :: after) !! k = Some v.
Proof.
  intros Hk. unfold fromEntries. rewrite fold_left_app. cbn [fold_left].
  rewrite fold_insert_notin by done. cbn. apply lookup_insert_eq.
Qed.

(** C7. A header that is empty or missing parses to the empty mapping;
    each pair is cut at its first ["="], the rest being the value; and so
    a cookie written [name=value] in a header is read back by [getCookie]
    with its value intact, whatever ["="] characters the value holds.  The
    header is a list of pairs joined by ["; "]; when a name occurs several
    times the last occurrence is the one read. *)
Theorem getCookie_round_trip (before after : list (string * string))
    (name value : string) :
  Forall cookie_ok (before ++ (name, value) :: after) →
  name ∉ after.*1 →
  getCookie (Some (renderCookies (before ++ (name, value) :: after))) name
    = Some value
  ∧ parseCookies (Some (renderCookies (before ++ (name, value) :: after)))
    = fromEntries (before ++ (name, value) :: after)
  ∧ (∀ c, parsePair c = spec_pair_on_first_eq c)
  ∧ (∀ header, header ≠ EmptyString →
       parseCookies (Some header)
         = fromEntries (map spec_pair_on_first_eq (split "; " header)))
  ∧ parseCookies None = ∅
  ∧ parseCookies (Some "") = ∅.
Proof.
  intros Hok Hlast.
  assert (Hparse := parseCookies_render _ Hok).
  repeat split; try done.
  - unfold getCookie. rewrite Hparse. by apply fromEntries_last.
  - apply parsePair_first_eq.
  - intros header Hheader. unfold parseCookies.
    destruct header; [done|]. f_equal. apply map_ext. apply parsePair_first_eq.
Qed.

End CookieFacts.

Lemma getCookie_round_trip_witness :
  (Forall Cookie.cookie_ok ([("theme", "dark")] ++ ("authToken", "a.b=c==") :: [("lang", "en")])
   ∧ "authToken" ∉ [("lang", "en")].*1)
  ∧ Cookie.getCookie (Some "theme=dark; authToken=a.b=c==; lang=en") "authToken"
    = Some "a.b=c==".
Proof.
  assert (Hok : Forall Cookie.cookie_ok
                  ([("theme", "dark")] ++ ("authToken", "a.b=c==") :: [("lang", "en")])).
  { repeat constructor. }
  assert (Hlast : "authToken" ∉ [("lang", "en")].*1).
  { intros Hin. apply list_elem_of_In in Hin. simpl in Hin. destruct Hin as [Heq|[]].
    discriminate Heq. }
  split; [by split|].
  exact (proj1 (getCookie_round_trip [("theme", "dark")] [("lang", "en")]
                  "authToken" "a.b=c==" Hok Hlast)).
Defined.

(** ** The connection registry and the message relay *)

Section RelayFacts.
Import Runtime MessageService ConnectionService Observe.

Context (env : Env).

Lemma removeConnection_ok cid w :
  dynamo_send env (tick w) = None →
  removeConnection env cid w =
    (Ok tt, set_connections (λ t, delete cid t)
              (record_io (DynamoDelete ConnectionsTable cid) (bump w))).
Proof.
  intros Hsend. unfold removeConnection, DynamoDbClient.deleteItem_connection,
    DynamoDbClient.send. run. by rewrite Hsend.
Qed.

Lemma removeConnection_fails cid w e :
  dynamo_send env (tick w) = Some e →
  removeConnection env cid w =
    (Throw (newError "Failed to remove connection"),
     record_io (DynamoDelete ConnectionsTable cid) (bump w)).
Proof.
  intros Hsend. unfold removeConnection, DynamoDbClient.deleteItem_connection,
    DynamoDbClient.send. run. by rewrite Hsend.
Qed.

Lemma getApiGateway_runs event w :
  ∃ client w', getApiGateway event w = (Ok client, w') ∧
    connections w' = connections w ∧ messages w' = messages w ∧
    tick w' = tick w ∧ trace w' = trace w ∧
    jwksCache w' = jwksCache w ∧ jwksLastFetch w' = jwksLastFetch w.
Proof.
  unfold getApiGateway. run. destruct (apiGateway w); eauto 10.
Qed.

(** The delivery attempt up to the answer of the transport. *)
Lemma sendToClient_failed event cid payload w e :
  apigw_send env (tick w) = Some e →
  ∃ w', sendToClient env event cid payload w =
          ((if is_gone e then removeConnection env cid else mret tt) ≫=
             (λ _, mret false)) w' ∧
        connections w' = connections w ∧ messages w' = messages w ∧
        tick w' = S (tick w) ∧
        trace w' = PostToConnection cid payload :: trace w.
Proof.
  intros Hsend. unfold sendToClient, postToConnection.
  destruct (getApiGateway_runs event w) as (client & w0 & Hgw & Hc & Hm & Ht & Htr & _).
  unfold try_catch at 1. unfold mbind at 1 2, M_bind at 1 2.
  rewrite Hgw. rewrite Ht, Hsend.
  eexists. split; [reflexivity|]. cbn. by rewrite Hc, Hm, Ht, Htr.
Qed.

Lemma sendToClient_delivered event cid payload w :
  apigw_send env (tick w) = None →
  ∃ w', sendToClient env event cid payload w = (Ok true, w') ∧
        connections w' = connections w ∧ messages w' = messages w ∧
        trace w' = PostToConnection cid payload :: trace w.
Proof.
  intros Hsend. unfold sendToClient, postToConnection.
  destruct (getApiGateway_runs event w) as (client & w0 & Hgw & Hc & Hm & Ht & Htr & _).
  run. rewrite Hgw. rewrite Ht, Hsend. eexists. split; [reflexivity|].
  cbn. by rewrite Hc, Hm, Htr.
Qed.

(** C9. When the transport fails with an error that is not a gone signal
    (its name is not GoneException and its HTTP status is not 410),
    [sendToClient] returns [false], the connections table is unchanged and
    no delete is sent to it: the post is the only outbound call. *)
Theorem sendToClient_other_error_keeps_registry event cid payload w e :
  apigw_send env (tick w) = Some e →
  is_gone e = false →
  (sendToClient env event cid payload w).1 = Ok false
  ∧ connections (sendToClient env event cid payload w).2 = connections w
  ∧ trace (sendToClient env event cid payload w).2
    = PostToConnection cid payload :: trace w
  ∧ removals cid (sendToClient env event cid payload w).2 = removals cid w.
Proof.
  intros Hsend Hgone.
  destruct (sendToClient_failed event cid payload w e Hsend)
    as (w' & -> & Hc & _ & _ & Htr).
  rewrite Hgone. run. unfold removals. rewrite Htr. done.
Qed.

(** A delivery to a gone connection, when the delete that follows succeeds. *)
Lemma sendToClient_gone event cid payload w e :
  apigw_send env (tick w) = Some e →
  is_gone e = true →
  dynamo_send env (S (tick w)) = None →
  (sendToClient env event cid payload w).1 = Ok false
  ∧ connections (sendToClient env event cid payload w).2
    = delete cid (connections w)
  ∧ removals cid (sendToClient env event cid payload w).2 = S (removals cid w)
  ∧ tick (sendToClient env event cid payload w).2 = S (S (tick w)).
Proof.
  intros Hsend Hgone Hdel.
  destruct (sendToClient_failed event cid payload w e Hsend)
    as (w' & -> & Hc & _ & Ht & Htr).
  rewrite Hgone. unfold mbind, M_bind.
  rewrite removeConnection_ok by by rewrite Ht.
  cbn. unfold removals. cbn. rewrite Hc, Htr, Ht. cbn.
  by rewrite String.eqb_refl.
Qed.

(** When that delete fails, the delivery does not return: the error of
    [removeConnection] leaves the catch block. *)
Lemma sendToClient_gone_store_fails event cid payload w e e' :
  apigw_send env (tick w) = Some e →
  is_gone e = true →
  dynamo_send env (S (tick w)) = Some e' →
  (sendToClient env event cid payload w).1
    = Throw (newError "Failed to remove connection")
  ∧ connections (sendToClient env event cid payload w).2 = connections w.
Proof.
  intros Hsend Hgone Hdel.
  destruct (sendToClient_failed event cid payload w e Hsend)
    as (w' & -> & Hc & _ & Ht & _).
  rewrite Hgone. unfold mbind, M_bind.
  rewrite (removeConnection_fails cid w' e') by by rewrite Ht.
  done.
Qed.

(** C4, as the code has it.  When the transport reports the connection as
    gone and the delete sent to the connections table succeeds,
    [sendToClient] returns [false] and the row of that connection is no
    longer in the table.  A further delivery to the same id that meets the
    same answers returns [false] again and leaves the table as it is, but
    it does send the delete once more. *)
Theorem sendToClient_gone_prunes event cid payload w e e' :
  apigw_send env (tick w) = Some e → is_gone e = true →
  dynamo_send env (S (tick w)) = None →
  apigw_send env (S (S (tick w))) = Some e' → is_gone e' = true →
  dynamo_send env (S (S (S (tick w)))) = None →
  let first := sendToClient env event cid payload w in
  let second := sendToClient env event cid payload first.2 in
  first.1 = Ok false
  ∧ connections first.2 !! cid = None
  ∧ second.1 = Ok false
  ∧ connections second.2 = connections first.2
  ∧ removals cid second.2 = S (removals cid first.2).
Proof.
  intros Hsend Hgone Hdel Hsend' Hgone' Hdel' first second.
  destruct (sendToClient_gone event cid payload w e Hsend Hgone Hdel)
    as (Hr & Hc & Hn & Ht).
  fold first in Hr, Hc, Hn, Ht.
  rewrite <- Ht in Hsend', Hdel'.
  destruct (sendToClient_gone event cid payload first.2 e' Hsend' Hgone' Hdel')
    as (Hr' & Hc' & Hn' & _).
  fold second in Hr', Hc', Hn'.
  repeat split; try done.
  - rewrite Hc. apply lookup_delete_eq.
  - rewrite Hc', Hc. apply delete_delete_eq.
Qed.

Lemma saveMessage_saved cid content sid md w saved w1 :
  saveMessage env cid content sid md w = (Ok saved, w1) →
  saved ∈ messages w1 ∧ connections w1 = connections w ∧
  sessionId saved = sid ∧ Runtime.content saved = content.
Proof.
  unfold saveMessage, dateNow, uuid, DynamoDbClient.putItem_message,
    DynamoDbClient.send. run. cbn.
  destruct (dynamo_send env _); [done|].
  intros [= <- <-]. cbn. split; [|done].
  unfold DynamoDbClient.file_row. apply elem_of_app. right. by left.
Qed.

Lemma saveMessage_failed cid content sid md w e w1 :
  saveMessage env cid content sid md w = (Throw e, w1) →
  connections w1 = connections w ∧ messages w1 = messages w.
Proof.
  unfold saveMessage, dateNow, uuid, DynamoDbClient.putItem_message,
    DynamoDbClient.send. run. cbn.
  destruct (dynamo_send env _); [|done].
  by intros [= <- <-].
Qed.

(** A delivery attempt never touches the messages table, whatever happens. *)
Lemma sendToClient_keeps_messages event cid payload w :
  messages (sendToClient env event cid payload w).2 = messages w.
Proof.
  destruct (apigw_send env (tick w)) as [e|] eqn:Hsend.
  - destruct (sendToClient_failed event cid payload w e Hsend)
      as (w' & -> & _ & Hm & _ & _).
    destruct (is_gone e); [|by run].
    unfold mbind, M_bind.
    destruct (dynamo_send env (tick w')) as [e'|] eqn:Hdel.
    + by rewrite (removeConnection_fails _ _ _ Hdel).
    + by rewrite (removeConnection_ok _ _ Hdel).
  - by destruct (sendToClient_delivered event cid payload w Hsend)
      as (w' & -> & _ & Hm & _).
Qed.

(** C1, as the code has it.  When the message is saved,
    [persistAndSendMessage] hands it back only if the delivery returns
    [true]; when the delivery returns [false] or throws, the call returns
    [null], and in either case the message is in the messages table
    afterwards.  When saving fails, the call returns [null] and the
    connections table is as it was. *)
Theorem persistAndSendMessage_outcomes event cid content sid md w :
  (∀ saved w1,
     saveMessage env cid content sid md w = (Ok saved, w1) →
     let delivery := sendToClient env event cid (payload_of saved content md) w1 in
     persistAndSendMessage env event cid content sid md w
       = (Ok (handed_back saved delivery.1), delivery.2)
     ∧ saved ∈ messages delivery.2)
  ∧ (∀ e w1,
       saveMessage env cid content sid md w = (Throw e, w1) →
       persistAndSendMessage env event cid content sid md w = (Ok None, w1)
       ∧ connections w1 = connections w).
Proof.
  split.
  - intros saved w1 Hsave delivery.
    split.
    + unfold persistAndSendMessage. run. rewrite Hsave.
      fold (payload_of saved content md). fold delivery.
      by destruct delivery as [[[|]|] w2].
    + unfold delivery. rewrite sendToClient_keeps_messages.
      by apply saveMessage_saved in Hsave as (? & _).
  - intros e w1 Hsave. split.
    + unfold persistAndSendMessage. run. by rewrite Hsave.
    + by apply saveMessage_failed in Hsave as (? & _).
Qed.

End RelayFacts.

Lemma sendToClient_other_error_keeps_registry_witness :
  (Runtime.apigw_send Scenario.env_throttled (Runtime.tick Scenario.registered)
     = Some Scenario.throttled
   ∧ MessageService.is_gone Scenario.throttled = false)
  ∧ (MessageService.sendToClient Scenario.env_throttled Scenario.bare_event
       "c1" Scenario.ping Scenario.registered).1 = Runtime.Ok false
  ∧ Runtime.connections
      (MessageService.sendToClient Scenario.env_throttled Scenario.bare_event
         "c1" Scenario.ping Scenario.registered).2
    = Runtime.connections Scenario.registered.
Proof.
  split; [split; reflexivity|].
  destruct (sendToClient_other_error_keeps_registry Scenario.env_throttled
              Scenario.bare_event "c1" Scenario.ping Scenario.registered
              Scenario.throttled eq_refl eq_refl) as (Hr & Hc & _).
  exact (conj Hr Hc).
Defined.

Lemma sendToClient_gone_prunes_witness :
  (Runtime.apigw_send Scenario.env_gone 0 = Some Scenario.goneError
   ∧ MessageService.is_gone Scenario.goneError = true
   ∧ Runtime.dynamo_send Scenario.env_gone 1 = None
   ∧ Runtime.apigw_send Scenario.env_gone 2 = Some Scenario.goneError
   ∧ Runtime.dynamo_send Scenario.env_gone 3 = None)
  ∧ Runtime.connections
      (MessageService.sendToClient Scenario.env_gone Scenario.bare_event "c1"
         Scenario.ping Scenario.registered).2 !! "c1" = None.
Proof.
  split; [repeat split; reflexivity|].
  destruct (sendToClient_gone_prunes Scenario.env_gone Scenario.bare_event "c1"
              Scenario.ping Scenario.registered Scenario.goneError
              Scenario.goneError eq_refl eq_refl eq_refl eq_refl eq_refl eq_refl)
    as (_ & Hgone & _).
  exact Hgone.
Defined.

(** The second of two deliveries to a gone connection sends the delete
    again: the log holds two removals of [c1], not one. *)
Lemma gone_is_pruned_once_fails :
  ¬ Stated.gone_is_pruned_once Scenario.env_gone Scenario.bare_event "c1"
      Scenario.ping Scenario.registered.
Proof.
  intros Hclaim.
  destruct Hclaim as (_ & _ & _ & Hsame).
  { intros t. exists Scenario.goneError. by split. }
  vm_compute in Hsame. discriminate Hsame.
Qed.

Lemma persistAndSendMessage_outcomes_witness :
  MessageService.saveMessage Scenario.env_gone "c1" "hello" "s1" None
    Scenario.registered
  = (Runtime.Ok Scenario.hello_saved,
     (MessageService.saveMessage Scenario.env_gone "c1" "hello" "s1" None
        Scenario.registered).2)
  ∧ (MessageService.persistAndSendMessage Scenario.env_gone Scenario.bare_event
       "c1" "hello" "s1" None Scenario.registered).1 = Runtime.Ok None
  ∧ Scenario.hello_saved ∈
      Runtime.messages
        (MessageService.persistAndSendMessage Scenario.env_gone
           Scenario.bare_event "c1" "hello" "s1" None Scenario.registered).2.
Proof.
  assert (Hsave :
    MessageService.saveMessage Scenario.env_gone "c1" "hello" "s1" None
      Scenario.registered
    = (Runtime.Ok Scenario.hello_saved,
       (MessageService.saveMessage Scenario.env_gone "c1" "hello" "s1" None
          Scenario.registered).2)).
  { reflexivity. }
  split; [exact Hsave|].
  destruct (proj1 (persistAndSendMessage_outcomes Scenario.env_gone
                     Scenario.bare_event "c1" "hello" "s1" None
                     Scenario.registered) _ _ Hsave) as [Hrun Hin].
  rewrite Hrun. split; [reflexivity | exact Hin].
Defined.

(** The message is saved, the management API throttles the post, and the
    call returns [null]. *)
Lemma saved_message_is_returned_fails :
  ¬ Stated.saved_message_is_returned Scenario.env_throttled Scenario.bare_event
      "c1" "hello" "s1" None Scenario.registered.
Proof.
  intros Hclaim. specialize (Hclaim Scenario.hello_saved eq_refl).
  vm_compute in Hclaim. discriminate Hclaim.
Qed.

(** ** The credential verifier *)

Section VerifierFacts.
Import Runtime Auth Observe.

Context (env : Env).

Lemma getJwks_cached w :
  must_fetch env (date_now env (tick w)) w = false →
  getJwks env w = (Ok (jwksCache w), bump w).
Proof.
  intros Hfresh. unfold getJwks, dateNow. run.
  change (must_fetch env (date_now env (tick w)) (bump w))
    with (must_fetch env (date_now env (tick w)) w).
  by rewrite Hfresh.
Qed.

Lemma getJwks_fetched w keys :
  must_fetch env (date_now env (tick w)) w = true →
  axios_get env (S (tick w)) = Ok keys →
  getJwks env w =
    (Ok keys, set_jwks keys (date_now env (tick w))
                (record_io HttpGetJwks (bump (bump w)))).
Proof.
  intros Hdue Hget. unfold getJwks, dateNow, axiosGet. run.
  change (must_fetch env (date_now env (tick w)) (bump w))
    with (must_fetch env (date_now env (tick w)) w).
  rewrite Hdue. cbn. by rewrite Hget.
Qed.

Lemma getJwks_unavailable w e :
  must_fetch env (date_now env (tick w)) w = true →
  axios_get env (S (tick w)) = Throw e →
  getJwks env w =
    (Throw (newError "Failed to retrieve JWKs"),
     record_io HttpGetJwks (bump (bump w))).
Proof.
  intros Hdue Hget. unfold getJwks, dateNow, axiosGet. run.
  change (must_fetch env (date_now env (tick w)) (bump w))
    with (must_fetch env (date_now env (tick w)) w).
  rewrite Hdue. cbn. by rewrite Hget.
Qed.

(** The three ways [getJwks] can go. *)
Lemma getJwks_cases w :
  (must_fetch env (date_now env (tick w)) w = false ∧
   getJwks env w = (Ok (jwksCache w), bump w))
  ∨ (must_fetch env (date_now env (tick w)) w = true ∧
     ∃ keys, getJwks env w =
       (Ok keys, set_jwks keys (date_now env (tick w))
                   (record_io HttpGetJwks (bump (bump w)))))
  ∨ (must_fetch env (date_now env (tick w)) w = true ∧
     getJwks env w =
       (Throw (newError "Failed to retrieve JWKs"),
        record_io HttpGetJwks (bump (bump w)))).
Proof.
  destruct (must_fetch env (date_now env (tick w)) w) eqn:Hdue.
  - destruct (axios_get env (S (tick w))) as [keys|e] eqn:Hget.
    + right; left. split; [done|]. exists keys. by apply getJwks_fetched.
    + right; right. split; [done|]. by eapply getJwks_unavailable.
  - left. split; [done|]. by apply getJwks_cached.
Qed.

Lemma getJwks_fetches w :
  fetches (getJwks env w).2 =
  if must_fetch env (date_now env (tick w)) w then S (fetches w) else fetches w.
Proof.
  destruct (getJwks_cases w) as [[-> ->]|[[-> [keys ->]]|[-> ->]]]; done.
Qed.

Lemma getJwks_caches w keys :
  (getJwks env w).1 = Ok keys → jwksCache (getJwks env w).2 = keys.
Proof.
  destruct (getJwks_cases w) as [[_ ->]|[[_ [keys' ->]]|[_ ->]]]; cbn;
    congruence.
Qed.

Lemma getJwks_keeps_tables w :
  connections (getJwks env w).2 = connections w ∧
  messages (getJwks env w).2 = messages w.
Proof.
  destruct (getJwks_cases w) as [[_ ->]|[[_ [keys' ->]]|[_ ->]]]; done.
Qed.

(** Past [getJwks], [validateToken] changes nothing. *)
Lemma validateToken_world token w :
  (validateToken env token w).2 =
  match decoded_kid env token with
  | Some _ => (getJwks env w).2
  | None => w
  end.
Proof.
  unfold validateToken, decoded_kid.
  destruct (jwt_decode env token) as [[decodedToken|]|decodeError]; [|done..].
  destruct (JsString.truthy (header_kid decodedToken)) as [kid|]; [|done].
  unfold mbind, M_bind.
  destruct (getJwks env w) as [[[keys|]|e] w']; cbn [snd]; try done.
  destruct (List.find _ keys) as [key|]; [|done].
  unfold lift. destruct (jwkToPem env key) as [pem|e]; [|done].
  unfold try_catch, verify. by destruct (jwt_verify _ _ _ _ _).
Qed.

Lemma validateToken_fetches token w :
  fetches (validateToken env token w).2 ≤ S (fetches w).
Proof.
  rewrite validateToken_world. destruct (decoded_kid env token); [|lia].
  rewrite getJwks_fetches. destruct (must_fetch _ _ _); lia.
Qed.

Lemma validateToken_key_missing token kid w keys :
  decoded_kid env token = Some kid →
  (getJwks env w).1 = Ok (Some keys) →
  find_key kid keys = None →
  (validateToken env token w).1 = Throw KeyIdNotFound.
Proof.
  unfold validateToken, decoded_kid, find_key. intros Hkid Hkeys Hfind.
  destruct (jwt_decode env token) as [[decodedToken|]|decodeError]; [|done..].
  rewrite Hkid. unfold mbind, M_bind.
  destruct (getJwks env w) as [r w']. cbn in Hkeys. subst r.
  by rewrite Hfind.
Qed.

(** C5, as the code has it.  A token whose key id is not in the key set
    that [getJwks] supplies is refused with "Invalid token signature: Key
    ID not found".  The miss itself causes no request to the JWKS endpoint:
    the call makes one request exactly when the cache is empty or older
    than the TTL, and none when the cached set is fresh.  A second
    identical request made within the TTL is refused in the same way
    without any request to the endpoint, and no call to [validateToken]
    ever makes more than one. *)
Theorem validateToken_unknown_kid token kid w keys :
  decoded_kid env token = Some kid →
  (getJwks env w).1 = Ok (Some keys) →
  find_key kid keys = None →
  let run := validateToken env token w in
  run.1 = Throw KeyIdNotFound
  ∧ fetches run.2 =
      (if must_fetch env (date_now env (tick w)) w
       then S (fetches w) else fetches w)
  ∧ ((date_now env (tick run.2) - jwksLastFetch run.2
        ≤ jwksCacheTTL (config env))%Z →
     (validateToken env token run.2).1 = Throw KeyIdNotFound
     ∧ fetches (validateToken env token run.2).2 = fetches run.2)
  ∧ (∀ token' w', fetches (validateToken env token' w').2 ≤ S (fetches w')).
Proof.
  intros Hkid Hkeys Hfind run.
  assert (Hworld : run.2 = (getJwks env w).2).
  { unfold run. by rewrite validateToken_world, Hkid. }
  repeat split.
  - by eapply validateToken_key_missing.
  - rewrite Hworld. apply getJwks_fetches.
  - assert (Hcache : jwksCache run.2 = Some keys).
    { rewrite Hworld. by apply getJwks_caches. }
    assert (Hfresh : must_fetch env (date_now env (tick run.2)) run.2 = false).
    { unfold must_fetch. rewrite Hcache. rewrite Z.gtb_ltb. apply Z.ltb_ge. lia. }
    eapply validateToken_key_missing; [done| |done].
    by rewrite getJwks_cached, Hcache.
  - assert (Hcache : jwksCache run.2 = Some keys).
    { rewrite Hworld. by apply getJwks_caches. }
    assert (Hfresh : must_fetch env (date_now env (tick run.2)) run.2 = false).
    { unfold must_fetch. rewrite Hcache. rewrite Z.gtb_ltb. apply Z.ltb_ge. lia. }
    rewrite validateToken_world, Hkid, getJwks_fetches. by rewrite Hfresh.
  - intros. apply validateToken_fetches.
Qed.

End VerifierFacts.

Lemma validateToken_unknown_kid_witness :
  (Observe.decoded_kid Scenario.env_ok "stranger.jwt" = Some "k9"
   ∧ (Auth.getJwks Scenario.env_ok Scenario.warm).1
     = Runtime.Ok (Some [Scenario.key1])
   ∧ Observe.find_key "k9" [Scenario.key1] = None)
  ∧ (Auth.validateToken Scenario.env_ok "stranger.jwt" Scenario.warm).1
    = Runtime.Throw Observe.KeyIdNotFound
  ∧ Observe.fetches
      (Auth.validateToken Scenario.env_ok "stranger.jwt" Scenario.warm).2 = 0.
Proof.
  split; [repeat split; reflexivity|].
  destruct (validateToken_unknown_kid Scenario.env_ok "stranger.jwt" "k9"
              Scenario.warm [Scenario.key1] eq_refl eq_refl eq_refl)
    as (Hrefused & Hfetches & _).
  split; [exact Hrefused|]. rewrite Hfetches. reflexivity.
Defined.

(** With key [k1] cached and fresh, a token naming [k9] is refused without
    a single request to the JWKS endpoint. *)
Lemma unknown_kid_refetches_once_fails :
  ¬ Stated.unknown_kid_refetches_once Scenario.env_ok "stranger.jwt"
      Scenario.warm.
Proof.
  intros Hclaim.
  destruct (Hclaim "k9" [Scenario.key1] eq_refl eq_refl eq_refl) as [_ Hone].
  vm_compute in Hone. discriminate Hone.
Qed.

(** ** The auth gate and the connect handler *)

Section GateFacts.
Import Runtime MessageService ConnectionService Auth WebSocketAuth Http Observe.

Context (env : Env).

Lemma resolveRequestId_runs event w :
  ∃ rid w1, resolveRequestId env event w = (Ok rid, w1) ∧
    connections w1 = connections w ∧ jwksCache w1 = jwksCache w ∧
    jwksLastFetch w1 = jwksLastFetch w.
Proof.
  unfold resolveRequestId, uuid. run.
  destruct (JsString.truthy _); eauto 10.
Qed.

Lemma validateToken_keeps_connections token w :
  connections (validateToken env token w).2 = connections w.
Proof.
  rewrite validateToken_world. destruct (decoded_kid env token); [|done].
  apply getJwks_keeps_tables.
Qed.

Lemma authenticateFromCookie_returns token w :
  ∃ verified, (authenticateFromCookie env token w).1 = Ok verified.
Proof.
  unfold authenticateFromCookie. destruct token; [by eexists|].
  run. destruct (validateToken env _ w) as [[u|e] w']; by eexists.
Qed.

Lemma authenticateFromCookie_keeps_connections token w :
  connections (authenticateFromCookie env token w).2 = connections w.
Proof.
  unfold authenticateFromCookie. destruct token as [|a token]; [done|].
  run. pose proof (validateToken_keeps_connections (String a token) w) as Hc.
  by destruct (validateToken env _ w) as [[u|e] w'].
Qed.


(** The three refusals of the middleware, when the delete succeeds. *)
Lemma middleware_no_header event w :
  JsString.truthy (cookieHeaderOf event) = None →
  let asked := (resolveRequestId env event w).2 in
  dynamo_send env (tick asked) = None →
  webSocketAuthMiddleware env event w =
    (Ok (reply 401 (bodyMessage "Missing authentication token")),
     pruned (ev_connectionId event) asked).
Proof.
  intros Hheader asked Hdel. unfold webSocketAuthMiddleware.
  destruct (resolveRequestId_runs event w) as (rid & w1 & Hrid & _).
  unfold asked in *. rewrite Hrid in *. cbn [snd] in *.
  unfold try_catch at 1. unfold mbind at 1, M_bind at 1.
  rewrite Hrid, Hheader. unfold mbind, M_bind.
  by rewrite removeConnection_ok.
Qed.

Lemma middleware_no_cookie event w cookieHeader :
  JsString.truthy (cookieHeaderOf event) = Some cookieHeader →
  JsString.truthy
    (Cookie.getCookie (Some cookieHeader) (cookieName (config env))) = None →
  let asked := (resolveRequestId env event w).2 in
  dynamo_send env (tick asked) = None →
  webSocketAuthMiddleware env event w =
    (Ok (reply 401 (bodyMessage "Missing authentication token")),
     pruned (ev_connectionId event) asked).
Proof.
  intros Hheader Hcookie asked Hdel. unfold webSocketAuthMiddleware.
  destruct (resolveRequestId_runs event w) as (rid & w1 & Hrid & _).
  unfold asked in *. rewrite Hrid in *. cbn [snd] in *.
  unfold try_catch at 1. unfold mbind at 1, M_bind at 1.
  rewrite Hrid, Hheader, Hcookie. unfold mbind, M_bind.
  by rewrite removeConnection_ok.
Qed.

Lemma middleware_bad_token event w cookieHeader token :
  JsString.truthy (cookieHeaderOf event) = Some cookieHeader →
  JsString.truthy
    (Cookie.getCookie (Some cookieHeader) (cookieName (config env))) = Some token →
  let asked := (resolveRequestId env event w).2 in
  let checked := authenticateFromCookie env token asked in
  checked.1 = Ok None →
  dynamo_send env (tick checked.2) = None →
  webSocketAuthMiddleware env event w =
    (Ok (reply 401 (bodyMessage "Invalid authentication token")),
     pruned (ev_connectionId event) checked.2).
Proof.
  intros Hheader Hcookie asked checked Hnull Hdel. unfold webSocketAuthMiddleware.
  destruct (resolveRequestId_runs event w) as (rid & w1 & Hrid & _).
  unfold checked, asked in *. rewrite Hrid in *. cbn [snd] in *.
  unfold try_catch at 1. unfold mbind at 1, M_bind at 1.
  rewrite Hrid, Hheader, Hcookie. unfold mbind at 1, M_bind at 1.
  destruct (authenticateFromCookie env token w1) as [r w2]. cbn [fst snd] in *.
  subst r. unfold mbind, M_bind. by rewrite removeConnection_ok.
Qed.

(** C2, as the code has it.  When the middleware finds no valid credential
    (no cookie header, no auth cookie, or a token that
    [authenticateFromCookie] refuses) and the store carries out the delete
    it is sent, the middleware answers 401 and the connections table holds
    no row for the connection afterwards, whatever it held before; the
    other rows are untouched. *)
Theorem rejected_connection_is_removed event w :
  credential_rejected env event w →
  store_available env →
  let run := webSocketAuthMiddleware env event w in
  (∃ r, run.1 = Ok r ∧ statusCode r = 401%Z)
  ∧ connections run.2 !! ev_connectionId event = None
  ∧ connections run.2 = delete (ev_connectionId event) (connections w).
Proof.
  intros Hrejected Hstore run. unfold credential_rejected in Hrejected.
  destruct (resolveRequestId_runs event w) as (rid & w1 & Hrid & Hc1 & _).
  assert (Hrun : ∃ r w2, run = (Ok r, pruned (ev_connectionId event) w2) ∧
                   statusCode r = 401%Z ∧ connections w2 = connections w).
  { destruct (JsString.truthy (cookieHeaderOf event)) as [cookieHeader|] eqn:Hheader.
    - destruct (JsString.truthy (Cookie.getCookie _ _)) as [token|] eqn:Hcookie.
      + eexists _, _. split; [|split].
        * by apply (middleware_bad_token event w cookieHeader token).
        * done.
        * rewrite authenticateFromCookie_keeps_connections. by rewrite Hrid.
      + eexists _, _. split; [|split].
        * by apply (middleware_no_cookie event w cookieHeader).
        * done.
        * by rewrite Hrid.
    - eexists _, _. split; [|split].
      + by apply middleware_no_header.
      + done.
      + by rewrite Hrid. }
  destruct Hrun as (r & w2 & -> & Hstatus & Hc2). cbn [fst snd].
  split; [by exists r|]. unfold pruned. cbn. rewrite Hc2.
  split; [apply lookup_delete_eq|done].
Qed.






(** [handleAuthError] looks for "token expired" in the message.  Neither
    the error [validateToken] throws nor the one jsonwebtoken raises for an
    expired token has it, so both map to the code AUTH_ERROR. *)
Lemma handleAuthError_on_expiry socketId :
  ErrorHandler.app_errorCode
    (ErrorHandler.handleAuthError (newError "Invalid token") socketId)
    = "AUTH_ERROR"
  ∧ ErrorHandler.app_errorCode
      (ErrorHandler.handleAuthError TokenExpiredError socketId)
    = "AUTH_ERROR".
Proof. split; reflexivity. Qed.

End GateFacts.

Lemma rejected_connection_is_removed_witness :
  (Observe.credential_rejected Scenario.env_ok Scenario.bare_event
     Scenario.registered
   ∧ Observe.store_available Scenario.env_ok)
  ∧ Runtime.connections
      (WebSocketAuth.webSocketAuthMiddleware Scenario.env_ok Scenario.bare_event
         Scenario.registered).2 !! "c1" = None.
Proof.
  assert (Hrejected : Observe.credential_rejected Scenario.env_ok
                        Scenario.bare_event Scenario.registered).
  { exact I. }
  assert (Hstore : Observe.store_available Scenario.env_ok).
  { intros t. reflexivity. }
  split; [by split|].
  destruct (rejected_connection_is_removed Scenario.env_ok Scenario.bare_event
              Scenario.registered Hrejected Hstore) as (_ & Hnone & _).
  exact Hnone.
Defined.

(** The connect handler registers [c1]; the store is then lost; the
    middleware finds no cookie, both of its deletes fail, and the row of
    [c1] is still there. *)
Lemma rejected_connection_has_no_row_fails :
  ¬ Stated.rejected_connection_has_no_row Scenario.env_store_lost
      Scenario.bare_event
      (WebSocketPlugin.handleConnect Scenario.env_store_lost
         Scenario.bare_event Runtime.initial).2.
Proof.
  intros Hclaim. specialize (Hclaim I).
  vm_compute in Hclaim. discriminate Hclaim.
Qed.






(** ** Re-registration and retrieval *)

Section RegistryFacts.
Import Runtime MessageService ConnectionService Auth WebSocketAuth
  WebSocketPlugin Http Observe.

Context (env : Env).

Lemma addConnection_written cid data w w' :
  addConnection env cid data w = (Ok tt, w') →
  connections w' =
    <[cid := row_at (date_now env (tick w)) cid data]> (connections w).
Proof.
  unfold addConnection, dateNow, DynamoDbClient.putItem_connection,
    DynamoDbClient.send. run. cbn.
  destruct (dynamo_send env _); [done|]. by intros [= <-].
Qed.

(** The only way to a 200 from the middleware is through its
    [addConnection]. *)
Lemma middleware_accepted event w r w' :
  webSocketAuthMiddleware env event w = (Ok r, w') →
  statusCode r = 200%Z →
  ∃ rid u w2,
    requestId r = Some rid ∧ user r = Some u ∧
    addConnection env (ev_connectionId event) (authenticatedUserData rid u) w2
      = (Ok tt, w').
Proof.
  unfold webSocketAuthMiddleware.
  destruct (resolveRequestId_runs env event w) as (rid & w1 & Hrid & _).
  unfold try_catch at 1. unfold mbind at 1, M_bind at 1. rewrite Hrid.
  assert (Hrefused : ∀ (wa : World) (answer : Response),
    match (removeConnection env (ev_connectionId event) ≫= λ _, mret answer) wa with
    | (Ok a, wb) => (Ok a, wb)
    | (Throw e, wb) =>
        (removeConnection env (ev_connectionId event) ≫=
           λ _, mret (reply 500 (bodyMessage "Authentication failed"))) wb
    end = (Ok r, w') → statusCode r = 200%Z → statusCode answer ≠ 200%Z → False).
  { intros wa answer. unfold mbind, M_bind, mret, M_ret.
    destruct (removeConnection env _ wa) as [[[]|e] wb].
    - intros [= <- <-] Hstatus Hanswer. by destruct Hanswer.
    - destruct (removeConnection env _ wb) as [[[]|e'] wc]; [|done].
      by intros [= <- <-]. }
  destruct (JsString.truthy (cookieHeaderOf event)) as [cookieHeader|].
  2: { intros Hrun Hstatus. by destruct (Hrefused _ _ Hrun Hstatus). }
  destruct (JsString.truthy (Cookie.getCookie _ _)) as [token|].
  2: { intros Hrun Hstatus. by destruct (Hrefused _ _ Hrun Hstatus). }
  unfold mbind at 1, M_bind at 1.
  destruct (authenticateFromCookie_returns env token w1) as [verified Hverified].
  destruct (authenticateFromCookie env token w1) as [checked w2].
  cbn in Hverified. subst checked.
  destruct verified as [u|].
  2: { intros Hrun Hstatus. by destruct (Hrefused _ _ Hrun Hstatus). }
  unfold mbind, M_bind, mret, M_ret.
  destruct (addConnection env _ _ w2) as [[[]|e] w3] eqn:Hadd.
  - intros [= <- <-] _. by exists rid, u, w2.
  - destruct (removeConnection env _ w3) as [[[]|e'] w4]; [|done].
    by intros [= <- <-].
Qed.

(** C10.  A later [addConnection] for the same connection replaces the
    whole row: timestamp and ttl come from the clock of the later call and
    [userData] is exactly what the later call was given.  In particular,
    when the connect handler has registered the connection and the
    middleware then accepts its credential, the row holds the request id
    and user id the middleware wrote, and nothing of the row written at
    connect time. *)
Theorem addConnection_replaces_row cid earlier later w w1 w2 :
  addConnection env cid earlier w = (Ok tt, w1) →
  addConnection env cid later w1 = (Ok tt, w2) →
  connections w2 !! cid = Some (row_at (date_now env (tick w1)) cid later)
  ∧ (∀ event connected accepted wa wb,
       handleConnect env event w = (Ok connected, wa) →
       webSocketAuthMiddleware env event wa = (Ok accepted, wb) →
       statusCode accepted = 200%Z →
       ∃ rid u now,
         requestId accepted = Some rid ∧ user accepted = Some u ∧
         connections wb !! ev_connectionId event
           = Some (row_at now (ev_connectionId event)
                     (authenticatedUserData rid u))).
Proof.
  intros Hearlier Hlater. split.
  - rewrite (addConnection_written _ _ _ _ Hlater). apply lookup_insert_eq.
  - intros event connected accepted wa wb _ Hrun Hstatus.
    destruct (middleware_accepted event wa accepted wb Hrun Hstatus)
      as (rid & u & w3 & Hrid & Hu & Hadd).
    exists rid, u, (date_now env (tick w3)). repeat split; try done.
    rewrite (addConnection_written _ _ _ _ Hadd). apply lookup_insert_eq.
Qed.

Lemma ascending_by_two key a b rows :
  ascending_by key (a :: b :: rows) =
  (key a <=? key b)%Z && ascending_by key (b :: rows).
Proof. reflexivity. Qed.

Lemma ascending_insert_by key m rows :
  ascending_by key rows = true →
  ascending_by key (DynamoDbClient.insert_by key m rows) = true.
Proof.
  induction rows as [|x rows IH]; [done|]. intros Hrows.
  cbn [DynamoDbClient.insert_by].
  destruct (key m <? key x)%Z eqn:Hlt.
  - rewrite ascending_by_two, Hrows, andb_true_r.
    apply Z.leb_le. apply Z.ltb_lt in Hlt. lia.
  - apply Z.ltb_ge in Hlt.
    destruct rows as [|y rows].
    + cbn. rewrite andb_true_r. by apply Z.leb_le.
    + rewrite ascending_by_two in Hrows.
      apply andb_true_iff in Hrows as [Hxy Hrest].
      specialize (IH Hrest). cbn [DynamoDbClient.insert_by] in IH |- *.
      destruct (key m <? key y)%Z.
      * rewrite ascending_by_two, IH, andb_true_r. by apply Z.leb_le.
      * by rewrite ascending_by_two, Hxy, IH.
Qed.

Lemma ascending_sort_by key rows :
  ascending_by key (DynamoDbClient.sort_by key rows) = true.
Proof.
  induction rows as [|x rows IH]; [done|].
  cbn. by apply ascending_insert_by.
Qed.

Lemma ascending_take key n rows :
  ascending_by key rows = true → ascending_by key (take n rows) = true.
Proof.
  revert n. induction rows as [|x rows IH]; intros n Hrows; [by destruct n|].
  destruct n as [|n]; [done|]. cbn [take].
  destruct rows as [|y rows]; [by destruct n|].
  rewrite ascending_by_two in Hrows.
  apply andb_true_iff in Hrows as [Hxy Hrest].
  specialize (IH n Hrest). destruct n as [|n]; [done|].
  cbn [take] in IH |- *. by rewrite ascending_by_two, Hxy, IH.
Qed.

(** A query with [ScanIndexForward] on an index that has a sort key
    returns its rows in ascending order of that key. *)
Lemma query_follows_sort_key idx key value limit w rows :
  DynamoDbClient.idx_range idx = Some key →
  (DynamoDbClient.query env idx value limit true w).1 = Ok rows →
  ascending_by key rows = true.
Proof.
  unfold DynamoDbClient.query, DynamoDbClient.index_partition.
  intros ->. destruct (dynamo_send env (tick w)); [done|].
  cbn. intros [= <-]. apply ascending_take, ascending_sort_by.
Qed.

(** On [sessionId-index], which has none, the rows of the session come
    back in the order in which the store keeps them. *)
Lemma getSessionMessages_store_order sid limit w rows :
  (getSessionMessages env sid limit w).1 = Ok rows →
  rows = take limit (filter (λ r, sessionId r = sid) (messages w)).
Proof.
  unfold getSessionMessages, DynamoDbClient.query, DynamoDbClient.index_partition.
  destruct (dynamo_send env (tick w)); [done|]. cbn. by intros [= <-].
Qed.

(** C8 at a failing input.  Two messages are saved in session [s1], the
    second a few milliseconds after the first, and the store files the
    newer row ahead of the older one: [getSessionMessages] returns the
    newer message first, not the older. *)
Theorem getSessionMessages_newest_first :
  ∃ newer older,
    (getSessionMessages Scenario.env_newest_first "s1" 100 Scenario.two_saved).1
      = Ok [newer; older]
    ∧ content newer = "second" ∧ content older = "first"
    ∧ (msg_timestamp older < msg_timestamp newer)%Z
    ∧ oldest_first [newer; older] = false.
Proof.
  eexists _, _. split; [vm_compute; reflexivity|].
  repeat split.
Qed.

End RegistryFacts.

Lemma addConnection_replaces_row_witness :
  (ConnectionService.addConnection Scenario.env_ok "c1" {["requestId" := "r1"]}
     Runtime.initial
   = (Runtime.Ok tt,
      (ConnectionService.addConnection Scenario.env_ok "c1"
         {["requestId" := "r1"]} Runtime.initial).2)
   ∧ ConnectionService.addConnection Scenario.env_ok "c1" {["userId" := "u1"]}
       (ConnectionService.addConnection Scenario.env_ok "c1"
          {["requestId" := "r1"]} Runtime.initial).2
     = (Runtime.Ok tt,
        (ConnectionService.addConnection Scenario.env_ok "c1" {["userId" := "u1"]}
           (ConnectionService.addConnection Scenario.env_ok "c1"
              {["requestId" := "r1"]} Runtime.initial).2).2))
  ∧ Runtime.connections
      (ConnectionService.addConnection Scenario.env_ok "c1" {["userId" := "u1"]}
         (ConnectionService.addConnection Scenario.env_ok "c1"
            {["requestId" := "r1"]} Runtime.initial).2).2 !! "c1"
    = Some (Observe.row_at 1002 "c1" {["userId" := "u1"]}).
Proof.
  split; [split; reflexivity|].
  exact (proj1 (addConnection_replaces_row Scenario.env_ok "c1"
                  {["requestId" := "r1"]} {["userId" := "u1"]} Runtime.initial
                  _ _ eq_refl eq_refl)).
Defined.

(** ** More on cookie parsing *)

Section CookieEdges.
Import JsString Cookie.

Lemma fromEntries_absent (ps : list (string * string)) name :
  name ∉ ps.*1 → fromEntries ps !! name = None.
Proof.
  intros Habsent. unfold fromEntries. by rewrite fold_insert_notin.
Qed.

(** A name that is not among the cookies of a header reads as
    [undefined], unless it is one of the names every object inherits
    from [Object.prototype]: for those [getCookie] returns what the
    prototype holds. *)
Theorem getCookie_absent (ps : list (string * string)) name :
  Forall cookie_ok ps →
  name ∉ ps.*1 →
  (name ∉ PlainObject.inherited →
   PlainObject.getCookie (Some (renderCookies ps)) name = PlainObject.Undefined)
  ∧ (name ∈ PlainObject.inherited →
     PlainObject.getCookie (Some (renderCookies ps)) name = PlainObject.Inherited).
Proof.
  intros Hok Habsent. unfold PlainObject.getCookie, PlainObject.get.
  rewrite parseCookies_render by done.
  rewrite fromEntries_absent by done.
  split; intros Hname.
  - by rewrite bool_decide_eq_false_2.
  - by rewrite bool_decide_eq_true_2.
Qed.

(** A header in which the separator ["; "] does not occur is read as a
    single cookie, cut at its first ["="]: pairs separated by [";"] alone
    are not told apart, and all that follows the first ["="] is the value
    of the first name. *)
Theorem parseCookies_without_separator header :
  header ≠ EmptyString →
  includes "; " header = false →
  parseCookies (Some header)
  = {[before_first "=" header := after_first "=" header]}.
Proof.
  intros Hheader Hsep. unfold parseCookies.
  destruct header as [|a header]; [done|].
  rewrite split_sep_none by done. cbn [map].
  rewrite parsePair_first_eq. unfold fromEntries, spec_pair_on_first_eq.
  cbn [fold_left fst snd]. apply insert_empty.
Qed.

End CookieEdges.

(** ** Listing the registry *)

Section ScanFacts.
Import Runtime ConnectionService RegistryScan Observe.

Context (env : Env).

Lemma scan_rows keep limit w rows :
  (scan env keep limit w).1 = Ok rows →
  rows = List.filter keep (take limit (map_to_list (connections w)).*2).
Proof.
  unfold scan. destruct (dynamo_send env (tick w)); [done|]. by intros [= <-].
Qed.

Lemma scan_keeps_tables keep limit w :
  connections (scan env keep limit w).2 = connections w ∧
  messages (scan env keep limit w).2 = messages w.
Proof. unfold scan. by destruct (dynamo_send env (tick w)). Qed.

Lemma scanned_row_in_table keep limit (w : World) row :
  row ∈ List.filter keep (take limit (map_to_list (connections w)).*2) →
  keep row = true ∧ ∃ key, connections w !! key = Some row.
Proof.
  intros Hin. apply list_elem_of_In, filter_In in Hin as [Hin Hkeep].
  split; [done|]. apply list_elem_of_In in Hin.
  apply elem_of_take in Hin as (i & Hi & _).
  apply list_elem_of_lookup_2 in Hi.
  apply list_elem_of_fmap in Hi as ([key row'] & -> & Hrow).
  exists key. by apply elem_of_map_to_list in Hrow.
Qed.

Lemma scanned_length keep limit (w : World) :
  length (List.filter keep (take limit (map_to_list (connections w)).*2)) ≤ limit.
Proof.
  etrans; [apply filter_length_le|]. rewrite length_take. lia.
Qed.

(** Every row that [findConnectionsByUserData] returns is a row of the
    table whose [userData] holds the value under the key, and there are
    at most [limit] of them. *)
Theorem findConnectionsByUserData_sound key value limit w rows :
  (findConnectionsByUserData env key value limit w).1 = Ok rows →
  length rows ≤ limit
  ∧ ∀ row, row ∈ rows →
      userData row !! key = Some value
      ∧ ∃ k, connections w !! k = Some row.
Proof.
  unfold findConnectionsByUserData. run. intros Hrows.
  assert (rows = List.filter (matches key value)
                   (take limit (map_to_list (connections w)).*2)) as ->.
  { apply scan_rows.
    by destruct (scan env (matches key value) limit w) as [[?|?] ?]. }
  split; [apply scanned_length|].
  intros row Hrow. apply scanned_row_in_table in Hrow as [Hkeep Htable].
  split; [|done]. by apply bool_decide_eq_true in Hkeep.
Qed.

Lemma addConnection_failed cid data w e w' :
  addConnection env cid data w = (Throw e, w') →
  e = newError "Failed to add connection" ∧ connections w' = connections w.
Proof.
  unfold addConnection, dateNow, DynamoDbClient.putItem_connection,
    DynamoDbClient.send. run. cbn.
  destruct (dynamo_send env _); [|done]. by intros [= <- <-].
Qed.

Lemma removeConnection_failed cid w e w' :
  removeConnection env cid w = (Throw e, w') →
  e = newError "Failed to remove connection" ∧ connections w' = connections w.
Proof.
  unfold removeConnection, DynamoDbClient.deleteItem_connection,
    DynamoDbClient.send. run.
  destruct (dynamo_send env _); [|done]. by intros [= <- <-].
Qed.

(** Whatever the store throws, the four operations of the connection
    service throw their own fixed [Error] in its place, and the
    connections table is as it was. *)
Theorem connectionService_errors_are_generic w e w' :
  (∀ cid data, addConnection env cid data w = (Throw e, w') →
     e = newError "Failed to add connection" ∧ connections w' = connections w)
  ∧ (∀ cid, removeConnection env cid w = (Throw e, w') →
       e = newError "Failed to remove connection" ∧ connections w' = connections w)
  ∧ (∀ limit, getConnections env limit w = (Throw e, w') →
       e = newError "Failed to fetch connections" ∧ connections w' = connections w)
  ∧ (∀ key value limit,
       findConnectionsByUserData env key value limit w = (Throw e, w') →
       e = newError "Failed to find connections" ∧ connections w' = connections w).
Proof.
  split; [intros; by eapply addConnection_failed|].
  split; [intros; by eapply removeConnection_failed|].
  split.
  - intros limit. unfold getConnections, scan. run.
    destruct (dynamo_send env (tick w)); [|done]. by intros [= <- <-].
  - intros key value limit. unfold findConnectionsByUserData, scan. run.
    destruct (dynamo_send env (tick w)); [|done]. by intros [= <- <-].
Qed.

(** The row written by [addConnection] expires two hours after its
    timestamp, less at most one second: [ttl] counts seconds, [timestamp]
    milliseconds. *)
Theorem addConnection_expiry cid data w w1 :
  addConnection env cid data w = (Ok tt, w1) →
  ∃ row,
    connections w1 !! cid = Some row
    ∧ (7199000 < 1000 * ttl row - timestamp row ≤ 7200000)%Z.
Proof.
  intros Hadd. rewrite (addConnection_written env cid data w w1 Hadd).
  eexists. split; [apply lookup_insert_eq|]. cbn.
  pose proof (Z.div_mod (date_now env (tick w)) 1000 ltac:(lia)) as Hdiv.
  pose proof (Z.mod_pos_bound (date_now env (tick w)) 1000 ltac:(lia)) as Hmod.
  change (date_now env (tick w) `div` 1000)%Z
    with (date_now env (tick w) / 1000)%Z.
  lia.
Qed.

End ScanFacts.

(** ** The connect, disconnect and message handlers *)

Section HandlerFacts.
Import Runtime MessageService ConnectionService WebSocketAuth WebSocketPlugin
  MessageHandler Http Observe.

Context (env : Env).

Lemma resolveRequestId_steps event w :
  ∃ rid w1, resolveRequestId env event w = (Ok rid, w1) ∧
    connections w1 = connections w ∧ messages w1 = messages w ∧
    trace w1 = trace w.
Proof.
  unfold resolveRequestId, uuid. run.
  destruct (JsString.truthy _); eauto 10.
Qed.

Lemma addConnection_cases cid data w :
  (∃ w1, addConnection env cid data w = (Ok tt, w1) ∧
     connections w1 = <[cid := row_at (date_now env (tick w)) cid data]> (connections w) ∧
     fetches w1 = fetches w)
  ∨ (∃ w1, addConnection env cid data w =
             (Throw (newError "Failed to add connection"), w1) ∧
       connections w1 = connections w).
Proof.
  unfold addConnection, dateNow, DynamoDbClient.putItem_connection,
    DynamoDbClient.send. run. cbn.
  destruct (dynamo_send env _); [right|left]; eauto.
Qed.

Lemma removeConnection_cases cid w :
  (∃ w1, removeConnection env cid w = (Ok tt, w1) ∧
     connections w1 = delete cid (connections w))
  ∨ (∃ w1, removeConnection env cid w =
             (Throw (newError "Failed to remove connection"), w1) ∧
       connections w1 = connections w).
Proof.
  unfold removeConnection, DynamoDbClient.deleteItem_connection,
    DynamoDbClient.send. run.
  destruct (dynamo_send env _); [right|left]; eauto.
Qed.

Lemma handleConnect_registered event w :
  store_available env →
  ∃ rid now,
    (handleConnect env event w).1 = Ok (reply 200 (BodyText "Connected"))
    ∧ connections (handleConnect env event w).2
      = <[ev_connectionId event :=
            row_at now (ev_connectionId event) {["requestId" := rid]}]>
          (connections w).
Proof.
  intros Hstore. unfold handleConnect.
  unfold resolveRequestId, uuid, addConnection, dateNow,
    DynamoDbClient.putItem_connection, DynamoDbClient.send. run.
  destruct (JsString.truthy _) as [given|]; cbn; rewrite Hstore; cbn; eauto.
Qed.

(** [handleConnect] never looks at a credential.  Whatever headers the
    event carries, when the store accepts the write the handler answers
    200 "Connected" and the connection has a row whose [userData] is the
    request id alone; no request goes to the JWKS endpoint. *)
Theorem handleConnect_registers_unauthenticated event w :
  store_available env →
  ∃ rid now,
    (handleConnect env event w).1 = Ok (reply 200 (BodyText "Connected"))
    ∧ connections (handleConnect env event w).2
      = <[ev_connectionId event :=
            row_at now (ev_connectionId event) {["requestId" := rid]}]>
          (connections w)
    ∧ fetches (handleConnect env event w).2 = fetches w.
Proof.
  intros Hstore. unfold handleConnect.
  unfold resolveRequestId, uuid, addConnection, dateNow,
    DynamoDbClient.putItem_connection, DynamoDbClient.send. run.
  destruct (JsString.truthy _) as [given|]; cbn; rewrite Hstore; cbn; eauto.
Qed.

(** Neither [handleConnect] nor [handleDisconnect] ever throws: each
    answers 200 or 500, and a 500 means the connections table is as it
    was. *)
Theorem connect_handlers_always_answer event w :
  (∃ r, (handleConnect env event w).1 = Ok r
        ∧ (statusCode r = 200%Z
           ∨ statusCode r = 500%Z
             ∧ connections (handleConnect env event w).2 = connections w))
  ∧ (∃ r, (handleDisconnect env event w).1 = Ok r
          ∧ (statusCode r = 200%Z
             ∨ statusCode r = 500%Z
               ∧ connections (handleDisconnect env event w).2 = connections w)).
Proof.
  assert (Hconnect : ∃ r w',
    handleConnect env event w = (Ok r, w') ∧
    (statusCode r = 200%Z ∨ statusCode r = 500%Z ∧ connections w' = connections w)).
  { unfold handleConnect.
    destruct (resolveRequestId_steps event w) as (rid & w1 & Hrid & Hc & _).
    unfold mbind at 1, M_bind at 1. rewrite Hrid.
    unfold try_catch, mbind, M_bind, mret, M_ret.
    destruct (addConnection_cases (ev_connectionId event) {["requestId" := rid]} w1)
      as [(w2 & -> & _)|(w2 & -> & Hc2)]; eexists _, _; split; eauto.
    right. split; [done|congruence]. }
  assert (Hdisconnect : ∃ r w',
    handleDisconnect env event w = (Ok r, w') ∧
    (statusCode r = 200%Z ∨ statusCode r = 500%Z ∧ connections w' = connections w)).
  { unfold handleDisconnect. unfold try_catch, mbind, M_bind, mret, M_ret.
    destruct (removeConnection_cases (ev_connectionId event) w)
      as [(w2 & -> & _)|(w2 & -> & Hc2)]; eexists _, _; split; eauto. }
  destruct Hconnect as (r1 & w1 & -> & H1).
  destruct Hdisconnect as (r2 & w2 & -> & H2).
  split; eexists; eauto.
Qed.

(** A connect followed by a disconnect, with the store answering: the
    connect handler says 200 "Connected" and the connection then has a
    row; the disconnect handler says 200 "Disconnected" and the
    connection has no row afterwards, every other row being as before the
    connect.  A disconnect for a connection that has no row also says 200
    and leaves the table as it is. *)
Theorem connect_then_disconnect event w :
  store_available env →
  let connected := handleConnect env event w in
  let closed := handleDisconnect env event connected.2 in
  connected.1 = Ok (reply 200 (BodyText "Connected"))
  ∧ is_Some (connections connected.2 !! ev_connectionId event)
  ∧ closed.1 = Ok (reply 200 (BodyText "Disconnected"))
  ∧ connections closed.2 = delete (ev_connectionId event) (connections w)
  ∧ (connections w !! ev_connectionId event = None →
     (handleDisconnect env event w).1 = Ok (reply 200 (BodyText "Disconnected"))
     ∧ connections (handleDisconnect env event w).2 = connections w).
Proof.
  intros Hstore connected closed.
  assert (Hclose : ∀ w0,
    (handleDisconnect env event w0).1 = Ok (reply 200 (BodyText "Disconnected"))
    ∧ connections (handleDisconnect env event w0).2
      = delete (ev_connectionId event) (connections w0)).
  { intros w0. unfold handleDisconnect.
    unfold try_catch, mbind, M_bind, mret, M_ret.
    by rewrite removeConnection_ok. }
  destruct (handleConnect_registered event w Hstore)
    as (rid & now & Hanswer & Hrow).
  split; [exact Hanswer|]. split.
  { unfold connected. rewrite Hrow, lookup_insert_eq. by eexists. }
  split; [apply Hclose|]. split.
  - unfold closed. rewrite (proj2 (Hclose _)). unfold connected.
    rewrite Hrow. apply delete_insert_eq.
  - intros Hnone. split; [apply Hclose|].
    rewrite (proj2 (Hclose _)). by apply delete_id.
Qed.

End HandlerFacts.

(** ** Saving, retrieving and relaying messages *)

Section MessageFacts.
Import Runtime MessageService ConnectionService WebSocketAuth MessageHandler
  Http Observe.

Context (env : Env).

(** What [sendToClient] leaves when it returns [true]. *)
Lemma sendToClient_true event cid payload w w' :
  sendToClient env event cid payload w = (Ok true, w') →
  connections w' = connections w ∧ messages w' = messages w ∧
  trace w' = PostToConnection cid payload :: trace w.
Proof.
  intros Hsent. destruct (apigw_send env (tick w)) as [e|] eqn:Hsend.
  - destruct (sendToClient_failed env event cid payload w e Hsend)
      as (w0 & Hrun & _).
    rewrite Hrun in Hsent. unfold mbind, M_bind, mret, M_ret in Hsent.
    destruct (is_gone e); [|done].
    by destruct (removeConnection env cid w0) as [[[]|?] ?].
  - destruct (sendToClient_delivered env event cid payload w Hsend)
      as (w0 & Hrun & Hc & Hm & Htr).
    rewrite Hrun in Hsent. by injection Hsent as <-.
Qed.

Lemma persistAndSendMessage_returns event cid content sid md w :
  ∃ r, (persistAndSendMessage env event cid content sid md w).1 = Ok r.
Proof.
  unfold persistAndSendMessage. run.
  destruct (saveMessage env cid content sid md w) as [[saved|e] w1]; [|by eexists].
  destruct (sendToClient env event cid _ w1) as [[sent|e] w2]; by eexists.
Qed.

(** [persistAndSendMessage] never throws, whatever the store and the
    transport do.  When it returns a message, that message is in the
    messages table, under the session and with the content given, and the
    last outbound call was the post of that message to the connection. *)
Theorem persistAndSendMessage_reports_delivery event cid content sid md w :
  (∃ r, (persistAndSendMessage env event cid content sid md w).1 = Ok r)
  ∧ ∀ saved,
      (persistAndSendMessage env event cid content sid md w).1 = Ok (Some saved) →
      saved ∈ messages (persistAndSendMessage env event cid content sid md w).2
      ∧ sessionId saved = sid ∧ Runtime.content saved = content
      ∧ ∃ earlier,
          trace (persistAndSendMessage env event cid content sid md w).2
          = PostToConnection cid (payload_of saved content md) :: earlier.
Proof.
  split; [apply persistAndSendMessage_returns|].
  unfold persistAndSendMessage. run.
  destruct (saveMessage env cid content sid md w) as [[saved|e] w1] eqn:Hsave;
    [|done].
  fold (payload_of saved content md).
  destruct (sendToClient env event cid _ w1) as [[sent|e] w2] eqn:Hsent;
    [|done].
  cbn. intros saved' Hsaved'.
  destruct sent; [|done]. injection Hsaved' as <-.
  apply saveMessage_saved in Hsave as (Hin & _ & Hsid & Hcontent).
  apply sendToClient_true in Hsent as (_ & Hm & Htr).
  rewrite Hm, Htr. eauto 10.
Qed.

(** [handleMessage] reads [event.headers] before its [try]: for an event
    without headers it throws a [TypeError], and nothing has been sent to
    the store or to the transport.  For an event with headers the answer
    depends on the body alone.  A body that does not parse is answered
    with 500 and nothing is sent.  A body that parses is answered with 200
    "Message received" whatever happens to the reply it persists and
    sends; and on a route other than [customEvent] nothing is persisted or
    sent at all. *)
Theorem handleMessage_outcomes json event w :
  let run := handleMessage env json event w in
  (me_headers event = None → run = (Throw (cannotRead "x-request-id"), w))
  ∧ (is_Some (me_headers event) →
     (∀ e, json_parse json (me_body event) = Some e →
        run.1 = Ok (reply 500 (BodyText "Message handling failed"))
        ∧ trace run.2 = trace w ∧ messages run.2 = messages w
        ∧ connections run.2 = connections w)
     ∧ (json_parse json (me_body event) = None →
        run.1 = Ok (reply 200 (BodyText "Message received"))
        ∧ (me_routeKey event ≠ "customEvent" →
           trace run.2 = trace w ∧ messages run.2 = messages w
           ∧ connections run.2 = connections w))).
Proof.
  intros run. unfold run, handleMessage. split.
  { by intros ->. }
  intros [headers ->].
  destruct (resolveRequestId_steps env (event_with_headers headers event) w)
    as (rid & w1 & Hrid & Hc & Hm & Htr).
  unfold mbind, M_bind. rewrite Hrid. split.
  - intros e ->. unfold try_catch, throw, mret, M_ret. cbn. by rewrite Hc, Hm, Htr.
  - intros ->.
    destruct (String.eqb_spec (me_routeKey event) "customEvent") as [Hroute|Hroute].
    + split; [|done]. unfold uuid. run.
      destruct (persistAndSendMessage_returns (event_with_headers headers event)
                  (me_connectionId event)
                  (json_stringify json
                     [("message", "Hello from WebSocket!"); ("requestId", rid)])
                  (uuidv4 env (tick w1)) None (bump w1)) as [r Hr].
      destruct (persistAndSendMessage env (event_with_headers headers event) _ _ _ None
                  (bump w1)) as [res w2].
      cbn in Hr. by subst res.
    + run. cbn. by rewrite Hc, Hm, Htr.
Qed.

(** [getSessionMessages] returns at most [limit] messages, each of them a
    row of the messages table with the session asked for. *)
Theorem getSessionMessages_isolated sid limit w rows :
  (getSessionMessages env sid limit w).1 = Ok rows →
  length rows ≤ limit
  ∧ ∀ m, m ∈ rows → sessionId m = sid ∧ m ∈ messages w.
Proof.
  intros Hrows. apply getSessionMessages_store_order in Hrows as ->.
  split; [rewrite length_take; lia|].
  intros m Hm. apply elem_of_take in Hm as (i & Hi & _).
  apply list_elem_of_lookup_2 in Hi. by apply list_elem_of_filter in Hi.
Qed.

Lemma file_row_elem slot item rows (m : Message) :
  m ∈ DynamoDbClient.file_row slot item rows ↔
  m = item ∨ (m ∈ rows ∧ id m ≠ id item).
Proof.
  unfold DynamoDbClient.file_row.
  set (others := filter (λ r, id r ≠ id item) rows).
  rewrite elem_of_app, elem_of_cons.
  assert (m ∈ others ↔ m ∈ take slot others ∨ m ∈ drop slot others) as Hsplit.
  { rewrite <- elem_of_app. by rewrite take_drop. }
  assert (m ∈ others ↔ m ∈ rows ∧ id m ≠ id item) as Hothers.
  { unfold others. rewrite list_elem_of_filter. tauto. }
  tauto.
Qed.

(** After [saveMessage] the table holds the new message and, of the rows
    it held, exactly those with another id.  When the store refuses the
    write, the table is as it was and what [saveMessage] throws is the
    store's own error, not one of its own making. *)
Theorem saveMessage_table cid content sid md w :
  (∀ saved w1,
     saveMessage env cid content sid md w = (Ok saved, w1) →
     ∀ m, m ∈ messages w1 ↔ m = saved ∨ (m ∈ messages w ∧ id m ≠ id saved))
  ∧ (∀ e w1,
       saveMessage env cid content sid md w = (Throw e, w1) →
       messages w1 = messages w ∧ ∃ t, dynamo_send env t = Some e).
Proof.
  unfold saveMessage, dateNow, uuid, DynamoDbClient.putItem_message,
    DynamoDbClient.send. run. cbn.
  destruct (dynamo_send env (S (S (S (tick w))))) as [e0|] eqn:Hsend; split.
  - done.
  - intros e w1 [= <- <-]. split; [done|]. by eexists.
  - intros saved w1 [= <- <-] m. cbn. apply file_row_elem.
  - done.
Qed.

(** The management client is created once: whatever event a later call
    carries, it gets the client of the first call and changes nothing. *)
Theorem getApiGateway_created_once first later w :
  getApiGateway later (getApiGateway first w).2 = getApiGateway first w
  ∧ (apiGateway w = None →
     (getApiGateway first w).1
     = Ok ("https://" +:+ ev_domainName first +:+ "/" +:+ ev_stage first)).
Proof.
  unfold getApiGateway. run.
  destruct (apiGateway w) as [client|] eqn:Hclient; cbn; [rewrite Hclient|]; by split.
Qed.

End MessageFacts.

(** ** The key cache and token validation *)

Section TokenFacts.
Import Runtime Auth Observe.

Context (env : Env).

Lemma getJwks_thrown w e w' :
  getJwks env w = (Throw e, w') →
  e = newError "Failed to retrieve JWKs"
  ∧ jwksCache w' = jwksCache w ∧ jwksLastFetch w' = jwksLastFetch w
  ∧ fetches w' = S (fetches w).
Proof.
  destruct (must_fetch env (date_now env (tick w)) w) eqn:Hdue.
  - destruct (axios_get env (S (tick w))) as [fetched|e0] eqn:Hget.
    + by rewrite (getJwks_fetched env w fetched Hdue Hget).
    + rewrite (getJwks_unavailable env w e0 Hdue Hget). by intros [= <- <-].
  - by rewrite (getJwks_cached env w Hdue).
Qed.

(** [getJwks] either serves the cached key set, and then the set is no
    older than the TTL and no request is made, or it has just fetched the
    set it returns and stamped the cache with the time of the call.  When
    it throws, it throws "Failed to retrieve JWKs" after one request, and
    the cache and its stamp are as they were. *)
Theorem getJwks_outcomes w :
  (∀ keys w',
     getJwks env w = (Ok keys, w') →
     (jwksCache w = keys
      ∧ (date_now env (tick w) - jwksLastFetch w ≤ jwksCacheTTL (config env))%Z
      ∧ fetches w' = fetches w ∧ jwksLastFetch w' = jwksLastFetch w)
     ∨ (axios_get env (S (tick w)) = Ok keys
        ∧ jwksCache w' = keys ∧ jwksLastFetch w' = date_now env (tick w)
        ∧ fetches w' = S (fetches w)))
  ∧ (∀ e w',
       getJwks env w = (Throw e, w') →
       e = newError "Failed to retrieve JWKs"
       ∧ jwksCache w' = jwksCache w ∧ jwksLastFetch w' = jwksLastFetch w
       ∧ fetches w' = S (fetches w)).
Proof.
  destruct (must_fetch env (date_now env (tick w)) w) eqn:Hdue.
  - destruct (axios_get env (S (tick w))) as [fetched|e0] eqn:Hget.
    + rewrite (getJwks_fetched env w fetched Hdue Hget). split; [|done].
      intros keys w' [= <- <-]. by right.
    + split; [by rewrite (getJwks_unavailable env w e0 Hdue Hget)|].
      apply getJwks_thrown.
  - rewrite (getJwks_cached env w Hdue). split; [|done].
    intros keys w' [= <- <-]. left. unfold must_fetch in Hdue.
    destruct (jwksCache w); [|done].
    rewrite Z.gtb_ltb in Hdue. apply Z.ltb_ge in Hdue. done.
Qed.

(** [validateToken] returns a payload only when jsonwebtoken has verified
    the token, for the RS256 algorithm alone and the issuer of the user
    pool, against the PEM form of a key of the current key set whose id is
    the one in the token's header. *)
Theorem validateToken_sound token w u w' :
  validateToken env token w = (Ok u, w') →
  ∃ kid keys key pem,
    decoded_kid env token = Some kid
    ∧ (getJwks env w).1 = Ok (Some keys)
    ∧ key ∈ keys ∧ jwk_kid key = kid
    ∧ jwkToPem env key = Ok pem
    ∧ jwt_verify env token pem
        {| opt_issuer := issuer (config env); opt_algorithms := ["RS256"] |}
        (date_now env (tick w')) = Ok u.
Proof.
  unfold validateToken, decoded_kid.
  destruct (jwt_decode env token) as [[decodedToken|]|decodeError]; [|done..].
  destruct (JsString.truthy (header_kid decodedToken)) as [kid|]; [|done].
  unfold mbind, M_bind.
  destruct (getJwks env w) as [[[keys|]|e] w1]; try done.
  destruct (List.find _ keys) as [key|] eqn:Hfind; [|done].
  apply find_some in Hfind as [Hin Hmatch]. apply String.eqb_eq in Hmatch.
  unfold lift. destruct (jwkToPem env key) as [pem|e] eqn:Hpem; [|done].
  unfold try_catch, verify.
  destruct (jwt_verify env token pem _ _) as [verified|e] eqn:Hverify; [|done].
  intros [= <- <-]. exists kid, keys, key, pem.
  repeat split; try done. by apply list_elem_of_In.
Qed.

(** Whatever jsonwebtoken throws when it verifies, [validateToken] throws
    "Invalid token" in its place.  The only other things it throws are
    its own messages "Invalid token format", "Failed to retrieve JWKs"
    and "Invalid token signature: Key ID not found", a [TypeError] when
    the key set it got is no array, and, passed on as they are, what
    jsonwebtoken's [decode] and jwk-to-pem throw. *)
Theorem validateToken_errors token w e :
  (validateToken env token w).1 = Throw e →
  e = newError "Invalid token format"
  ∨ e = newError "Failed to retrieve JWKs"
  ∨ (err_name e = "TypeError" ∧ (getJwks env w).1 = Ok None)
  ∨ e = KeyIdNotFound
  ∨ e = newError "Invalid token"
  ∨ (∃ key, jwkToPem env key = Throw e)
  ∨ jwt_decode env token = Throw e.
Proof.
  unfold validateToken.
  destruct (jwt_decode env token) as [[decodedToken|]|decodeError];
    [|intros [= <-]; tauto|intros [= <-]; tauto].
  destruct (JsString.truthy (header_kid decodedToken)) as [kid|];
    [|intros [= <-]; tauto].
  unfold mbind, M_bind.
  destruct (getJwks env w) as [[[keys|]|e0] w1] eqn:Hjwks; cbn [fst].
  - destruct (List.find _ keys) as [key|]; [|intros [= <-]; tauto].
    unfold lift. destruct (jwkToPem env key) as [pem|e1] eqn:Hpem.
    + unfold try_catch, verify, throw.
      destruct (jwt_verify env token pem _ _); [done|]. intros [= <-]. tauto.
    + intros [= <-]. do 5 right. left. by exists key.
  - intros [= <-]. do 2 right. left. by split.
  - apply getJwks_thrown in Hjwks as [-> _]. intros [= <-]. tauto.
Qed.

End TokenFacts.

(** ** More on the auth gate *)

Section GateMore.
Import Runtime MessageService ConnectionService Auth WebSocketAuth Http Observe
  Frame.

Context (env : Env).

Lemma same_elsewhere_refl cid w : same_elsewhere cid w w.
Proof. by split. Qed.

Lemma same_elsewhere_trans cid w1 w2 w3 :
  same_elsewhere cid w1 w2 → same_elsewhere cid w2 w3 → same_elsewhere cid w1 w3.
Proof.
  intros [Hc Hm] [Hc' Hm']. split; [|congruence].
  intros other Hother. by rewrite Hc', Hc.
Qed.

Lemma same_elsewhere_tables cid w w' :
  connections w' = connections w → messages w' = messages w →
  same_elsewhere cid w w'.
Proof. intros Hc Hm. split; [|done]. intros. by rewrite Hc. Qed.

Lemma removeConnection_elsewhere cid w :
  same_elsewhere cid w (removeConnection env cid w).2.
Proof.
  unfold removeConnection, DynamoDbClient.deleteItem_connection,
    DynamoDbClient.send. run.
  destruct (dynamo_send env _); split; cbn; try done.
  intros other Hother. by apply lookup_delete_ne.
Qed.

Lemma addConnection_elsewhere cid data w :
  same_elsewhere cid w (addConnection env cid data w).2.
Proof.
  unfold addConnection, dateNow, DynamoDbClient.putItem_connection,
    DynamoDbClient.send. run. cbn.
  destruct (dynamo_send env _); split; cbn; try done.
  intros other Hother. by apply lookup_insert_ne.
Qed.

Lemma authenticateFromCookie_keeps_tables token w :
  connections (authenticateFromCookie env token w).2 = connections w ∧
  messages (authenticateFromCookie env token w).2 = messages w.
Proof.
  split; [apply authenticateFromCookie_keeps_connections|].
  unfold authenticateFromCookie. destruct token as [|a token]; [done|].
  run. pose proof (validateToken_world env (String a token) w) as Hw.
  destruct (validateToken env _ w) as [[u|e] w']; cbn in *; subst w';
    (destruct (decoded_kid env _); [apply getJwks_keeps_tables|done]).
Qed.

(** The cleanup in the catch block of the middleware. *)
Lemma cleanup_elsewhere cid (answer : Response) w :
  same_elsewhere cid w
    ((removeConnection env cid ≫= λ _, mret answer) w).2.
Proof.
  pose proof (removeConnection_elsewhere cid w) as Hframe.
  unfold mbind, M_bind, mret, M_ret.
  by destruct (removeConnection env cid w) as [[[]|e] w'].
Qed.

Lemma refusal_elsewhere cid (answer : Response) w :
  same_elsewhere cid w
    (match (removeConnection env cid ≫= λ _, mret answer) w with
     | (Ok a, wb) => (Ok a, wb)
     | (Throw e, wb) =>
         (removeConnection env cid ≫=
            λ _, mret (reply 500 (bodyMessage "Authentication failed"))) wb
     end).2.
Proof.
  pose proof (cleanup_elsewhere cid answer w) as Hfirst.
  destruct ((removeConnection env cid ≫= λ _, mret answer) w) as [[a|e] wb];
    [done|].
  eapply same_elsewhere_trans; [exact Hfirst|]. apply cleanup_elsewhere.
Qed.

(** Whatever the outcome, even when it throws, the middleware changes no
    row of the connections table other than the one of the connection it
    was called for, and never writes to the messages table. *)
Theorem middleware_touches_one_row event w other :
  other ≠ ev_connectionId event →
  connections (webSocketAuthMiddleware env event w).2 !! other
    = connections w !! other
  ∧ messages (webSocketAuthMiddleware env event w).2 = messages w.
Proof.
  intros Hother.
  assert (Hframe : same_elsewhere (ev_connectionId event) w
                     (webSocketAuthMiddleware env event w).2).
  { unfold webSocketAuthMiddleware.
    destruct (resolveRequestId_steps env event w) as (rid & w1 & Hrid & Hc & Hm & _).
    unfold try_catch at 1. unfold mbind at 1, M_bind at 1. rewrite Hrid.
    eapply same_elsewhere_trans; [by apply (same_elsewhere_tables _ w w1)|].
    destruct (JsString.truthy (cookieHeaderOf event)) as [cookieHeader|];
      [|apply refusal_elsewhere].
    destruct (JsString.truthy (Cookie.getCookie _ _)) as [token|];
      [|apply refusal_elsewhere].
    unfold mbind at 1, M_bind at 1.
    destruct (authenticateFromCookie_returns env token w1) as [verified Hverified].
    destruct (authenticateFromCookie_keeps_tables token w1) as [Hc2 Hm2].
    destruct (authenticateFromCookie env token w1) as [checked w2].
    cbn in Hverified, Hc2, Hm2. subst checked.
    eapply same_elsewhere_trans; [by apply (same_elsewhere_tables _ w1 w2)|].
    destruct verified as [u|]; [|apply refusal_elsewhere].
    pose proof (addConnection_elsewhere (ev_connectionId event)
                  (authenticatedUserData rid u) w2) as Hadd.
    unfold mbind, M_bind, mret, M_ret in *.
    destruct (addConnection env _ _ w2) as [[[]|e] w3]; [done|].
    eapply same_elsewhere_trans; [exact Hadd|].
    pose proof (removeConnection_elsewhere (ev_connectionId event) w3) as Hdel.
    by destruct (removeConnection env _ w3) as [[[]|e'] w4]. }
  destruct Hframe as [Hc Hm]. split; [by apply Hc|done].
Qed.

(** The middleware answers 200 only for a connection whose cookie header
    holds the auth cookie with a token that [validateToken] has accepted;
    the payload it returns is the one verified, and the connection then has
    a row carrying that payload's subject as its user id. *)
Theorem middleware_accepts_only_verified event w r w' :
  webSocketAuthMiddleware env event w = (Ok r, w') →
  statusCode r = 200%Z →
  ∃ cookieHeader token u row,
    JsString.truthy (cookieHeaderOf event) = Some cookieHeader
    ∧ JsString.truthy
        (Cookie.getCookie (Some cookieHeader) (cookieName (config env)))
      = Some token
    ∧ (validateToken env token (resolveRequestId env event w).2).1 = Ok u
    ∧ user r = Some u
    ∧ connections w' !! ev_connectionId event = Some row
    ∧ ∀ subject, sub u = Some subject → userData row !! "userId" = Some subject.
Proof.
  unfold webSocketAuthMiddleware.
  destruct (resolveRequestId_runs env event w) as (rid & w1 & Hrid & _).
  unfold try_catch at 1. unfold mbind at 1, M_bind at 1. rewrite Hrid. cbn [snd].
  assert (Hrefused : ∀ (wa : World) (answer : Response),
    match (removeConnection env (ev_connectionId event) ≫= λ _, mret answer) wa with
    | (Ok a, wb) => (Ok a, wb)
    | (Throw e, wb) =>
        (removeConnection env (ev_connectionId event) ≫=
           λ _, mret (reply 500 (bodyMessage "Authentication failed"))) wb
    end = (Ok r, w') → statusCode r = 200%Z → statusCode answer ≠ 200%Z → False).
  { intros wa answer. unfold mbind, M_bind, mret, M_ret.
    destruct (removeConnection env _ wa) as [[[]|e] wb].
    - intros [= <- <-] Hstatus Hanswer. by destruct Hanswer.
    - destruct (removeConnection env _ wb) as [[[]|e'] wc]; [|done].
      by intros [= <- <-]. }
  destruct (JsString.truthy (cookieHeaderOf event)) as [cookieHeader|].
  2: { intros Hrun Hstatus. by destruct (Hrefused _ _ Hrun Hstatus). }
  destruct (JsString.truthy (Cookie.getCookie _ _)) as [token|] eqn:Hcookie.
  2: { intros Hrun Hstatus. by destruct (Hrefused _ _ Hrun Hstatus). }
  unfold mbind at 1, M_bind at 1.
  assert (Hvalid : ∀ u, (authenticateFromCookie env token w1).1 = Ok (Some u) →
                        (validateToken env token w1).1 = Ok u).
  { intros u. unfold authenticateFromCookie. destruct token as [|a token]; [done|].
    run. destruct (validateToken env _ w1) as [[v|e] w2]; cbn; congruence. }
  destruct (authenticateFromCookie env token w1) as [[[u|]|e] w2]; cbn in Hvalid.
  - unfold mbind, M_bind, mret, M_ret.
    destruct (addConnection env _ _ w2) as [[[]|e] w3] eqn:Hadd.
    + intros [= <- <-] _.
      exists cookieHeader, token, u,
        (row_at (date_now env (tick w2)) (ev_connectionId event)
           (authenticatedUserData rid u)).
      repeat split; try done.
      * by apply Hvalid.
      * rewrite (addConnection_written env _ _ _ _ Hadd). apply lookup_insert_eq.
      * intros subject Hsub. cbn. unfold authenticatedUserData. rewrite Hsub.
        apply lookup_insert_eq.
    + destruct (removeConnection env _ w3) as [[[]|e'] w4]; [|done].
      by intros [= <- <-].
  - intros Hrun Hstatus. by destruct (Hrefused _ _ Hrun Hstatus).
  - unfold mbind, M_bind, mret, M_ret.
    destruct (removeConnection env _ w2) as [[[]|e'] w4]; [|done].
    by intros [= <- <-].
Qed.

(** With the store answering, the middleware always returns, and what it
    returns is a 200 or a 401: the 500 of its catch block and a rejected
    promise only come from a store that fails. *)
Theorem middleware_answers_200_or_401 event w :
  store_available env →
  ∃ r,
    (webSocketAuthMiddleware env event w).1 = Ok r
    ∧ (statusCode r = 200%Z ∨ statusCode r = 401%Z).
Proof.
  intros Hstore.
  destruct (JsString.truthy (cookieHeaderOf event)) as [cookieHeader|] eqn:Hheader.
  2: { rewrite (middleware_no_header env event w Hheader) by apply Hstore.
       eexists. split; [done|]. by right. }
  destruct (JsString.truthy (Cookie.getCookie (Some cookieHeader)
                               (cookieName (config env)))) as [token|] eqn:Hcookie.
  2: { rewrite (middleware_no_cookie env event w cookieHeader Hheader Hcookie)
         by apply Hstore.
       eexists. split; [done|]. by right. }
  destruct (resolveRequestId_runs env event w) as (rid & w1 & Hrid & _).
  destruct (authenticateFromCookie_returns env token w1) as [[u|] Hverified].
  - unfold webSocketAuthMiddleware.
    unfold try_catch at 1. unfold mbind at 1, M_bind at 1.
    rewrite Hrid, Hheader, Hcookie. unfold mbind at 1, M_bind at 1.
    destruct (authenticateFromCookie env token w1) as [checked w2].
    cbn in Hverified. subst checked.
    unfold addConnection, dateNow, DynamoDbClient.putItem_connection,
      DynamoDbClient.send. run. cbn. rewrite Hstore. cbn.
    eexists. split; [done|]. by left.
  - assert (Hrun := middleware_bad_token env event w cookieHeader token
                      Hheader Hcookie).
    cbn zeta in Hrun. rewrite Hrid in Hrun. cbn [snd] in Hrun.
    rewrite (Hrun Hverified (Hstore _)).
    eexists. split; [done|]. by right.
Qed.

(** A verified user whose registration write the store refuses: the catch
    block deletes the row of the connection, and when that delete goes
    through the answer is 500 "Authentication failed" and the connection
    has no row, not even the one the connect handler had written. *)
Theorem middleware_registration_failure event w cookieHeader token u e :
  JsString.truthy (cookieHeaderOf event) = Some cookieHeader →
  JsString.truthy
    (Cookie.getCookie (Some cookieHeader) (cookieName (config env))) = Some token →
  let checked := authenticateFromCookie env token (resolveRequestId env event w).2 in
  checked.1 = Ok (Some u) →
  dynamo_send env (S (tick checked.2)) = Some e →
  dynamo_send env (S (S (tick checked.2))) = None →
  (webSocketAuthMiddleware env event w).1
    = Ok (reply 500 (bodyMessage "Authentication failed"))
  ∧ connections (webSocketAuthMiddleware env event w).2
      !! ev_connectionId event = None.
Proof.
  intros Hheader Hcookie checked Hverified Hput Hdel.
  unfold webSocketAuthMiddleware.
  destruct (resolveRequestId_runs env event w) as (rid & w1 & Hrid & _).
  unfold checked in *. rewrite Hrid in *. cbn [snd] in *.
  unfold try_catch, mbind, M_bind. rewrite Hrid, Hheader, Hcookie.
  destruct (authenticateFromCookie env token w1) as [r w2]. cbn in Hverified, Hput, Hdel.
  subst r. unfold addConnection, dateNow, DynamoDbClient.putItem_connection,
    DynamoDbClient.send, mbind, M_bind, try_catch, throw. cbn.
  rewrite Hput. cbn.
  unfold removeConnection, DynamoDbClient.deleteItem_connection,
    DynamoDbClient.send, try_catch. cbn. rewrite Hdel. cbn.
  split; [done|]. apply lookup_delete_eq.
Qed.

End GateMore.

(** ** The Socket.IO gate *)

Section SocketGateFacts.
Import Runtime MessageService ConnectionService Auth WebSocketAuth SocketAuth
  Http Observe.

Context (env : Env).

Lemma validateToken_trace token w :
  trace (validateToken env token w).2 = trace w
  ∨ trace (validateToken env token w).2 = HttpGetJwks :: trace w.
Proof.
  rewrite validateToken_world. destruct (decoded_kid env token); [|by left].
  destruct (getJwks_cases env w) as [[_ ->]|[[_ [keys ->]]|[_ ->]]]; cbn; auto.
Qed.

Lemma authenticateFromCookie_trace token w :
  trace (authenticateFromCookie env token w).2 = trace w
  ∨ trace (authenticateFromCookie env token w).2 = HttpGetJwks :: trace w.
Proof.
  unfold authenticateFromCookie. destruct token as [|a token]; [by left|].
  run. pose proof (validateToken_trace (String a token) w) as Htrace.
  by destruct (validateToken env _ w) as [[u|e] w'].
Qed.

Lemma authenticateFromCookie_verified token w u :
  (authenticateFromCookie env token w).1 = Ok (Some u) →
  (validateToken env token w).1 = Ok u.
Proof.
  unfold authenticateFromCookie. destruct token as [|a token]; [done|].
  run. destruct (validateToken env _ w) as [[v|e] w2]; cbn; congruence.
Qed.

(** The request id both gates settle on. *)
Lemma socket_requestId_runs (headers : gmap string string) w :
  ∃ rid w1,
    (match JsString.truthy (headers !! "x-request-id") with
     | Some given => mret given
     | None => uuid env
     end) w = (Ok rid, w1)
    ∧ connections w1 = connections w ∧ messages w1 = messages w
    ∧ trace w1 = trace w.
Proof.
  unfold uuid. run. destruct (JsString.truthy _); eauto 10.
Qed.

(** The Socket.IO middleware never throws and never touches the store: it
    leaves both tables alone and its only possible outbound call is one
    request to the JWKS endpoint.  It always stores a request id on the
    socket.  It calls [next] without an error exactly when it has attached
    to the socket the payload that [validateToken] returned for the auth
    cookie of the handshake; otherwise the error says that the token is
    missing or invalid and no user is attached: the "Authentication failed"
    of its catch block is never sent. *)
Theorem socketAuthMiddleware_outcomes socket w :
  socket_user socket = None →
  ∃ after next,
    (socketAuthMiddleware env socket w).1 = Ok (after, next)
    ∧ connections (socketAuthMiddleware env socket w).2 = connections w
    ∧ messages (socketAuthMiddleware env socket w).2 = messages w
    ∧ (trace (socketAuthMiddleware env socket w).2 = trace w
       ∨ trace (socketAuthMiddleware env socket w).2 = HttpGetJwks :: trace w)
    ∧ is_Some (socket_requestId after)
    ∧ match next with
      | None =>
          ∃ cookieHeader token u,
            JsString.truthy (handshake_headers socket !! "cookie")
            = Some cookieHeader
            ∧ JsString.truthy
                (Cookie.getCookie (Some cookieHeader) (cookieName (config env)))
              = Some token
            ∧ (validateToken env token (socketRequestId env socket w).2).1 = Ok u
            ∧ socket_user after = Some u
      | Some e =>
          socket_user after = None
          ∧ (e = newError "Missing authentication token"
             ∨ e = newError "Invalid authentication token")
      end.
Proof.
  intros Hnobody.
  assert (Hrun : ∃ after next w',
    socketAuthMiddleware env socket w = (Ok (after, next), w')
    ∧ connections w' = connections w ∧ messages w' = messages w
    ∧ (trace w' = trace w ∨ trace w' = HttpGetJwks :: trace w)
    ∧ is_Some (socket_requestId after)
    ∧ match next with
      | None =>
          ∃ cookieHeader token u,
            JsString.truthy (handshake_headers socket !! "cookie")
            = Some cookieHeader
            ∧ JsString.truthy
                (Cookie.getCookie (Some cookieHeader) (cookieName (config env)))
              = Some token
            ∧ (validateToken env token (socketRequestId env socket w).2).1 = Ok u
            ∧ socket_user after = Some u
      | Some e =>
          socket_user after = None
          ∧ (e = newError "Missing authentication token"
             ∨ e = newError "Invalid authentication token")
      end).
  { unfold socketAuthMiddleware, socketRequestId.
    destruct (socket_requestId_runs (handshake_headers socket) w)
      as (rid & w1 & Hrid & Hc & Hm & Htr).
    unfold mbind at 1, M_bind at 1. rewrite Hrid.
    unfold try_catch. cbn [handshake_headers set_requestId snd].
    destruct (JsString.truthy (handshake_headers socket !! "cookie"))
      as [cookieHeader|].
    2: { run. eexists _, _, _. split; [done|]. rewrite Hc, Hm, Htr.
         split; [done|]. split; [done|]. split; [by left|].
         split; [by eexists|]. split; [done|]. by left. }
    destruct (JsString.truthy (Cookie.getCookie _ _)) as [token|] eqn:Htoken.
    2: { run. eexists _, _, _. split; [done|]. rewrite Hc, Hm, Htr.
         split; [done|]. split; [done|]. split; [by left|].
         split; [by eexists|]. split; [done|]. by left. }
    unfold mbind, M_bind.
    destruct (authenticateFromCookie_returns env token w1) as [verified Hverified].
    destruct (authenticateFromCookie_keeps_tables env token w1) as [Hc2 Hm2].
    pose proof (authenticateFromCookie_trace token w1) as Htr2.
    pose proof (authenticateFromCookie_verified token w1) as Hvalid.
    destruct (authenticateFromCookie env token w1) as [checked w2].
    cbn in Hverified, Hc2, Hm2, Htr2, Hvalid. subst checked.
    destruct verified as [u|]; run; eexists _, _, _.
    - split; [done|]. rewrite Hc2, Hm2, Hc, Hm, <- Htr.
      split; [done|]. split; [done|]. split; [done|]. split; [by eexists|].
      exists cookieHeader, token, u. split; [done|]. split; [done|].
      split; [by apply Hvalid|done].
    - split; [done|]. rewrite Hc2, Hm2, Hc, Hm, <- Htr.
      split; [done|]. split; [done|]. split; [done|]. split; [by eexists|].
      split; [done|]. by right. }
  destruct Hrun as (after & next & w' & -> & Hrest).
  by exists after, next.
Qed.

(** The two gates accept the same connections.  For a Socket.IO handshake
    and an API Gateway event with the same headers, the cookie header
    being spelled [cookie], and with the store answering: the Socket.IO
    middleware calls [next] without an error exactly when the API Gateway
    middleware answers 200. *)
Theorem gates_agree socket event w :
  handshake_headers socket = ev_headers event →
  JsString.truthy (ev_headers event !! "Cookie") = None →
  store_available env →
  (∃ after, (socketAuthMiddleware env socket w).1 = Ok (after, None))
  ↔ (∃ r, (webSocketAuthMiddleware env event w).1 = Ok r
          ∧ statusCode r = 200%Z).
Proof.
  intros Hheaders Hupper Hstore.
  unfold socketAuthMiddleware, socketRequestId, webSocketAuthMiddleware,
    resolveRequestId, cookieHeaderOf, JsString.or_else.
  cbn [handshake_headers set_requestId]. rewrite Hheaders, Hupper.
  destruct (socket_requestId_runs (ev_headers event) w)
    as (rid & w1 & Hrid & _).
  unfold try_catch, mbind, M_bind. rewrite Hrid.
  assert (Hrefuse : ∀ wa,
    removeConnection env (ev_connectionId event) wa
    = (Ok tt, pruned (ev_connectionId event) wa)).
  { intros wa. by apply removeConnection_ok. }
  destruct (JsString.truthy (ev_headers event !! "cookie")) as [cookieHeader|].
  2: { rewrite Hrefuse. cbn. split; [by intros [? [=]]|by intros (? & [= <-] & [=])]. }
  destruct (JsString.truthy (Cookie.getCookie _ _)) as [token|].
  2: { rewrite Hrefuse. cbn. split; [by intros [? [=]]|by intros (? & [= <-] & [=])]. }
  destruct (authenticateFromCookie_returns env token w1) as [verified Hverified].
  destruct (authenticateFromCookie env token w1) as [checked w2].
  cbn in Hverified. subst checked. destruct verified as [u|].
  - unfold addConnection, dateNow, DynamoDbClient.putItem_connection,
      DynamoDbClient.send. run. cbn. rewrite Hstore. cbn.
    split; intros _; eauto.
  - rewrite Hrefuse. cbn. split; [by intros [? [=]]|by intros (? & [= <-] & [=])].
Qed.

End SocketGateFacts.

(** ** Error mapping for Socket.IO *)

Section SocketErrorFacts.
Import Runtime ErrorHandler SocketErrors JsString.

Lemma prefix_app_l a b s :
  String.prefix (a +:+ b) s = true → String.prefix a s = true.
Proof.
  revert s. induction a as [|c a IH]; intros s; [by destruct s|].
  destruct s as [|d s]; [done|].
  change (String c a +:+ b) with (String c (a +:+ b)). cbn [String.prefix].
  destruct (Ascii.ascii_dec c d); [apply IH|done].
Qed.

Lemma includes_here sub s : String.prefix sub s = true → includes sub s = true.
Proof. intros Hp. destruct s; cbn [includes]; by rewrite Hp. Qed.

Lemma includes_later sub c s : includes sub s = true → includes sub (String c s) = true.
Proof. intros Hi. cbn [includes]. rewrite Hi. apply orb_true_r. Qed.

Lemma prefix_app_r a b s :
  String.prefix (a +:+ b) s = true → includes b s = true.
Proof.
  revert s. induction a as [|c a IH]; intros s; [apply includes_here|].
  destruct s as [|d s]; [done|].
  change (String c a +:+ b) with (String c (a +:+ b)). cbn [String.prefix].
  destruct (Ascii.ascii_dec c d); [|done].
  intros Hp. by apply includes_later, IH.
Qed.

Lemma includes_app_l a b s : includes (a +:+ b) s = true → includes a s = true.
Proof.
  induction s as [|d s IH]; intros Hi; cbn [includes] in Hi;
    apply orb_true_iff in Hi as [Hp|Hi]; try done.
  - apply includes_here. by eapply prefix_app_l.
  - apply includes_here. by eapply prefix_app_l.
  - by apply includes_later, IH.
Qed.

Lemma includes_app_r a b s : includes (a +:+ b) s = true → includes b s = true.
Proof.
  induction s as [|d s IH]; intros Hi; cbn [includes] in Hi;
    apply orb_true_iff in Hi as [Hp|Hi]; try done.
  - by eapply prefix_app_r.
  - by eapply prefix_app_r.
  - by apply includes_later, IH.
Qed.

Lemma prefix_toLowerCase sub s :
  String.prefix sub s = true →
  String.prefix (toLowerCase sub) (toLowerCase s) = true.
Proof.
  revert s. induction sub as [|c sub IH]; intros s; [by destruct s|].
  destruct s as [|d s]; [done|]. cbn [String.prefix toLowerCase].
  destruct (Ascii.ascii_dec c d) as [->|]; [|done].
  intros Hp. destruct (Ascii.ascii_dec (lower_ascii d) (lower_ascii d)); [|done].
  by apply IH.
Qed.

Lemma includes_toLowerCase sub s :
  includes sub s = true → includes (toLowerCase sub) (toLowerCase s) = true.
Proof.
  induction s as [|d s IH]; intros Hi; cbn [includes] in Hi;
    apply orb_true_iff in Hi as [Hp|Hi]; try done.
  - apply includes_here. by apply (prefix_toLowerCase sub "").
  - apply includes_here. by apply (prefix_toLowerCase sub (String d s)).
  - cbn [toLowerCase]. by apply includes_later, IH.
Qed.

(** The patterns of [handleAuthError] that [sendSocketError] has already
    caught by the time it calls it. *)
Lemma caught_before message :
  includes "unauthorized" (toLowerCase message) = false →
  includes "token" (toLowerCase message) = false →
  includes "token expired" message = false
  ∧ includes "invalid token" message = false
  ∧ includes "unauthorized" message = false.
Proof.
  intros Hunauthorized Htoken.
  assert (Hexpired : includes "token expired" message = true →
                     includes "token" (toLowerCase message) = true).
  { intros Hi. apply includes_toLowerCase in Hi.
    by apply (includes_app_l "token" " expired"). }
  assert (Hinvalid : includes "invalid token" message = true →
                     includes "token" (toLowerCase message) = true).
  { intros Hi. apply includes_toLowerCase in Hi.
    by apply (includes_app_r "invalid " "token"). }
  assert (Hplain : includes "unauthorized" message = true →
                   includes "unauthorized" (toLowerCase message) = true).
  { intros Hi. by apply includes_toLowerCase in Hi. }
  destruct (includes "token expired" message);
    [rewrite Hexpired in Htoken; done|].
  destruct (includes "invalid token" message);
    [rewrite Hinvalid in Htoken; done|].
  destruct (includes "unauthorized" message);
    [rewrite Hplain in Hunauthorized; done|].
  done.
Qed.

(** For an error that is not an [AppError], [sendSocketError] never emits
    the codes TOKEN_EXPIRED, INVALID_TOKEN or UNAUTHORIZED of
    [handleAuthError] (unless the error's own [code] is one of them): a
    message mentioning a token or "unauthorized", in any case, has already
    been answered with AUTH_REQUIRED.  What is emitted carries the id of the
    socket, and one of the statuses 401, 429 and 500. *)
Theorem sendSocketError_codes stamp socketId e eventName :
  let emission := sendSocketError stamp socketId (ThrownOther e) eventName in
  (em_errorCode emission = "AUTH_REQUIRED" ∧ em_status emission = 401%Z
   ∨ em_errorCode emission = "RATE_LIMIT_EXCEEDED" ∧ em_status emission = 429%Z
   ∨ em_errorCode emission = default "AUTH_ERROR" (truthy (err_code e))
     ∧ em_status emission = 401%Z ∧ em_error emission = err_message e
   ∨ em_errorCode emission = "INTERNAL_SERVER_ERROR" ∧ em_status emission = 500%Z)
  ∧ em_socketId emission = socketId
  ∧ (includes "token" (toLowerCase (err_message e)) = true →
     em_errorCode emission = "AUTH_REQUIRED").
Proof.
  intros emission. unfold emission, sendSocketError, as_app_error.
  destruct (includes "unauthorized" (toLowerCase (err_message e))) eqn:Hunauthorized;
    destruct (includes "token" (toLowerCase (err_message e))) eqn:Htoken;
    cbn [orb]; try (split; [by left|]; split; [by destruct socketId|done]).
  destruct (includes "auth" (toLowerCase (err_message e))) eqn:Hauth.
  - destruct (caught_before _ Hunauthorized Htoken) as (Hexpired & Hinvalid & Hplain).
    unfold handleAuthError.
    assert (Hmessage : default "Authentication failed"
                         (truthy (Some (err_message e))) = err_message e).
    { destruct (err_message e); [done|done]. }
    rewrite Hmessage, Hexpired, Hinvalid, Hplain.
    destruct (includes "rate limit" (err_message e)); cbn.
    + split; [right; by left|]. split; [by destruct socketId|done].
    + split; [do 2 right; by left|]. split; [by destruct socketId|done].
  - cbn. split; [do 3 right; done|]. split; [by destruct socketId|done].
Qed.

(** Neither mapping lets the vendor's message through, but for one case:
    [handleLambdaError] ignores the message altogether, and
    [handleDynamoDBError] uses it only for a ValidationException.  Both
    pass the socket id on as given. *)
Theorem vendor_messages_stay_inside e socketId message :
  handleLambdaError (with_message message e) socketId = handleLambdaError e socketId
  ∧ (name_or_code "UnknownDynamoDBError" e ≠ "ValidationException" →
     handleDynamoDBError (with_message message e) socketId
     = handleDynamoDBError e socketId)
  ∧ app_socketId (handleLambdaError e socketId) = socketId
  ∧ app_socketId (handleDynamoDBError e socketId) = socketId.
Proof.
  split; [done|]. split.
  - intros Hname. unfold handleDynamoDBError.
    change (name_or_code "UnknownDynamoDBError" (with_message message e))
      with (name_or_code "UnknownDynamoDBError" e).
    destruct (String.eqb_spec (name_or_code "UnknownDynamoDBError" e)
                "ValidationException"); [done|].
    by repeat destruct (String.eqb _ _).
  - split.
    + unfold handleLambdaError. by repeat destruct (String.eqb _ _).
    + unfold handleDynamoDBError. by repeat destruct (String.eqb _ _).
Qed.

Lemma pop_callback_last front c :
  pop_callback (front ++ [Fn c]) = (Some c, front).
Proof.
  unfold pop_callback. rewrite reverse_snoc. by rewrite reverse_involutive.
Qed.

(** A handler wrapped by [withErrorHandling] and called with an
    acknowledgement function as its last argument: the handler gets the
    arguments before it; when it returns, the acknowledgement is called
    with the result; when it throws, the error is emitted on the socket
    but the acknowledgement is never called, because it has already been
    popped off the arguments. *)
Theorem withErrorHandling_acknowledgement stamp handler socketId front c :
  pop_callback front = (None, front) →
  let outcome := withErrorHandling stamp handler socketId (front ++ [Fn c]) in
  (∀ result,
     handler socketId front = inl result →
     returned outcome = Some result ∧ acked outcome = [AckResult c result]
     ∧ emitted outcome = [])
  ∧ (∀ error,
       handler socketId front = inr error →
       returned outcome = None ∧ acked outcome = []
       ∧ emitted outcome = [sendSocketError stamp socketId error "error"]).
Proof.
  intros Hfront outcome. unfold outcome, withErrorHandling.
  rewrite pop_callback_last. split.
  - by intros result ->.
  - intros error ->. by rewrite Hfront.
Qed.

End SocketErrorFacts.

(** ** The Lambda entry point *)

Section LambdaFacts.
Import Runtime Http Lambda.

Context (httpProxy : LambdaEvent → result Response).

(** An event with a route key is a WebSocket event, and handling it never
    throws.  [$connect] and [$disconnect] are answered with 200 on the
    spot, without the event reaching the application; every other route is
    handed to the application as it came, and an error there becomes a
    500. *)
Theorem websocket_events_never_throw event awsRequestId routeKey :
  JsString.truthy (le_routeKey event) = Some routeKey →
  let run := handler httpProxy event awsRequestId in
  (∃ r, run.1 = Ok r)
  ∧ (routeKey = "$connect" ∨ routeKey = "$disconnect" →
     run.2 = [] ∧ ∃ text, run.1 = Ok (reply 200 (BodyText text)))
  ∧ (routeKey ≠ "$connect" → routeKey ≠ "$disconnect" →
     run.2 = [event]
     ∧ match httpProxy event with
       | Ok r => run.1 = Ok r
       | Throw _ => run.1 = Ok (reply 500 (bodyError "Internal server error"))
       end).
Proof.
  intros Hroute run. unfold run, handler, handleWebSocketEvent. rewrite Hroute.
  destruct (String.eqb_spec routeKey "$connect") as [->|Hconnect].
  { split; [by eexists|]. split; [|done]. intros _. split; [done|by eexists]. }
  destruct (String.eqb_spec routeKey "$disconnect") as [->|Hdisconnect].
  { split; [by eexists|]. split; [|done]. intros _. split; [done|by eexists]. }
  destruct (httpProxy event) as [r|e] eqn:Hproxy.
  - split; [by eexists|]. split; [by intros [?|?]|]. done.
  - split; [by eexists|]. split; [by intros [?|?]|]. done.
Qed.

(** An event without a route key but with headers is an HTTP event.  It
    reaches the application exactly once, with an [x-request-id] header:
    the inbound one when there is one, the id of the invocation otherwise;
    the other headers are as they came.  The answer of the application,
    an error included, is the answer of the handler. *)
Theorem http_events_carry_request_id event awsRequestId :
  JsString.truthy (le_routeKey event) = None →
  le_headers event ≠ HeadersUndefined →
  let inbound :=
    match le_headers event with
    | HeadersObject h => h
    | _ => ∅
    end in
  ∃ headers,
    (handler httpProxy event awsRequestId).2 = [with_headers headers event]
    ∧ (handler httpProxy event awsRequestId).1
      = httpProxy (with_headers headers event)
    ∧ headers !! "x-request-id"
      = Some (default awsRequestId (JsString.truthy (inbound !! "x-request-id")))
    ∧ ∀ name, name ≠ "x-request-id" → headers !! name = inbound !! name.
Proof.
  intros Hroute Hheaders inbound. unfold handler. rewrite Hroute.
  destruct (le_headers event) as [| |h] eqn:Hfield; [done| |].
  - cbn. eexists. split; [done|]. split; [done|]. split.
    + apply lookup_insert_eq.
    + intros name Hname. by apply lookup_insert_ne.
  - unfold inbound.
    destruct (JsString.truthy (h !! "x-request-id")) as [given|] eqn:Hgiven.
    + exists h. split; [done|]. split; [done|]. split; [|done].
      cbn. unfold JsString.truthy in Hgiven.
      destruct (h !! "x-request-id") as [[|a s]|]; congruence.
    + eexists. split; [done|]. split; [done|]. split.
      * apply lookup_insert_eq.
      * intros name Hname. by apply lookup_insert_ne.
Qed.

End LambdaFacts.

(** ** The theorems above at concrete inputs *)

Lemma getCookie_absent_witness :
  (Forall Cookie.cookie_ok [("theme", "dark"); ("lang", "en")]
   ∧ ("authToken" ∉ [("theme", "dark"); ("lang", "en")].*1)
   ∧ "authToken" ∉ PlainObject.inherited)
  ∧ PlainObject.getCookie (Some "theme=dark; lang=en") "authToken"
    = PlainObject.Undefined.
Proof.
  assert (Hok : Forall Cookie.cookie_ok [("theme", "dark"); ("lang", "en")]).
  { repeat constructor. }
  assert (Habsent : "authToken" ∉ [("theme", "dark"); ("lang", "en")].*1).
  { intros Hin. apply list_elem_of_In in Hin. simpl in Hin.
    destruct Hin as [Heq|[Heq|[]]]; discriminate Heq. }
  assert (Hplain : "authToken" ∉ PlainObject.inherited).
  { intros Hin. apply list_elem_of_In in Hin. simpl in Hin.
    repeat (destruct Hin as [Heq|Hin]; [discriminate Heq|]). exact Hin. }
  split; [split; [exact Hok|split; [exact Habsent|exact Hplain]]|].
  exact (proj1 (getCookie_absent [("theme", "dark"); ("lang", "en")] "authToken"
                  Hok Habsent) Hplain).
Defined.

Lemma parseCookies_without_separator_witness :
  ("a=1;b=2" ≠ EmptyString ∧ JsString.includes "; " "a=1;b=2" = false)
  ∧ Cookie.parseCookies (Some "a=1;b=2") = {["a" := "1;b=2"]}.
Proof.
  assert (Hheader : "a=1;b=2" ≠ EmptyString) by (intros Heq; discriminate Heq).
  assert (Hsep : JsString.includes "; " "a=1;b=2" = false) by reflexivity.
  split; [by split|].
  exact (parseCookies_without_separator "a=1;b=2" Hheader Hsep).
Defined.

Lemma findConnectionsByUserData_sound_witness :
  (RegistryScan.findConnectionsByUserData Scenario.env_ok "requestId" "r1" 10
     Scenario.registered).1 = Runtime.Ok [Scenario.row_c1]
  ∧ length [Scenario.row_c1] ≤ 10.
Proof.
  assert (Hfound :
    (RegistryScan.findConnectionsByUserData Scenario.env_ok "requestId" "r1" 10
       Scenario.registered).1 = Runtime.Ok [Scenario.row_c1]) by reflexivity.
  split; [exact Hfound|].
  exact (proj1 (findConnectionsByUserData_sound Scenario.env_ok "requestId" "r1"
                  10 Scenario.registered [Scenario.row_c1] Hfound)).
Defined.

Lemma connectionService_errors_are_generic_witness :
  ConnectionService.removeConnection Examples.env_store_down "c1" Scenario.registered
  = (Runtime.Throw (Runtime.newError "Failed to remove connection"),
     (ConnectionService.removeConnection Examples.env_store_down "c1"
        Scenario.registered).2)
  ∧ Runtime.connections
      (ConnectionService.removeConnection Examples.env_store_down "c1"
         Scenario.registered).2
    = Runtime.connections Scenario.registered.
Proof.
  assert (Hthrown :
    ConnectionService.removeConnection Examples.env_store_down "c1"
      Scenario.registered
    = (Runtime.Throw (Runtime.newError "Failed to remove connection"),
       (ConnectionService.removeConnection Examples.env_store_down "c1"
          Scenario.registered).2)) by reflexivity.
  split; [exact Hthrown|].
  exact (proj2 (proj1 (proj2 (connectionService_errors_are_generic
                                Examples.env_store_down Scenario.registered _ _))
                  "c1" Hthrown)).
Defined.

Lemma addConnection_expiry_witness :
  ConnectionService.addConnection Scenario.env_ok "c1" Examples.lobby
    Runtime.initial
  = (Runtime.Ok tt,
     (ConnectionService.addConnection Scenario.env_ok "c1" Examples.lobby
        Runtime.initial).2)
  ∧ ∃ row,
      Runtime.connections
        (ConnectionService.addConnection Scenario.env_ok "c1" Examples.lobby
           Runtime.initial).2 !! "c1" = Some row
      ∧ (7199000 < 1000 * Runtime.ttl row - Runtime.timestamp row ≤ 7200000)%Z.
Proof.
  assert (Hadded :
    ConnectionService.addConnection Scenario.env_ok "c1" Examples.lobby
      Runtime.initial
    = (Runtime.Ok tt,
       (ConnectionService.addConnection Scenario.env_ok "c1" Examples.lobby
          Runtime.initial).2)) by reflexivity.
  split; [exact Hadded|].
  exact (addConnection_expiry Scenario.env_ok "c1" Examples.lobby
           Runtime.initial _ Hadded).
Defined.

Lemma handleConnect_registers_unauthenticated_witness :
  Observe.store_available Scenario.env_ok
  ∧ (WebSocketPlugin.handleConnect Scenario.env_ok
       (Scenario.event_carrying "forged.jwt") Runtime.initial).1
    = Runtime.Ok (Http.reply 200 (Http.BodyText "Connected")).
Proof.
  assert (Hstore : Observe.store_available Scenario.env_ok).
  { intros t. reflexivity. }
  split; [exact Hstore|].
  destruct (handleConnect_registers_unauthenticated Scenario.env_ok
              (Scenario.event_carrying "forged.jwt") Runtime.initial Hstore)
    as (rid & now & Hanswer & _).
  exact Hanswer.
Defined.

Lemma connect_then_disconnect_witness :
  Observe.store_available Scenario.env_ok
  ∧ (WebSocketPlugin.handleConnect Scenario.env_ok Scenario.bare_event
       Runtime.initial).1
    = Runtime.Ok (Http.reply 200 (Http.BodyText "Connected"))
  ∧ Runtime.connections
      (WebSocketPlugin.handleDisconnect Scenario.env_ok Scenario.bare_event
         (WebSocketPlugin.handleConnect Scenario.env_ok Scenario.bare_event
            Runtime.initial).2).2
    = delete "c1" (Runtime.connections Runtime.initial).
Proof.
  assert (Hstore : Observe.store_available Scenario.env_ok).
  { intros t. reflexivity. }
  split; [exact Hstore|].
  destruct (connect_then_disconnect Scenario.env_ok Scenario.bare_event
              Runtime.initial Hstore)
    as (Hconnected & _ & _ & Hclosed & _).
  split; [exact Hconnected|exact Hclosed].
Defined.

Lemma persistAndSendMessage_reports_delivery_witness :
  (MessageService.persistAndSendMessage Scenario.env_ok Scenario.bare_event
     "c1" "hello" "s1" None Scenario.registered).1
  = Runtime.Ok (Some Scenario.hello_saved)
  ∧ Scenario.hello_saved
    ∈ Runtime.messages
        (MessageService.persistAndSendMessage Scenario.env_ok Scenario.bare_event
           "c1" "hello" "s1" None Scenario.registered).2.
Proof.
  assert (Hsent :
    (MessageService.persistAndSendMessage Scenario.env_ok Scenario.bare_event
       "c1" "hello" "s1" None Scenario.registered).1
    = Runtime.Ok (Some Scenario.hello_saved)) by reflexivity.
  split; [exact Hsent|].
  exact (proj1 (proj2 (persistAndSendMessage_reports_delivery Scenario.env_ok
                         Scenario.bare_event "c1" "hello" "s1" None
                         Scenario.registered)
                  Scenario.hello_saved Hsent)).
Defined.

Lemma handleMessage_outcomes_witness :
  (is_Some (MessageHandler.me_headers Examples.message_event)
   ∧ MessageHandler.json_parse Examples.json
       (MessageHandler.me_body Examples.message_event) = None)
  ∧ (MessageHandler.handleMessage Scenario.env_ok Examples.json
       Examples.message_event Scenario.registered).1
    = Runtime.Ok (Http.reply 200 (Http.BodyText "Message received")).
Proof.
  assert (Hheaders : is_Some (MessageHandler.me_headers Examples.message_event)).
  { exists ∅. reflexivity. }
  assert (Hparsed :
    MessageHandler.json_parse Examples.json
      (MessageHandler.me_body Examples.message_event) = None) by reflexivity.
  split; [split; [exact Hheaders|exact Hparsed]|].
  exact (proj1 (proj2 (proj2 (handleMessage_outcomes Scenario.env_ok
                                Examples.json Examples.message_event
                                Scenario.registered) Hheaders) Hparsed)).
Defined.

Lemma getSessionMessages_isolated_witness :
  (MessageService.getSessionMessages Scenario.env_newest_first "s1" 1
     Scenario.two_saved).1
  = Runtime.Ok
      (Examples.rows_of
         (MessageService.getSessionMessages Scenario.env_newest_first "s1" 1
            Scenario.two_saved).1)
  ∧ length
      (Examples.rows_of
         (MessageService.getSessionMessages Scenario.env_newest_first "s1" 1
            Scenario.two_saved).1) ≤ 1.
Proof.
  assert (Hrows :
    (MessageService.getSessionMessages Scenario.env_newest_first "s1" 1
       Scenario.two_saved).1
    = Runtime.Ok
        (Examples.rows_of
           (MessageService.getSessionMessages Scenario.env_newest_first "s1" 1
              Scenario.two_saved).1)) by reflexivity.
  split; [exact Hrows|].
  exact (proj1 (getSessionMessages_isolated Scenario.env_newest_first "s1" 1
                  Scenario.two_saved _ Hrows)).
Defined.

Lemma saveMessage_table_witness :
  MessageService.saveMessage Examples.env_store_down "c1" "hello" "s1" None
    Scenario.registered
  = (Runtime.Throw Scenario.storeDown,
     (MessageService.saveMessage Examples.env_store_down "c1" "hello" "s1" None
        Scenario.registered).2)
  ∧ Runtime.messages
      (MessageService.saveMessage Examples.env_store_down "c1" "hello" "s1" None
         Scenario.registered).2
    = Runtime.messages Scenario.registered.
Proof.
  assert (Hrefused :
    MessageService.saveMessage Examples.env_store_down "c1" "hello" "s1" None
      Scenario.registered
    = (Runtime.Throw Scenario.storeDown,
       (MessageService.saveMessage Examples.env_store_down "c1" "hello" "s1"
          None Scenario.registered).2)) by reflexivity.
  split; [exact Hrefused|].
  exact (proj1 (proj2 (saveMessage_table Examples.env_store_down "c1" "hello"
                         "s1" None Scenario.registered)
                  _ _ Hrefused)).
Defined.

Lemma getApiGateway_created_once_witness :
  Runtime.apiGateway Runtime.initial = None
  ∧ (MessageService.getApiGateway Scenario.bare_event Runtime.initial).1
    = Runtime.Ok "https://abc.execute-api.us-east-1.amazonaws.com/dev".
Proof.
  assert (Hfresh : Runtime.apiGateway Runtime.initial = None) by reflexivity.
  split; [exact Hfresh|].
  exact (proj2 (getApiGateway_created_once Scenario.bare_event
                  Examples.default_event Runtime.initial) Hfresh).
Defined.

Lemma getJwks_outcomes_witness :
  Auth.getJwks Scenario.env_jwks_down Runtime.initial
  = (Runtime.Throw (Runtime.newError "Failed to retrieve JWKs"),
     (Auth.getJwks Scenario.env_jwks_down Runtime.initial).2)
  ∧ Runtime.jwksCache (Auth.getJwks Scenario.env_jwks_down Runtime.initial).2
    = Runtime.jwksCache Runtime.initial.
Proof.
  assert (Hdown :
    Auth.getJwks Scenario.env_jwks_down Runtime.initial
    = (Runtime.Throw (Runtime.newError "Failed to retrieve JWKs"),
       (Auth.getJwks Scenario.env_jwks_down Runtime.initial).2)) by reflexivity.
  split; [exact Hdown|].
  exact (proj1 (proj2 (proj2 (getJwks_outcomes Scenario.env_jwks_down
                                Runtime.initial) _ _ Hdown))).
Defined.

Lemma validateToken_sound_witness :
  Auth.validateToken Scenario.env_ok "valid.jwt" Scenario.warm
  = (Runtime.Ok Scenario.alice,
     (Auth.validateToken Scenario.env_ok "valid.jwt" Scenario.warm).2)
  ∧ ∃ kid keys key pem,
      Observe.decoded_kid Scenario.env_ok "valid.jwt" = Some kid
      ∧ (Auth.getJwks Scenario.env_ok Scenario.warm).1 = Runtime.Ok (Some keys)
      ∧ key ∈ keys ∧ Runtime.jwk_kid key = kid
      ∧ Runtime.jwkToPem Scenario.env_ok key = Runtime.Ok pem
      ∧ Runtime.jwt_verify Scenario.env_ok "valid.jwt" pem
          {| Runtime.opt_issuer := Auth.issuer (Runtime.config Scenario.env_ok);
             Runtime.opt_algorithms := ["RS256"] |}
          (Runtime.date_now Scenario.env_ok
             (Runtime.tick
                (Auth.validateToken Scenario.env_ok "valid.jwt" Scenario.warm).2))
        = Runtime.Ok Scenario.alice.
Proof.
  assert (Hvalid :
    Auth.validateToken Scenario.env_ok "valid.jwt" Scenario.warm
    = (Runtime.Ok Scenario.alice,
       (Auth.validateToken Scenario.env_ok "valid.jwt" Scenario.warm).2))
    by reflexivity.
  split; [exact Hvalid|].
  exact (validateToken_sound Scenario.env_ok "valid.jwt" Scenario.warm
           Scenario.alice _ Hvalid).
Defined.

Lemma validateToken_errors_witness :
  (Auth.validateToken Scenario.env_ok "garbled.jwt" Scenario.warm).1
  = Runtime.Throw Scenario.badPayload
  ∧ (Scenario.badPayload = Runtime.newError "Invalid token format"
     ∨ Scenario.badPayload = Runtime.newError "Failed to retrieve JWKs"
     ∨ (Runtime.err_name Scenario.badPayload = "TypeError"
        ∧ (Auth.getJwks Scenario.env_ok Scenario.warm).1 = Runtime.Ok None)
     ∨ Scenario.badPayload = Observe.KeyIdNotFound
     ∨ Scenario.badPayload = Runtime.newError "Invalid token"
     ∨ (∃ key, Runtime.jwkToPem Scenario.env_ok key
               = Runtime.Throw Scenario.badPayload)
     ∨ Runtime.jwt_decode Scenario.env_ok "garbled.jwt"
       = Runtime.Throw Scenario.badPayload).
Proof.
  assert (Hgarbled :
    (Auth.validateToken Scenario.env_ok "garbled.jwt" Scenario.warm).1
    = Runtime.Throw Scenario.badPayload) by reflexivity.
  split; [exact Hgarbled|].
  exact (validateToken_errors Scenario.env_ok "garbled.jwt" Scenario.warm _
           Hgarbled).
Defined.

Lemma middleware_touches_one_row_witness :
  "c2" ≠ MessageService.ev_connectionId Scenario.bare_event
  ∧ Runtime.connections
      (WebSocketAuth.webSocketAuthMiddleware Scenario.env_ok Scenario.bare_event
         Scenario.registered).2 !! "c2"
    = Runtime.connections Scenario.registered !! "c2".
Proof.
  assert (Hother : "c2" ≠ MessageService.ev_connectionId Scenario.bare_event).
  { intros Heq. discriminate Heq. }
  split; [exact Hother|].
  exact (proj1 (middleware_touches_one_row Scenario.env_ok Scenario.bare_event
                  Scenario.registered "c2" Hother)).
Defined.

Lemma middleware_accepts_only_verified_witness :
  (WebSocketAuth.webSocketAuthMiddleware Scenario.env_ok
     (Scenario.event_carrying "valid.jwt") Scenario.registered
   = (Runtime.Ok
        (Examples.answer_of
           (WebSocketAuth.webSocketAuthMiddleware Scenario.env_ok
              (Scenario.event_carrying "valid.jwt") Scenario.registered).1),
      (WebSocketAuth.webSocketAuthMiddleware Scenario.env_ok
         (Scenario.event_carrying "valid.jwt") Scenario.registered).2)
   ∧ Http.statusCode
       (Examples.answer_of
          (WebSocketAuth.webSocketAuthMiddleware Scenario.env_ok
             (Scenario.event_carrying "valid.jwt") Scenario.registered).1)
     = 200%Z)
  ∧ ∃ cookieHeader token u,
      JsString.truthy
        (WebSocketAuth.cookieHeaderOf (Scenario.event_carrying "valid.jwt"))
      = Some cookieHeader
      ∧ JsString.truthy
          (Cookie.getCookie (Some cookieHeader)
             (Runtime.cookieName (Runtime.config Scenario.env_ok)))
        = Some token
      ∧ (Auth.validateToken Scenario.env_ok token
           (WebSocketAuth.resolveRequestId Scenario.env_ok
              (Scenario.event_carrying "valid.jwt") Scenario.registered).2).1
        = Runtime.Ok u.
Proof.
  assert (Hrun :
    WebSocketAuth.webSocketAuthMiddleware Scenario.env_ok
      (Scenario.event_carrying "valid.jwt") Scenario.registered
    = (Runtime.Ok
         (Examples.answer_of
            (WebSocketAuth.webSocketAuthMiddleware Scenario.env_ok
               (Scenario.event_carrying "valid.jwt") Scenario.registered).1),
       (WebSocketAuth.webSocketAuthMiddleware Scenario.env_ok
          (Scenario.event_carrying "valid.jwt") Scenario.registered).2))
    by reflexivity.
  assert (Haccepted :
    Http.statusCode
      (Examples.answer_of
         (WebSocketAuth.webSocketAuthMiddleware Scenario.env_ok
            (Scenario.event_carrying "valid.jwt") Scenario.registered).1)
    = 200%Z) by reflexivity.
  split; [by split|].
  destruct (middleware_accepts_only_verified Scenario.env_ok
              (Scenario.event_carrying "valid.jwt") Scenario.registered _ _
              Hrun Haccepted)
    as (cookieHeader & token & u & row & Hheader & Htoken & Hvalid & _).
  exists cookieHeader, token, u. split; [exact Hheader|].
  split; [exact Htoken|exact Hvalid].
Defined.

Lemma middleware_answers_200_or_401_witness :
  Observe.store_available Scenario.env_ok
  ∧ ∃ r,
      (WebSocketAuth.webSocketAuthMiddleware Scenario.env_ok
         (Scenario.event_carrying "forged.jwt") Scenario.registered).1
      = Runtime.Ok r
      ∧ (Http.statusCode r = 200%Z ∨ Http.statusCode r = 401%Z).
Proof.
  assert (Hstore : Observe.store_available Scenario.env_ok).
  { intros t. reflexivity. }
  split; [exact Hstore|].
  exact (middleware_answers_200_or_401 Scenario.env_ok
           (Scenario.event_carrying "forged.jwt") Scenario.registered Hstore).
Defined.

Lemma middleware_registration_failure_witness :
  (JsString.truthy
     (WebSocketAuth.cookieHeaderOf (Scenario.event_carrying "valid.jwt"))
   = Some "theme=dark; authToken=valid.jwt"
   ∧ JsString.truthy
       (Cookie.getCookie (Some "theme=dark; authToken=valid.jwt")
          (Runtime.cookieName (Runtime.config Examples.env_put_refused)))
     = Some "valid.jwt"
   ∧ (Auth.authenticateFromCookie Examples.env_put_refused "valid.jwt"
        (WebSocketAuth.resolveRequestId Examples.env_put_refused
           (Scenario.event_carrying "valid.jwt") Scenario.warm).2).1
     = Runtime.Ok (Some Scenario.alice)
   ∧ Runtime.dynamo_send Examples.env_put_refused
       (S (Runtime.tick
             (Auth.authenticateFromCookie Examples.env_put_refused "valid.jwt"
                (WebSocketAuth.resolveRequestId Examples.env_put_refused
                   (Scenario.event_carrying "valid.jwt") Scenario.warm).2).2))
     = Some Scenario.storeDown
   ∧ Runtime.dynamo_send Examples.env_put_refused
       (S (S (Runtime.tick
                (Auth.authenticateFromCookie Examples.env_put_refused "valid.jwt"
                   (WebSocketAuth.resolveRequestId Examples.env_put_refused
                      (Scenario.event_carrying "valid.jwt") Scenario.warm).2).2)))
     = None)
  ∧ (WebSocketAuth.webSocketAuthMiddleware Examples.env_put_refused
       (Scenario.event_carrying "valid.jwt") Scenario.warm).1
    = Runtime.Ok (Http.reply 500 (WebSocketAuth.bodyMessage "Authentication failed")).
Proof.
  assert (Hheader :
    JsString.truthy
      (WebSocketAuth.cookieHeaderOf (Scenario.event_carrying "valid.jwt"))
    = Some "theme=dark; authToken=valid.jwt") by reflexivity.
  assert (Htoken :
    JsString.truthy
      (Cookie.getCookie (Some "theme=dark; authToken=valid.jwt")
         (Runtime.cookieName (Runtime.config Examples.env_put_refused)))
    = Some "valid.jwt") by reflexivity.
  assert (Hchecked :
    (Auth.authenticateFromCookie Examples.env_put_refused "valid.jwt"
       (WebSocketAuth.resolveRequestId Examples.env_put_refused
          (Scenario.event_carrying "valid.jwt") Scenario.warm).2).1
    = Runtime.Ok (Some Scenario.alice)) by reflexivity.
  assert (Hput :
    Runtime.dynamo_send Examples.env_put_refused
      (S (Runtime.tick
            (Auth.authenticateFromCookie Examples.env_put_refused "valid.jwt"
               (WebSocketAuth.resolveRequestId Examples.env_put_refused
                  (Scenario.event_carrying "valid.jwt") Scenario.warm).2).2))
    = Some Scenario.storeDown) by reflexivity.
  assert (Hdelete :
    Runtime.dynamo_send Examples.env_put_refused
      (S (S (Runtime.tick
               (Auth.authenticateFromCookie Examples.env_put_refused "valid.jwt"
                  (WebSocketAuth.resolveRequestId Examples.env_put_refused
                     (Scenario.event_carrying "valid.jwt") Scenario.warm).2).2)))
    = None) by reflexivity.
  split; [split; [exact Hheader|split; [exact Htoken|split; [exact Hchecked|
          split; [exact Hput|exact Hdelete]]]]|].
  exact (proj1 (middleware_registration_failure Examples.env_put_refused
                  (Scenario.event_carrying "valid.jwt") Scenario.warm
                  "theme=dark; authToken=valid.jwt" "valid.jwt" Scenario.alice
                  Scenario.storeDown Hheader Htoken Hchecked Hput Hdelete)).
Defined.

Lemma socketAuthMiddleware_outcomes_witness :
  SocketAuth.socket_user (Examples.socket_with Examples.handshake) = None
  ∧ ∃ after next,
      (SocketAuth.socketAuthMiddleware Scenario.env_ok
         (Examples.socket_with Examples.handshake) Scenario.warm).1
      = Runtime.Ok (after, next)
      ∧ Runtime.connections
          (SocketAuth.socketAuthMiddleware Scenario.env_ok
             (Examples.socket_with Examples.handshake) Scenario.warm).2
        = Runtime.connections Scenario.warm.
Proof.
  assert (Hnobody :
    SocketAuth.socket_user (Examples.socket_with Examples.handshake) = None)
    by reflexivity.
  split; [exact Hnobody|].
  destruct (socketAuthMiddleware_outcomes Scenario.env_ok
              (Examples.socket_with Examples.handshake) Scenario.warm Hnobody)
    as (after & next & Hrun & Hconnections & _).
  exists after, next. split; [exact Hrun|exact Hconnections].
Defined.

Lemma gates_agree_witness :
  (SocketAuth.handshake_headers (Examples.socket_with Examples.handshake)
   = MessageService.ev_headers (Scenario.event_with Examples.handshake)
   ∧ JsString.truthy
       (MessageService.ev_headers (Scenario.event_with Examples.handshake)
          !! "Cookie") = None
   ∧ Observe.store_available Scenario.env_ok)
  ∧ ((∃ after,
        (SocketAuth.socketAuthMiddleware Scenario.env_ok
           (Examples.socket_with Examples.handshake) Scenario.warm).1
        = Runtime.Ok (after, None))
     ↔ (∃ r,
          (WebSocketAuth.webSocketAuthMiddleware Scenario.env_ok
             (Scenario.event_with Examples.handshake) Scenario.warm).1
          = Runtime.Ok r
          ∧ Http.statusCode r = 200%Z)).
Proof.
  assert (Hsame :
    SocketAuth.handshake_headers (Examples.socket_with Examples.handshake)
    = MessageService.ev_headers (Scenario.event_with Examples.handshake))
    by reflexivity.
  assert (Hlower :
    JsString.truthy
      (MessageService.ev_headers (Scenario.event_with Examples.handshake)
         !! "Cookie") = None) by reflexivity.
  assert (Hstore : Observe.store_available Scenario.env_ok).
  { intros t. reflexivity. }
  split; [split; [exact Hsame|split; [exact Hlower|exact Hstore]]|].
  exact (gates_agree Scenario.env_ok (Examples.socket_with Examples.handshake)
           (Scenario.event_with Examples.handshake) Scenario.warm
           Hsame Hlower Hstore).
Defined.

Lemma sendSocketError_codes_witness :
  JsString.includes "token"
    (SocketErrors.toLowerCase (Runtime.err_message Examples.sessionLapsed)) = true
  ∧ SocketErrors.em_errorCode
      (SocketErrors.sendSocketError "2026-01-01T00:00:00.000Z" "s1"
         (SocketErrors.ThrownOther Examples.sessionLapsed) "error")
    = "AUTH_REQUIRED".
Proof.
  assert (Htoken :
    JsString.includes "token"
      (SocketErrors.toLowerCase (Runtime.err_message Examples.sessionLapsed))
    = true) by reflexivity.
  split; [exact Htoken|].
  exact (proj2 (proj2 (sendSocketError_codes "2026-01-01T00:00:00.000Z" "s1"
                         Examples.sessionLapsed "error")) Htoken).
Defined.

Lemma vendor_messages_stay_inside_witness :
  SocketErrors.name_or_code "UnknownDynamoDBError" Scenario.storeDown
    ≠ "ValidationException"
  ∧ SocketErrors.handleDynamoDBError
      (SocketErrors.with_message "table arn:aws:dynamodb:connections is down"
         Scenario.storeDown) (Some "s1")
    = SocketErrors.handleDynamoDBError Scenario.storeDown (Some "s1").
Proof.
  assert (Hname :
    SocketErrors.name_or_code "UnknownDynamoDBError" Scenario.storeDown
      ≠ "ValidationException").
  { intros Heq. vm_compute in Heq. discriminate Heq. }
  split; [exact Hname|].
  exact (proj1 (proj2 (vendor_messages_stay_inside Scenario.storeDown (Some "s1")
                         "table arn:aws:dynamodb:connections is down")) Hname).
Defined.

Lemma withErrorHandling_acknowledgement_witness :
  (SocketErrors.pop_callback [SocketErrors.Data "x"; SocketErrors.Data "y"]
   = (None, [SocketErrors.Data "x"; SocketErrors.Data "y"])
   ∧ Examples.echo "s1" [SocketErrors.Data "x"; SocketErrors.Data "y"]
     = inr (SocketErrors.ThrownOther (Scenario.failure "Error" "boom" None)))
  ∧ SocketErrors.acked
      (SocketErrors.withErrorHandling "2026-01-01T00:00:00.000Z" Examples.echo
         "s1" ([SocketErrors.Data "x"; SocketErrors.Data "y"] ++ [SocketErrors.Fn 7]))
    = [].
Proof.
  assert (Hplain :
    SocketErrors.pop_callback [SocketErrors.Data "x"; SocketErrors.Data "y"]
    = (None, [SocketErrors.Data "x"; SocketErrors.Data "y"])) by reflexivity.
  assert (Hthrows :
    Examples.echo "s1" [SocketErrors.Data "x"; SocketErrors.Data "y"]
    = inr (SocketErrors.ThrownOther (Scenario.failure "Error" "boom" None)))
    by reflexivity.
  split; [by split|].
  exact (proj1 (proj2 (proj2 (withErrorHandling_acknowledgement
                                "2026-01-01T00:00:00.000Z" Examples.echo "s1"
                                [SocketErrors.Data "x"; SocketErrors.Data "y"] 7
                                Hplain) _ Hthrows))).
Defined.

Lemma websocket_events_never_throw_witness :
  JsString.truthy (Lambda.le_routeKey Examples.connect_event) = Some "$connect"
  ∧ ∃ r,
      (Lambda.handler Examples.proxy Examples.connect_event "req-1").1
      = Runtime.Ok r.
Proof.
  assert (Hroute :
    JsString.truthy (Lambda.le_routeKey Examples.connect_event)
    = Some "$connect") by reflexivity.
  split; [exact Hroute|].
  exact (proj1 (websocket_events_never_throw Examples.proxy
                  Examples.connect_event "req-1" "$connect" Hroute)).
Defined.

Lemma http_events_carry_request_id_witness :
  (JsString.truthy (Lambda.le_routeKey Examples.http_event) = None
   ∧ Lambda.le_headers Examples.http_event ≠ Lambda.HeadersUndefined)
  ∧ ∃ headers,
      (Lambda.handler Examples.proxy Examples.http_event "req-1").2
      = [Lambda.with_headers headers Examples.http_event]
      ∧ headers !! "x-request-id" = Some "req-1".
Proof.
  assert (Hplain :
    JsString.truthy (Lambda.le_routeKey Examples.http_event) = None)
    by reflexivity.
  assert (Hheaders :
    Lambda.le_headers Examples.http_event ≠ Lambda.HeadersUndefined).
  { intros Heq. discriminate Heq. }
  split; [by split|].
  destruct (http_events_carry_request_id Examples.proxy Examples.http_event
              "req-1" Hplain Hheaders)
    as (headers & Hsent & _ & Hid & _).
  exists headers. split; [exact Hsent|exact Hid].
Defined.
